(** * blivet / osinstall.py: fstab, crypttab and blkid.tab reconciliation

    A shallow embedding of [src/blivet/osinstall.py] (classes [BlkidTab],
    [CryptTab], [FSSet] and the functions [get_containing_device],
    [parse_fstab] and [release_from_redhat_release]) together with the
    exception classes of [src/blivet/errors.py] that the file catches or
    raises.

    Conventions of the embedding:
    - Python [str] values are Rocq [string]s; a character is one code point
      below 256.
    - Python objects that are mutated and shared (devices and their formats)
      live in an object store indexed by an identifier; lists and
      dictionaries of devices hold identifiers.
    - A Python call that may raise returns an [outcome]; the state reached
      when the exception leaves the call is kept, as in Python.
    - Everything the file imports from the rest of blivet or from the
      operating system (the device tree, format classes, [os.path],
      libblockdev, the process-wide flags) is a field of the record [Env]. *)

From Stdlib Require Import Ascii DecimalString ZArith.
From stdpp Require Import base option list sorting strings gmap.

Local Open Scope Z_scope.
Local Open Scope nat_scope.

(** ** Python string primitives used by the file *)

Module PyStr.

(** [str.isspace] on one character (code points below 256). *)
Definition is_space (c : ascii) : bool :=
  let n := nat_of_ascii c in
  ((9 <=? n) && (n <=? 13)) || ((28 <=? n) && (n <=? 32))
  || (n =? 133) || (n =? 160).

Definition cons_word (w : string) (ws : list string) : list string :=
  match w with
  | EmptyString => ws
  | _ => w :: ws
  end.

(** Scans right to left: the word under construction and the finished
    words to its right. *)
Fixpoint split_go (s : string) : string * list string :=
  match s with
  | EmptyString => (EmptyString, [])
  | String c s' =>
      let '(w, ws) := split_go s' in
      if is_space c then (EmptyString, cons_word w ws)
      else (String c w, ws)
  end.

(** [s.split()]: the maximal runs of non-whitespace characters. *)
Definition split (s : string) : list string :=
  let '(w, ws) := split_go s in cons_word w ws.

(** [s.split(sep)] for a one-character separator: empty pieces are kept,
    the result is never empty. *)
Fixpoint split_on (sep : ascii) (s : string) : list string :=
  match s with
  | EmptyString => [EmptyString]
  | String c s' =>
      if Ascii.eqb c sep then EmptyString :: split_on sep s'
      else match split_on sep s' with
           | w :: ws => String c w :: ws
           | [] => [String c EmptyString]
           end
  end.

(** [s.partition(sep)] for a one-character separator. *)
Fixpoint partition (sep : ascii) (s : string) : string * string * string :=
  match s with
  | EmptyString => (EmptyString, EmptyString, EmptyString)
  | String c s' =>
      if Ascii.eqb c sep then (EmptyString, String sep EmptyString, s')
      else
        let '(h, m, t) := partition sep s' in
        match m with
        | EmptyString => (String c s', EmptyString, EmptyString)
        | _ => (String c h, m, t)
        end
  end.

(** [s.startswith(p)]. *)
Definition startswith (p s : string) : bool := String.prefix p s.

(** [sub in s] for strings. *)
Fixpoint contains (sub s : string) : bool :=
  String.prefix sub s ||
  match s with
  | EmptyString => false
  | String _ s' => contains sub s'
  end.

(** [x in l] for a list of strings. *)
Definition mem (x : string) (l : list string) : bool :=
  existsb (String.eqb x) l.

(** [s[a:-b]] for non-negative literals [a] and [b], [b > 0]. *)
Definition slice (a b : nat) (s : string) : string :=
  String.substring a (String.length s - b - a) s.

(** [''.join(l)]. *)
Definition join (l : list string) : string :=
  foldr String.append EmptyString l.

Definition newline : ascii := ascii_of_nat 10.

(** [f.readlines()] on the text of a file: every line keeps its line
    terminator, the last line may lack one. *)
Fixpoint readlines (s : string) : list string :=
  match s with
  | EmptyString => []
  | String c s' =>
      if Ascii.eqb c newline then String c EmptyString :: readlines s'
      else match readlines s' with
           | [] => [String c EmptyString]
           | l :: ls => String c l :: ls
           end
  end.

Fixpoint spaces (n : nat) : string :=
  match n with
  | O => EmptyString
  | S n' => String " " (spaces n')
  end.

(** ["%-Ns" % s]: left-justified in a field of [width] characters. *)
Definition ljust (width : nat) (s : string) : string :=
  s +:+ spaces (width - String.length s).

(** ["%d" % n]. *)
Definition fmt_nat (n : nat) : string := NilZero.string_of_uint (Nat.to_uint n).
Definition fmt_Z (z : Z) : string := NilZero.string_of_int (Z.to_int z).

(** [os.path.basename]: what follows the last slash. *)
Fixpoint basename (p : string) : string :=
  match p with
  | EmptyString => EmptyString
  | String c p' =>
      if contains "/" p then basename p' else p
  end.

(** [s.lstrip()]. *)
Fixpoint lstrip (s : string) : string :=
  match s with
  | EmptyString => EmptyString
  | String c s' => if is_space c then lstrip s' else s
  end.

(** The run of non-whitespace characters at the head of [s], and what
    follows it. *)
Fixpoint span_word (s : string) : string * string :=
  match s with
  | EmptyString => (EmptyString, EmptyString)
  | String c s' =>
      if is_space c then (EmptyString, s)
      else let '(w, r) := span_word s' in (String c w, r)
  end.

(** [s.split(None, maxsplit)]: at most [maxsplit] words are split off from
    the left; what is left, if it holds anything but whitespace, is the
    last piece, from its first word to the end of [s]. *)
Fixpoint split_max (maxsplit : nat) (s : string) : list string :=
  match lstrip s with
  | EmptyString => []
  | String c s' =>
      match maxsplit with
      | O => [String c s']
      | S n => let '(w, r) := span_word (String c s') in w :: split_max n r
      end
  end.

(** [s.rstrip()] and [s.strip()]. *)
Fixpoint rstrip (s : string) : string :=
  match s with
  | EmptyString => EmptyString
  | String c s' =>
      match rstrip s' with
      | EmptyString => if is_space c then EmptyString else String c EmptyString
      | r => String c r
      end
  end.

Definition strip (s : string) : string := rstrip (lstrip s).

(** [f.readline()] on the text of a file: the first line with its
    terminator, or the empty string at the end of the file. *)
Definition readline (s : string) : string := hd EmptyString (readlines s).

(** [s.partition(sep)] for a separator of one or more characters. *)
Fixpoint find_sep (sep s : string) : option (string * string) :=
  if String.prefix sep s then
    Some (EmptyString,
          String.substring (String.length sep)
            (String.length s - String.length sep) s)
  else
    match s with
    | EmptyString => None
    | String c s' =>
        match find_sep sep s' with
        | Some (h, t) => Some (String c h, t)
        | None => None
        end
    end.

Definition partition_str (sep s : string) : string * string * string :=
  match find_sep sep s with
  | Some (h, t) => (h, sep, t)
  | None => (s, EmptyString, EmptyString)
  end.

End PyStr.

(** ** Exceptions and the state-and-exception monad *)

(** The exception classes the file raises or catches.  [StorageError]
    stands for [errors.StorageError] itself and for every subclass that the
    file does not name; [Exception] for anything else. *)
Inductive exn : Type :=
| StorageError
| UnrecognizedFSTabEntryError
| FSTabTypeMismatchError (msg : string)
| BlockDevError
| ValueError
| IndexError
| AttributeError
| TypeError
| IOError
| Exception.

(** [errors.py]: both fstab errors derive from [StorageError] and neither
    derives from the other. *)
Definition isinstance_StorageError (e : exn) : bool :=
  match e with
  | StorageError | UnrecognizedFSTabEntryError | FSTabTypeMismatchError _ => true
  | _ => false
  end.

Definition isinstance_UnrecognizedFSTabEntryError (e : exn) : bool :=
  match e with
  | UnrecognizedFSTabEntryError => true
  | _ => false
  end.

Definition isinstance_ValueError (e : exn) : bool :=
  match e with
  | ValueError => true
  | _ => false
  end.

(** How a call ends.  [OutOfFuel] is not a Python outcome: the two [while]
    loops of the file are run with a bound on their iterations, and a run
    that exceeds it ends so. *)
Inductive outcome (A : Type) : Type :=
| Return (a : A)
| Raise (e : exn)
| OutOfFuel.
Arguments Return {A} a.
Arguments Raise {A} e.
Arguments OutOfFuel {A}.

Definition is_Return {A} (o : outcome A) : bool :=
  match o with
  | Return _ => true
  | _ => false
  end.

(** A computation over a state [S]: the state is threaded through and
    survives an exception. *)
Definition M (S A : Type) : Type := S -> outcome A * S.

Definition ret {S A} (a : A) : M S A := fun s => (Return a, s).
Definition raise {S A} (e : exn) : M S A := fun s => (Raise e, s).

Definition bind {S A B} (c : M S A) (k : A -> M S B) : M S B :=
  fun s =>
    match c s with
    | (Return a, s') => k a s'
    | (Raise e, s') => (Raise e, s')
    | (OutOfFuel, s') => (OutOfFuel, s')
    end.

(** [try: c  except <class>: h]; [catches] decides the class test. *)
Definition try_except {S A} (c : M S A) (catches : exn -> bool)
    (h : exn -> M S A) : M S A :=
  fun s =>
    match c s with
    | (Return a, s') => (Return a, s')
    | (Raise e, s') => if catches e then h e s' else (Raise e, s')
    | (OutOfFuel, s') => (OutOfFuel, s')
    end.

Definition get {S} : M S S := fun s => (Return s, s).
Definition put {S} (s : S) : M S unit := fun _ => (Return tt, s).
Definition modify {S} (f : S -> S) : M S unit := fun s => (Return tt, f s).
Definition gets {S A} (f : S -> A) : M S A := fun s => (Return (f s), s).

(** Lifts a result computed without state. *)
Definition lift {S A} (o : outcome A) : M S A := fun s => (o, s).

Declare Scope py_scope.
Delimit Scope py_scope with py.
Notation "x <- c ;; k" := (bind c (fun x => k))
  (at level 100, c at next level, right associativity) : py_scope.
Notation "c ;;; k" := (bind c (fun _ => k))
  (at level 100, right associativity) : py_scope.
Local Open Scope py_scope.

(** [for x in l: body(x)]; an exception ends the loop. *)
Fixpoint for_each {S X} (l : list X) (body : X -> M S unit) : M S unit :=
  match l with
  | [] => ret tt
  | x :: l' => body x ;;; for_each l' body
  end.

(** ** Devices, formats and the device tree *)

Definition dev_id : Type := nat.

(** The slice of a format object that the file reads or writes.  The file
    treats three attributes as optional ([getattr] with a default,
    [hasattr], or [except AttributeError]): [mount_type], [mountpoint] and
    [test_mount]; for the first two the outer [None] says the attribute is
    missing and the inner one is Python's [None]. *)
Record Format : Type := mkFormat {
  f_type : option string;
  f_mount_type : option (option string);
  f_mountable : bool;
  f_mountpoint : option (option string);
  f_options : option string;
  f_check : bool;
  f_dump : Z;
  f_test_mount : bool;
  f_device : option string;
  f_exists : bool
}.

(** The device classes the file names.  [StorageDevice] is any other
    device class, [NetworkStorageDevice] any other network-backed one. *)
Inductive DeviceClass : Type :=
| StorageDevice
| FileDevice
| DirectoryDevice
| NFSDevice
| NetworkStorageDevice
| NoDevice
| OpticalDevice
| MDRaidArrayDevice.

(** [isinstance(d, FileDevice)]; blivet derives [DirectoryDevice] from
    [FileDevice]. *)
Definition isinstance_FileDevice (c : DeviceClass) : bool :=
  match c with
  | FileDevice | DirectoryDevice => true
  | _ => false
  end.

(** [isinstance(d, NetworkStorageDevice)]; [NFSDevice] derives from it. *)
Definition isinstance_NetworkStorageDevice (c : DeviceClass) : bool :=
  match c with
  | NFSDevice | NetworkStorageDevice => true
  | _ => false
  end.

Definition isinstance_OpticalDevice (c : DeviceClass) : bool :=
  match c with
  | OpticalDevice => true
  | _ => false
  end.

Record Device : Type := mkDevice {
  d_class : DeviceClass;
  d_name : string;
  d_path : string;
  d_format : Format;
  d_parents : list dev_id;
  d_exists : bool;
  d_status : bool;
  d_encrypted : bool;
  d_fstab_spec : string;
  d_fstab_comment : string;
  d_size : Z
}.

Definition set_format (f : Format) (d : Device) : Device :=
  mkDevice (d_class d) (d_name d) (d_path d) f (d_parents d) (d_exists d)
    (d_status d) (d_encrypted d) (d_fstab_spec d) (d_fstab_comment d) (d_size d).

Definition set_parents (ps : list dev_id) (d : Device) : Device :=
  mkDevice (d_class d) (d_name d) (d_path d) (d_format d) ps (d_exists d)
    (d_status d) (d_encrypted d) (d_fstab_spec d) (d_fstab_comment d) (d_size d).

Definition set_status (b : bool) (d : Device) : Device :=
  mkDevice (d_class d) (d_name d) (d_path d) (d_format d) (d_parents d)
    (d_exists d) b (d_encrypted d) (d_fstab_spec d) (d_fstab_comment d) (d_size d).

Definition set_f_mountpoint (mp : option (option string)) (f : Format) : Format :=
  mkFormat (f_type f) (f_mount_type f) (f_mountable f) mp (f_options f)
    (f_check f) (f_dump f) (f_test_mount f) (f_device f) (f_exists f).

Definition set_f_options (o : option string) (f : Format) : Format :=
  mkFormat (f_type f) (f_mount_type f) (f_mountable f) (f_mountpoint f) o
    (f_check f) (f_dump f) (f_test_mount f) (f_device f) (f_exists f).

(** The operations on devices, formats and the tree that the file invokes
    and that act outside of it. *)
Inductive Event : Type :=
| EvSetup (d : dev_id)                         (* device.setup() *)
| EvTeardown (d : dev_id)                      (* device.teardown() *)
| EvCreate (d : dev_id)                        (* device.create() *)
| EvFormatCreate (d : dev_id)                  (* device.format.create() *)
| EvFormatSetup (d : dev_id) (args : option (string * string))
                                               (* device.format.setup([options, chroot]) *)
| EvFormatTeardown (d : dev_id)                (* device.format.teardown() *)
| EvTestMount (f : Format)                     (* fmt.test_mount() *)
| EvAddDevice (d : dev_id)                     (* devicetree._add_device(d) *)
| EvRemoveDevice (d : dev_id).                 (* devicetree._remove_device(d) *)

(** The object store, the device tree ([devicetree.devices], in the tree's
    own order) and the operations performed so far, oldest first. *)
Record World : Type := mkWorld {
  objs : dev_id -> Device;
  next_id : dev_id;
  tree : list dev_id;
  trace : list Event
}.

Definition set_objs (o : dev_id -> Device) (w : World) : World :=
  mkWorld o (next_id w) (tree w) (trace w).
Definition set_tree (t : list dev_id) (w : World) : World :=
  mkWorld (objs w) (next_id w) t (trace w).
Definition set_trace (t : list Event) (w : World) : World :=
  mkWorld (objs w) (next_id w) (tree w) t.

Definition update_obj (i : dev_id) (f : Device -> Device) (w : World) : World :=
  set_objs (fun j => if Nat.eqb j i then f (objs w j) else objs w j) w.

Definition dev (w : World) (i : dev_id) : Device := objs w i.
Definition fmt_of (w : World) (i : dev_id) : Format := d_format (objs w i).

(** [x in l] for device references (object identity). *)
Definition dev_in (i : dev_id) (l : list dev_id) : bool := existsb (Nat.eqb i) l.

(** ** The parsed tables *)

(** [BlkidTab]: [devices] maps a device path to its attribute dictionary. *)
Record BlkidTab : Type := mkBlkidTab {
  bt_chroot : string;
  bt_devices : gmap string (gmap string string)
}.

(** One value of [CryptTab.mappings]. *)
Record MapInfo : Type := mkMapInfo {
  mi_device : dev_id;
  mi_keyfile : string;
  mi_options : string
}.

(** [CryptTab]; its [devicetree] is the tree of the [World]. *)
Record CryptTab : Type := mkCryptTab {
  ct_blkid_tab : option BlkidTab;
  ct_chroot : string;
  ct_mappings : gmap string MapInfo
}.

(** ** What the file takes from its surroundings *)

Record Env : Type := mkEnv {
  (* flags.installer_mode and isinstance(_platform, EFI) *)
  installer_mode : bool;
  platform_is_efi : bool;
  (* get_sysroot(), get_target_physical_root(), time.asctime() *)
  get_sysroot : string;
  get_target_physical_root : string;
  asctime : string;
  (* open(path).read(): None when open raises *)
  read_file : World -> string -> option string;
  (* os.path.isdir, os.access(path, R_OK), os.path.exists, os.path.normpath *)
  isdir : World -> string -> bool;
  access_r : World -> string -> bool;
  path_exists : World -> string -> bool;
  normpath : string -> string;
  (* os.major/os.minor of os.stat(path).st_dev *)
  stat_dev : World -> string -> nat * nat;
  (* os.readlink(link): None when it raises *)
  readlink : World -> string -> option string;
  (* blockdev.dm.name_from_node(node): None when it raises *)
  dm_name_from_node : World -> string -> option string;
  (* devicetree.resolve_device(devspec, crypt_tab, blkid_tab, options) *)
  resolve_device :
    World -> string -> option CryptTab -> option BlkidTab -> option string ->
    option dev_id;
  (* formats.get_format(fmt_type, device=, mountpoint=, exists=) *)
  get_format : string -> option string -> option string -> bool -> Format;
  (* cls = get_device_format_class("nodev"); cls and isinstance(fmt, cls) *)
  is_nodev_format : Format -> bool;
  (* device.depends_on(other) *)
  depends_on : World -> dev_id -> dev_id -> bool;
  (* whether an operation raises, and what *)
  op_raises : World -> Event -> option exn;
  (* the value returned by fmt.test_mount() *)
  test_mount : World -> Format -> bool;
  (* error_handler.cb(e) == ERROR_RAISE *)
  error_handler_raise : World -> exn -> bool
}.

(** Modelled from the spec: the device classes are not part of this file.
    [setup] activates a device and [teardown] deactivates it; adding to and
    removing from the tree change its device list; the other operations
    only act on the system outside.  An operation that raises has no
    effect on the model. *)
Definition op_effect (ev : Event) (w : World) : World :=
  match ev with
  | EvSetup d => update_obj d (set_status true) w
  | EvTeardown d => update_obj d (set_status false) w
  | EvAddDevice d => set_tree (tree w ++ [d]) w
  | EvRemoveDevice d => set_tree (filter (fun j => j ≠ d) (tree w)) w
  | _ => w
  end.

Definition log_event (ev : Event) (w : World) : World :=
  set_trace (trace w ++ [ev]) w.

(** Modelled from the spec: a device constructor of the external classes.
    The new object carries the arguments it was built from; it is neither
    active nor in the tree. *)
Definition new_device (cls : DeviceClass) (name : string) (fmt : Format)
    (parents : list dev_id) (exists_ : bool) (size : Z) : M World dev_id :=
  fun w =>
    let i := next_id w in
    let d := mkDevice cls name name fmt parents exists_ false false name
               EmptyString size in
    (Return i,
     mkWorld (fun j => if Nat.eqb j i then d else objs w j) (S i)
       (tree w) (trace w)).

(** Modelled from the spec: [devicetree.get_device_by_name], the first
    device of the tree with that name. *)
Definition get_device_by_name (w : World) (name : string) : option dev_id :=
  List.find (fun i => String.eqb (d_name (objs w i)) name) (tree w).

Section WithEnv.

Context (E : Env).

(** An external operation: it is recorded, then raises or takes effect. *)
Definition perform (ev : Event) : M World unit :=
  fun w =>
    let w' := log_event ev w in
    match op_raises E w ev with
    | Some e => (Raise e, w')
    | None => (Return tt, op_effect ev w')
    end.

(** *** [BlkidTab.parse] *)

(** [(key, value) = l]. *)
Definition unpack2 (l : list string) : outcome (string * string) :=
  match l with
  | [k; v] => Return (k, v)
  | _ => Raise ValueError
  end.

(** [value[1:-1]]. *)
Definition unquote (value : string) : string := PyStr.slice 1 1 value.

(** [self.devices[device][key] = v]; the inner lookup raises [KeyError]
    (here [Exception]) on a missing device. *)
Definition blkid_set_attr (device key v : string) : M BlkidTab unit :=
  fun self =>
    match bt_devices self !! device with
    | Some attrs =>
        (Return tt,
         mkBlkidTab (bt_chroot self)
           (<[device := <[key := v]> attrs]> (bt_devices self)))
    | None => (Raise Exception, self)
    end.

Definition BlkidTab_parse_pair (device pair : string) : M BlkidTab unit :=
  r <- try_except
         (kv <- lift (unpack2 (PyStr.split_on "=" pair)) ;; ret (Some kv))
         isinstance_ValueError
         (fun _ => ret None) ;;
  match r with
  | None => ret tt                                  (* continue *)
  | Some (key, value) => blkid_set_attr device key (unquote value)
  end.

Definition BlkidTab_parse_line (line : string) : M BlkidTab unit :=
  if negb (PyStr.startswith "<device " line) then ret tt   (* continue *)
  else
    let line := PyStr.slice 8 10 line in
    let '(data, _sep, device) := PyStr.partition ">" line in
    match device with
    | EmptyString => ret tt                                (* continue *)
    | _ =>
        modify (fun self =>
                  mkBlkidTab (bt_chroot self)
                    (<[device := ∅]> (bt_devices self))) ;;;
        for_each (PyStr.split data) (BlkidTab_parse_pair device)
    end.

Definition BlkidTab_parse (w : World) : M BlkidTab unit :=
  self <- get ;;
  let path := bt_chroot self +:+ "/etc/blkid/blkid.tab" in
  match read_file E w path with
  | None => raise IOError
  | Some text => for_each (PyStr.readlines text) BlkidTab_parse_line
  end.

(** [BlkidTab(chroot=chroot)] followed by [parse()]. *)
Definition BlkidTab_new (chroot : string) : BlkidTab := mkBlkidTab chroot ∅.

(** *** [CryptTab.parse] *)

(** [try: tab = BlkidTab(chroot); tab.parse()  except Exception: tab = None] *)
Definition blkid_tab_or_None (w : World) (chroot : string) : option BlkidTab :=
  match BlkidTab_parse w (BlkidTab_new chroot) with
  | (Return _, tab) => Some tab
  | _ => None
  end.

Definition CryptTab_parse_line (w : World) (line : string) : M CryptTab unit :=
  let '(line, _pound, _comment) := PyStr.partition "#" line in
  let fields := PyStr.split line in
  let n := length fields in
  if negb ((2 <=? n) && (n <=? 4)) then ret tt              (* continue *)
  else
    let fields :=
      if n =? 2 then fields ++ ["none"; ""]
      else if n =? 3 then fields ++ [""]
      else fields in
    match fields with
    | [name; devspec; keyfile; options] =>
        self <- get ;;
        match resolve_device E w devspec None (ct_blkid_tab self) None with
        | Some device =>
            put (mkCryptTab (ct_blkid_tab self) (ct_chroot self)
                   (<[name := mkMapInfo device keyfile options]>
                      (ct_mappings self)))
        | None => ret tt
        end
    | _ => raise ValueError
    end.

Definition CryptTab_parse (w : World) (chroot : string) : M CryptTab unit :=
  let chroot :=
    if String.eqb chroot "" || negb (isdir E w chroot) then "" else chroot in
  let path := chroot +:+ "/etc/crypttab" in
  match read_file E w path with
  | None => raise IOError
  | Some text =>
      self <- get ;;
      (match ct_blkid_tab self with
       | Some _ => ret tt
       | None =>
           put (mkCryptTab (blkid_tab_or_None w chroot) (ct_chroot self)
                  (ct_mappings self))
       end) ;;;
      for_each (PyStr.readlines text) (CryptTab_parse_line w)
  end.

(** [CryptTab(devicetree, blkid_tab=blkid_tab, chroot=chroot)]. *)
Definition CryptTab_new (blkid_tab : option BlkidTab) (chroot : string)
    : CryptTab :=
  mkCryptTab blkid_tab chroot ∅.

(** *** [get_containing_device] *)

Definition os_readlink (w : World) (link : string) : outcome string :=
  match readlink E w link with
  | Some target => Return target
  | None => Raise Exception
  end.

Definition blockdev_dm_name_from_node (w : World) (node : string)
    : outcome string :=
  match dm_name_from_node E w node with
  | Some name => Return name
  | None => Raise BlockDevError
  end.

Definition get_containing_device (path : string) : M World (option dev_id) :=
  w <- get ;;
  if negb (path_exists E w path) then ret None
  else
    let '(major, minor) := stat_dev E w path in
    let link :=
      "/sys/dev/block/" +:+ PyStr.fmt_nat major +:+ ":" +:+ PyStr.fmt_nat minor in
    if negb (path_exists E w link) then ret None
    else
      r <- try_except
             (target <- lift (os_readlink w link) ;;
              ret (Some (PyStr.basename target)))
             (fun _ => true)
             (fun _ => ret None) ;;
      match r with
      | None => ret None
      | Some device_name =>
          device_name <-
            (if PyStr.startswith "dm-" device_name
             then lift (blockdev_dm_name_from_node w device_name)
             else ret device_name) ;;
          ret (get_device_by_name w device_name)
      end.

(** *** [FSSet] *)

(** The lazily created devices of the virtual filesystems, one per
    private attribute of [FSSet]. *)
Inductive VirtualFS : Type :=
| _dev | _devpts | _sysfs | _proc | _devshm | _usb | _selinux | _run
| _efivars.

Definition VirtualFS_eqb (a b : VirtualFS) : bool :=
  match a, b with
  | _dev, _dev | _devpts, _devpts | _sysfs, _sysfs | _proc, _proc
  | _devshm, _devshm | _usb, _usb | _selinux, _selinux | _run, _run
  | _efivars, _efivars => true
  | _, _ => false
  end.

Record FSSet : Type := mkFSSet {
  crypt_tab : option CryptTab;
  blkid_tab : option BlkidTab;
  orig_fstab : option string;
  active : bool;
  virtual : VirtualFS -> option dev_id;
  _fstab_swaps : gset dev_id;
  preserve_lines : list string
}.

(** [FSSet(devicetree)]. *)
Definition FSSet_new : FSSet :=
  mkFSSet None None None false (fun _ => None) ∅ [].

Definition set_tabs (b : option BlkidTab) (c : option CryptTab) (fs : FSSet)
    : FSSet :=
  mkFSSet c b (orig_fstab fs) (active fs) (virtual fs) (_fstab_swaps fs)
    (preserve_lines fs).
Definition set_orig_fstab (t : option string) (fs : FSSet) : FSSet :=
  mkFSSet (crypt_tab fs) (blkid_tab fs) t (active fs) (virtual fs)
    (_fstab_swaps fs) (preserve_lines fs).
Definition set_active (b : bool) (fs : FSSet) : FSSet :=
  mkFSSet (crypt_tab fs) (blkid_tab fs) (orig_fstab fs) b (virtual fs)
    (_fstab_swaps fs) (preserve_lines fs).
Definition set_virtual (v : VirtualFS) (i : dev_id) (fs : FSSet) : FSSet :=
  mkFSSet (crypt_tab fs) (blkid_tab fs) (orig_fstab fs) (active fs)
    (fun v' => if VirtualFS_eqb v' v then Some i else virtual fs v')
    (_fstab_swaps fs) (preserve_lines fs).
Definition set_fstab_swaps_field (s : gset dev_id) (fs : FSSet) : FSSet :=
  mkFSSet (crypt_tab fs) (blkid_tab fs) (orig_fstab fs) (active fs)
    (virtual fs) s (preserve_lines fs).
Definition set_preserve_lines (l : list string) (fs : FSSet) : FSSet :=
  mkFSSet (crypt_tab fs) (blkid_tab fs) (orig_fstab fs) (active fs)
    (virtual fs) (_fstab_swaps fs) l.

(** An [FSSet] together with the device tree it refers to. *)
Record State : Type := mkState {
  self : FSSet;
  world : World
}.

(** Runs a computation on the world inside a method of [FSSet]. *)
Definition in_world {A} (c : M World A) : M State A :=
  fun st =>
    let '(o, w') := c (world st) in (o, mkState (self st) w').

Definition modify_self (f : FSSet -> FSSet) : M State unit :=
  modify (fun st => mkState (f (self st)) (world st)).

(** Modelled from the spec: [NoDevice(fmt=fmt)] is named after the device
    of its format, or ["none"]. *)
Definition NoDevice_new (fmt : Format) : M World dev_id :=
  new_device NoDevice (default "none" (f_device fmt)) fmt [] false 0%Z.

(** The constructor call of each of the lazy properties [sysfs], [dev],
    [devpts], [proc], [devshm], [usb], [selinux], [efivars] and [run]. *)
Definition virtual_new (v : VirtualFS) : M World dev_id :=
  let nodev (ty mp : string) :=
    NoDevice_new (get_format E ty (Some ty) (Some mp) false) in
  let dir (p : string) :=
    new_device DirectoryDevice p
      (get_format E "bind" (Some p) (Some p) true) [] true 0%Z in
  match v with
  | _sysfs => nodev "sysfs" "/sys"
  | _dev => dir "/dev"
  | _devpts => nodev "devpts" "/dev/pts"
  | _proc => nodev "proc" "/proc"
  | _devshm => nodev "tmpfs" "/dev/shm"
  | _usb => nodev "usbfs" "/proc/bus/usb"
  | _selinux => nodev "selinuxfs" "/sys/fs/selinux"
  | _efivars => nodev "efivarfs" "/sys/firmware/efi/efivars"
  | _run => dir "/run"
  end.

(** A lazy property: [if not self._x: self._x = ...; return self._x]. *)
Definition virtual_device (v : VirtualFS) : M State dev_id :=
  st <- get ;;
  match virtual (self st) v with
  | Some i => ret i
  | None =>
      i <- in_world (virtual_new v) ;;
      modify_self (set_virtual v i) ;;;
      ret i
  end.

(** Python's [list.sort]/[sorted] is stable; insertion from the right is
    the stable sort written out, and a stable sort has one result. *)
Fixpoint insert_by {A} (key : A -> string) (x : A) (l : list A) : list A :=
  match l with
  | [] => [x]
  | y :: l' =>
      if String.leb (key x) (key y) then x :: l
      else y :: insert_by key x l'
  end.

Definition sort_by {A} (key : A -> string) (l : list A) : list A :=
  foldr (insert_by key) [] l.

(** [sorted(l, key=k)] where [k] may evaluate to [None]: comparing [None]
    raises [TypeError], and every element of a list of two or more is
    compared at least once. *)
Definition sort_by_opt {A} (key : A -> option string) (l : list A)
    : outcome (list A) :=
  if (2 <=? length l) && existsb (fun x => bool_decide (key x = None)) l
  then Raise TypeError
  else Return (sort_by (fun x => default "" (key x)) l).

(** The property [FSSet.devices]. *)
Definition devices (w : World) : list dev_id :=
  sort_by (fun i => d_path (objs w i)) (tree w).

(** [d[k] = v] on a dictionary kept in insertion order. *)
Fixpoint dict_set (k : string) (v : dev_id) (d : list (string * dev_id))
    : list (string * dev_id) :=
  match d with
  | [] => [(k, v)]
  | (k', v') :: d' =>
      if String.eqb k' k then (k, v) :: d' else (k', v') :: dict_set k v d'
  end.

(** Truth value of a [str]-or-[None] attribute. *)
Definition truthy (o : option string) : bool :=
  match o with
  | Some (String _ _) => true
  | _ => false
  end.

(** [device.format.mountpoint]: [AttributeError] when the format has no
    such attribute. *)
Definition format_mountpoint (f : Format) : outcome (option string) :=
  match f_mountpoint f with
  | Some v => Return v
  | None => Raise AttributeError
  end.

(** The property [FSSet.mountpoints]: mountpoint to device. *)
Fixpoint mountpoints_loop (w : World) (l : list dev_id)
    (filesystems : list (string * dev_id))
    : outcome (list (string * dev_id)) :=
  match l with
  | [] => Return filesystems
  | device :: l' =>
      let f := fmt_of w device in
      if f_mountable f then
        match format_mountpoint f with
        | Return (Some (String c s)) =>
            mountpoints_loop w l' (dict_set (String c s) device filesystems)
        | Return _ => mountpoints_loop w l' filesystems
        | Raise e => Raise e
        | OutOfFuel => OutOfFuel
        end
      else mountpoints_loop w l' filesystems
  end.

Definition mountpoints (w : World) : outcome (list (string * dev_id)) :=
  mountpoints_loop w (devices w) [].

(** The property [FSSet.swap_devices]. *)
Definition swap_devices (w : World) : list dev_id :=
  List.filter
    (fun device => bool_decide (f_type (fmt_of w device) = Some "swap"))
    (devices w).

(** *** [FSSet._parse_one_line] *)

(** [getattr(fmt, "mount_type", fmt.type)]. *)
Definition mount_type_of (f : Format) : option string :=
  match f_mount_type f with
  | Some v => v
  | None => f_type f
  end.

(** ["%s" % x] for a [str]-or-[None] value. *)
Definition py_str (o : option string) : string := default "None" o.

Definition is_None {A} (o : option A) : bool :=
  match o with
  | None => true
  | Some _ => false
  end.

Definition is_Some_b {A} (o : option A) : bool := negb (is_None o).

Definition virtual_mountpoints : list string :=
  ["/proc"; "/sys"; "/dev/shm"; "/dev/pts"; "/sys/fs/selinux";
   "/proc/bus/usb"; "/sys/firmware/efi/efivars"].

(** [fmt.test_mount()]. *)
Definition do_test_mount (fmt : Format) : M World bool :=
  perform (EvTestMount fmt) ;;;
  w <- get ;;
  ret (test_mount E w fmt).

(** The [if]/[elif] chain that finds or builds the device of an entry.
    The result [None] is the [return None] of the virtual mountpoints;
    otherwise the local variables [device] and [fstype] after the chain. *)
Definition find_or_build_device (devspec mountpoint fstype options : string)
    : M State (option (option dev_id * string)) :=
  st <- get ;;
  match resolve_device E (world st) devspec (crypt_tab (self st))
          (blkid_tab (self st)) (Some options) with
  | Some device => ret (Some (Some device, fstype))
  | None =>
      if PyStr.startswith "/dev/loop" devspec then
        ret (Some (None, fstype))
      else if PyStr.contains ":" devspec && PyStr.startswith "nfs" fstype then
        device <- in_world
                    (new_device NFSDevice devspec
                       (get_format E fstype (Some devspec) None true)
                       [] true 0%Z) ;;
        ret (Some (Some device, fstype))
      else if PyStr.startswith "/" devspec && String.eqb fstype "swap" then
        parents <- in_world (get_containing_device devspec) ;;
        device <- in_world
                    (new_device FileDevice devspec
                       (get_format E fstype (Some devspec) None true)
                       (option_list parents) true 0%Z) ;;
        ret (Some (Some device, fstype))
      else if String.eqb fstype "bind" || PyStr.contains "bind" options then
        let fstype := "bind" in
        parents <- in_world (get_containing_device devspec) ;;
        device <- in_world
                    (new_device DirectoryDevice devspec
                       (get_format E "bind" (Some devspec) None true)
                       (option_list parents) true 0%Z) ;;
        ret (Some (Some device, fstype))
      else if PyStr.mem mountpoint virtual_mountpoints then
        ret None
      else
        let fmt := get_format E fstype None None false in
        if String.eqb devspec "none" || is_nodev_format E fmt then
          device <- in_world (NoDevice_new fmt) ;;
          ret (Some (Some device, fstype))
        else ret (Some (None, fstype))
  end.

(** [if hasattr(device.format, "mountpoint"): device.format.mountpoint = mp]
    followed by [device.format.options = options]. *)
Definition stamp_format (mountpoint options : string) (f : Format) : Format :=
  let f :=
    match f_mountpoint f with
    | Some _ => set_f_mountpoint (Some (Some mountpoint)) f
    | None => f
    end in
  set_f_options (Some options) f.

Definition _parse_one_line (devspec mountpoint fstype options : string)
    : M State (option dev_id) :=
  if PyStr.mem "noauto" (PyStr.split_on "," options) then
    raise UnrecognizedFSTabEntryError
  else
    r <- find_or_build_device devspec mountpoint fstype options ;;
    match r with
    | None => ret None
    | Some (None, _) => raise UnrecognizedFSTabEntryError
    | Some (Some device, fstype) =>
        in_world (perform (EvSetup device)) ;;;
        st <- get ;;
        let w := world st in
        let fmt := get_format E fstype (Some (d_path (objs w device))) None true in
        if negb (String.eqb fstype "auto")
           && (is_None (f_type (fmt_of w device)) || is_None (f_type fmt))
        then
          in_world (perform (EvTeardown device)) ;;;
          raise UnrecognizedFSTabEntryError
        else
          let ftype := mount_type_of fmt in
          let dtype := mount_type_of (fmt_of w device) in
          (if f_test_mount fmt && negb (String.eqb fstype "auto")
              && negb (bool_decide (ftype = dtype))
           then
             ok <- in_world (do_test_mount fmt) ;;
             if ok then in_world (modify (update_obj device (set_format fmt)))
             else
               in_world (perform (EvTeardown device)) ;;;
               raise (FSTabTypeMismatchError
                        (mountpoint +:+ ": detected as " +:+ py_str dtype
                         +:+ ", fstab says " +:+ py_str ftype))
           else ret tt) ;;;
          in_world
            (modify
               (update_obj device
                  (fun d => set_format
                              (stamp_format mountpoint options (d_format d)) d))) ;;;
          ret (Some device)
    end.

(** *** [FSSet.parse_fstab] *)

(** [self.preserve_lines.append(line)]. *)
Definition append_preserve (line : string) : M State unit :=
  modify_self (fun fs => set_preserve_lines (preserve_lines fs ++ [line]) fs).

(** The body of [for line in lines].  The loop variable is rebound by the
    [partition]: what is preserved is the text before the first [#]. *)
Definition parse_fstab_line (line : string) : M State unit :=
  let '(line, _pound, _comment) := PyStr.partition "#" line in
  let fields := PyStr.split line in
  let n := length fields in
  if negb ((4 <=? n) && (n <=? 6)) then ret tt                 (* continue *)
  else
    match fields with
    | devspec :: mountpoint :: fstype :: options :: _ =>
        r <- try_except
               (device <- _parse_one_line devspec mountpoint fstype options ;;
                ret (Some device))
               isinstance_UnrecognizedFSTabEntryError
               (fun _ => append_preserve line ;;; ret None) ;;
        match r with
        | None => ret tt                                       (* continue *)
        | Some None => ret tt                                  (* continue *)
        | Some (Some device) =>
            st <- get ;;
            if negb (dev_in device (tree (world st))) then
              try_except
                (in_world (perform (EvAddDevice device)))
                isinstance_ValueError
                (fun _ => append_preserve line)
            else ret tt
        end
    | _ => raise TypeError
    end.

Definition parse_fstab (chroot : option string) : M State unit :=
  st <- get ;;
  let w := world st in
  let chroot :=
    match chroot with
    | Some c =>
        if String.eqb c "" || negb (isdir E w c) then get_sysroot E else c
    | None => get_sysroot E
    end in
  let path := chroot +:+ "/etc/fstab" in
  if negb (access_r E w path) then ret tt                      (* return *)
  else
    let blkid_tab := blkid_tab_or_None w chroot in
    let crypt_tab :=
      match CryptTab_parse w chroot (CryptTab_new blkid_tab chroot) with
      | (Return _, tab) => Some tab
      | _ => None
      end in
    modify_self (set_tabs blkid_tab crypt_tab) ;;;
    match read_file E w path with
    | None => raise IOError
    | Some text =>
        let lines := PyStr.readlines text in
        modify_self (set_orig_fstab (Some (PyStr.join lines))) ;;;
        for_each lines parse_fstab_line
    end.

(** *** [FSSet.turn_on_swap] *)

Definition isinstance_BlockDevError (e : exn) : bool :=
  match e with
  | BlockDevError => true
  | _ => false
  end.

(** [device.parents = [...]] after [get_containing_device(target_dir)];
    the result tells whether the loop body goes on ([False]: the device was
    removed from the tree and the body ends with [continue]). *)
Definition reparent (root_path : string) (device : dev_id) : M State bool :=
  st <- get ;;
  let target_dir := root_path +:+ "/" +:+ d_path (objs (world st) device) in
  parent <- in_world (get_containing_device target_dir) ;;
  match parent with
  | None =>
      in_world (modify (update_obj device (set_parents []))) ;;;
      in_world (perform (EvRemoveDevice device)) ;;;
      ret false
  | Some p =>
      in_world (modify (update_obj device (set_parents [p]))) ;;;
      ret true
  end.

(** [while True: try: device.setup(); device.format.setup()
    except (StorageError, BlockDevError) as e: ... raise  else: break]. *)
Fixpoint swap_setup_retry (fuel : nat) (device : dev_id) : M State unit :=
  match fuel with
  | O => fun st => (OutOfFuel, st)
  | S fuel' =>
      done <- try_except
                (in_world (perform (EvSetup device)) ;;;
                 in_world (perform (EvFormatSetup device None)) ;;;
                 ret true)
                (fun e => isinstance_StorageError e || isinstance_BlockDevError e)
                (fun e =>
                   st <- get ;;
                   if error_handler_raise E (world st) e then raise e
                   else ret false) ;;
      if done then ret tt else swap_setup_retry fuel' device
  end.

Definition turn_on_swap_device (fuel : nat) (root_path : string)
    (device : dev_id) : M State unit :=
  st <- get ;;
  go_on <- (if isinstance_FileDevice (d_class (objs (world st) device))
            then reparent root_path device
            else ret true) ;;
  if go_on then swap_setup_retry fuel device else ret tt.

Definition turn_on_swap (fuel : nat) (root_path : string) : M State unit :=
  if negb (installer_mode E) then ret tt                       (* return *)
  else
    st <- get ;;
    for_each (swap_devices (world st)) (turn_on_swap_device fuel root_path).

(** *** [FSSet.mount_filesystems] and [FSSet.umount_filesystems] *)

Fixpoint map_m {S X Y} (f : X -> M S Y) (l : list X) : M S (list Y) :=
  match l with
  | [] => ret []
  | x :: l' => y <- f x ;; ys <- map_m f l' ;; ret (y :: ys)
  end.

(** [list(self.mountpoints.values()) + self.swap_devices], extended by the
    listed virtual devices and, on EFI, by [self.efivars]. *)
Definition gather_devices (extras : list VirtualFS) : M State (list dev_id) :=
  st <- get ;;
  filesystems <- lift (mountpoints (world st)) ;;
  let devices := map snd filesystems ++ swap_devices (world st) in
  vs <- map_m virtual_device extras ;;
  efi <- (if platform_is_efi E
          then v <- virtual_device _efivars ;; ret [v]
          else ret []) ;;
  ret (devices ++ vs ++ efi).

(** [getattr(d.format, "mountpoint", "")]. *)
Definition mountpoint_key (w : World) (d : dev_id) : option string :=
  match f_mountpoint (fmt_of w d) with
  | Some v => v
  | None => Some ""
  end.

(** [devices.sort(key=lambda d: getattr(d.format, "mountpoint", ""))]. *)
Definition sort_by_mountpoint (l : list dev_id) : M State (list dev_id) :=
  st <- get ;;
  lift (sort_by_opt (mountpoint_key (world st)) l).

(** [except Exception as e: if error_handler.cb(e) == ERROR_RAISE: raise];
    the result is [ok] when nothing was raised and [skipped] otherwise. *)
Definition guarded {A} (c : M State unit) (ok skipped : A) : M State A :=
  try_except
    (c ;;; ret ok)
    (fun _ => true)
    (fun e =>
       st <- get ;;
       if error_handler_raise E (world st) e then raise e else ret skipped).

Definition mount_device (root_path : string) (read_only : option string)
    (skip_root : bool) (device : dev_id) : M State unit :=
  st <- get ;;
  let f := fmt_of (world st) device in
  if negb (f_mountable f) then ret tt                          (* continue *)
  else
    mountpoint <- lift (format_mountpoint f) ;;
    if negb (truthy mountpoint) then ret tt                    (* continue *)
    else if skip_root && bool_decide (mountpoint = Some "/") then ret tt
    else
      match f_options f with
      | None => raise AttributeError
      | Some options =>
          if PyStr.mem "noauto" (PyStr.split_on "," options) then ret tt
          else
            go_on <-
              (if bool_decide (f_type f = Some "bind") then
                 d <- virtual_device _dev ;;
                 r <- virtual_device _run ;;
                 if negb (dev_in device [d; r]) then reparent root_path device
                 else ret true
               else ret true) ;;
            if negb go_on then ret tt                          (* continue *)
            else
              up <- guarded (in_world (perform (EvSetup device))) true false ;;
              if negb up then ret tt                           (* continue *)
              else
                let options :=
                  if truthy read_only
                  then options +:+ "," +:+ default "" read_only
                  else options in
                guarded
                  (in_world
                     (perform (EvFormatSetup device (Some (options, root_path)))))
                  tt tt
      end.

Definition mount_extras : list VirtualFS :=
  [_dev; _devshm; _devpts; _sysfs; _proc; _selinux; _usb; _run].

Definition mount_filesystems (root_path : string) (read_only : option string)
    (skip_root : bool) : M State unit :=
  if negb (installer_mode E) then ret tt                       (* return *)
  else
    devices <- gather_devices mount_extras ;;
    devices <- sort_by_mountpoint devices ;;
    for_each devices (mount_device root_path read_only skip_root) ;;;
    modify_self (set_active true).

Definition umount_device (swapoff : bool) (device : dev_id) : M State unit :=
  st <- get ;;
  let f := fmt_of (world st) device in
  if negb (f_mountable f)
     || (bool_decide (f_type f = Some "swap") && negb swapoff)
  then ret tt                                                  (* continue *)
  else in_world (perform (EvFormatTeardown device)).

Definition umount_extras : list VirtualFS :=
  [_dev; _devshm; _devpts; _sysfs; _proc; _usb; _selinux; _run].

Definition umount_filesystems (swapoff : bool) : M State unit :=
  devices <- gather_devices umount_extras ;;
  devices <- sort_by_mountpoint devices ;;
  let devices := rev devices in
  for_each devices (umount_device swapoff) ;;;
  modify_self (set_active false).

(** *** [FSSet.create_swap_file] *)

(** ["/SWAP"], then ["/SWAP-%d" % count]. *)
Definition swap_filename (count : nat) : string :=
  match count with
  | O => "/SWAP"
  | S _ => "/SWAP-" +:+ PyStr.fmt_nat count
  end.

(** The condition of the [while] loop. *)
Definition swap_filename_taken (w : World) (basedir filename : string) : bool :=
  path_exists E w (basedir +:+ "/" +:+ filename)
  || is_Some_b (get_device_by_name w filename).

Fixpoint find_swap_filename (fuel : nat) (w : World) (basedir : string)
    (count : nat) (filename : string) : option string :=
  match fuel with
  | O => None
  | S fuel' =>
      if swap_filename_taken w basedir filename then
        let count := S count in
        find_swap_filename fuel' w basedir count ("/SWAP-" +:+ PyStr.fmt_nat count)
      else Some filename
  end.

Definition create_swap_file (fuel : nat) (device : dev_id) (size : Z)
    : M State unit :=
  st <- get ;;
  let w := world st in
  mountpoint <- lift (format_mountpoint (fmt_of w device)) ;;
  let basedir :=
    normpath E (get_target_physical_root E +:+ "/" +:+ py_str mountpoint) in
  match find_swap_filename fuel w basedir 0 "/SWAP" with
  | None => fun st => (OutOfFuel, st)
  | Some filename =>
      dev <- in_world
               (new_device FileDevice filename
                  (get_format E "swap" (Some filename) None false)
                  [device] false size) ;;
      in_world (perform (EvCreate dev)) ;;;
      in_world (perform (EvSetup dev)) ;;;
      in_world (perform (EvFormatCreate dev)) ;;;
      in_world (perform (EvFormatSetup dev None)) ;;;
      in_world (perform (EvAddDevice dev))
  end.

(** *** [FSSet.fstab] *)

(** The six columns of a generated line, and the comment that precedes it. *)
Record FstabEntry : Type := mkFstabEntry {
  e_comment : string;
  e_devspec : string;
  e_mountpoint : string;
  e_fstype : string;
  e_options : string;
  e_dump : Z;
  e_passno : nat
}.

(** [fmt_str % (devspec, mountpoint, fstype, options, dump, passno)] with
    [fmt_str = "%-23s %-23s %-7s %-15s %d %d\n"]. *)
Definition fmt_str (e : FstabEntry) : string :=
  PyStr.ljust 23 (e_devspec e) +:+ " " +:+
  PyStr.ljust 23 (e_mountpoint e) +:+ " " +:+
  PyStr.ljust 7 (e_fstype e) +:+ " " +:+
  PyStr.ljust 15 (e_options e) +:+ " " +:+
  PyStr.fmt_Z (e_dump e) +:+ " " +:+
  PyStr.fmt_nat (e_passno e) +:+ String PyStr.newline "".

Definition render_entry (e : FstabEntry) : string :=
  e_comment e +:+ fmt_str e.

Definition fstab_header : string :=
"
#
# /etc/fstab
# Created by anaconda on " +:+ asctime E +:+ "
#
# Accessible filesystems, by reference, are maintained under '/dev/disk'
# See man pages fstab(5), findfs(8), mount(8) and/or blkid(8) for more info
#
".

(** The pass number of an entry. *)
Definition passno_of (check : bool) (mountpoint : string) : nat :=
  if check && String.eqb mountpoint "/" then 1
  else if check then 2
  else 0.

(** The body of [for device in devices]: the entry written for the device,
    or [None] where the body ends with [continue]. *)
Definition fstab_entry (w : World) (netdevs : list dev_id)
    (root_on_netdev : bool) (device : dev_id) : outcome (option FstabEntry) :=
  let d := objs w device in
  let f := d_format d in
  if negb (f_mountable f) && negb (bool_decide (f_type f = Some "swap"))
  then Return None
  else if isinstance_OpticalDevice (d_class d) then Return None
  else
    let fstype := mount_type_of f in
    let columns (mountpoint : string) : FstabEntry :=
      let options :=
        match f_options f with
        | Some (String c o) => String c o
        | _ => "defaults"
        end in
      let options :=
        if existsb (depends_on E w device) netdevs
           && root_on_netdev && String.eqb mountpoint "/var"
        then options +:+ ",x-initrd.mount"
        else options in
      let options :=
        if d_encrypted d then options +:+ ",x-systemd.device-timeout=0"
        else options in
      mkFstabEntry (d_fstab_comment d) (d_fstab_spec d) mountpoint
        (py_str fstype) options (f_dump f)
        (passno_of (f_check f) mountpoint) in
    if bool_decide (fstype = Some "swap") then Return (Some (columns "swap"))
    else
      match format_mountpoint f with
      | Return (Some (String c m)) => Return (Some (columns (String c m)))
      | Return _ => Return None
      | Raise e => Raise e
      | OutOfFuel => OutOfFuel
      end.

Fixpoint fstab_entries (w : World) (netdevs : list dev_id)
    (root_on_netdev : bool) (l : list dev_id) : outcome (list FstabEntry) :=
  match l with
  | [] => Return []
  | device :: l' =>
      match fstab_entry w netdevs root_on_netdev device with
      | Return oe =>
          match fstab_entries w netdevs root_on_netdev l' with
          | Return es => Return (option_list oe ++ es)
          | Raise e => Raise e
          | OutOfFuel => OutOfFuel
          end
      | Raise e => Raise e
      | OutOfFuel => OutOfFuel
      end
  end.

(** [sorted(self.mountpoints.values(), key=lambda d: d.format.mountpoint)]
    followed by the swap devices that go to the file. *)
Definition fstab_devices (fs : FSSet) (w : World) : outcome (list dev_id) :=
  match mountpoints w with
  | Return filesystems =>
      let values := map snd filesystems in
      if forallb (fun d => is_Some_b (f_mountpoint (fmt_of w d))) values then
        match sort_by_opt (fun d => mjoin (f_mountpoint (fmt_of w d))) values with
        | Return devices =>
            Return
              (devices ++
               (if installer_mode E
                then List.filter (fun d => bool_decide (d ∈ _fstab_swaps fs))
                       (swap_devices w)
                else swap_devices w))
        | Raise e => Raise e
        | OutOfFuel => OutOfFuel
        end
      else Raise AttributeError
  | Raise e => Raise e
  | OutOfFuel => OutOfFuel
  end.

(** The generated lines of [fstab()], before rendering. *)
Definition fstab_generated (fs : FSSet) (w : World) : outcome (list FstabEntry) :=
  let netdevs :=
    List.filter
      (fun d => isinstance_NetworkStorageDevice (d_class (objs w d)))
      (devices w) in
  match fstab_devices fs w with
  | Return devices =>
      match devices with
      | [] => Raise IndexError                         (* rootdev = devices[0] *)
      | rootdev :: _ =>
          let root_on_netdev := existsb (depends_on E w rootdev) netdevs in
          fstab_entries w netdevs root_on_netdev devices
      end
  | Raise e => Raise e
  | OutOfFuel => OutOfFuel
  end.

Definition fstab (fs : FSSet) (w : World) : outcome string :=
  match fstab_generated fs w with
  | Return entries =>
      Return (fstab_header +:+ PyStr.join (map render_entry entries)
              +:+ PyStr.join (preserve_lines fs))
  | Raise e => Raise e
  | OutOfFuel => OutOfFuel
  end.

(** [add_fstab_swap], [remove_fstab_swap] and [set_fstab_swaps]. *)
Definition add_fstab_swap (device : dev_id) (fs : FSSet) : FSSet :=
  set_fstab_swaps_field ({[device]} ∪ _fstab_swaps fs) fs.
Definition remove_fstab_swap (device : dev_id) (fs : FSSet) : FSSet :=
  set_fstab_swaps_field (_fstab_swaps fs ∖ {[device]}) fs.
Definition set_fstab_swaps (devices : list dev_id) (fs : FSSet) : FSSet :=
  set_fstab_swaps_field (list_to_set devices) fs.

End WithEnv.

(** ** Reference readings of the parsers

    What each parser computes, written without exceptions or state; the
    theorems below relate the code to them. *)

Fixpoint count_char (c : ascii) (s : string) : nat :=
  match s with
  | EmptyString => 0
  | String a s' => (if Ascii.eqb a c then 1 else 0) + count_char c s'
  end.

(** The attribute dictionary of one [<device ...>] line: the pairs with a
    key and a value, in order, later ones overriding. *)
Definition blkid_attrs (pairs : list string) : gmap string string :=
  fold_left
    (fun attrs pair =>
       match PyStr.split_on "=" pair with
       | [key; value] => <[key := unquote value]> attrs
       | _ => attrs
       end)
    pairs ∅.

Definition blkid_line_spec (devs : gmap string (gmap string string))
    (line : string) : gmap string (gmap string string) :=
  if PyStr.startswith "<device " line then
    let '(data, _, device) := PyStr.partition ">" (PyStr.slice 8 10 line) in
    match device with
    | EmptyString => devs
    | _ => <[device := blkid_attrs (PyStr.split data)]> devs
    end
  else devs.

(** The fields of a crypttab line that is accepted: name, devspec, keyfile
    and options, the last two with their defaults. *)
Definition crypttab_fields (line : string)
    : option (string * string * string * string) :=
  match PyStr.split (PyStr.partition "#" line).1.1 with
  | [name; devspec] => Some (name, devspec, "none", "")
  | [name; devspec; keyfile] => Some (name, devspec, keyfile, "")
  | [name; devspec; keyfile; options] => Some (name, devspec, keyfile, options)
  | _ => None
  end.

Definition crypttab_line_spec (resolve : string -> option dev_id)
    (mappings : gmap string MapInfo) (line : string) : gmap string MapInfo :=
  match crypttab_fields line with
  | Some (name, devspec, keyfile, options) =>
      match resolve devspec with
      | Some device => <[name := mkMapInfo device keyfile options]> mappings
      | None => mappings
      end
  | None => mappings
  end.

(** ** Two-state assertions on computations

    [post c R]: whatever way [c] ends, the state it ends in is related by
    [R] to the state it started from. *)

Definition post {S A} (c : M S A) (R : S -> S -> Prop) : Prop :=
  forall s, R s (c s).2.

(** The operations performed between two worlds. *)
Definition trace_from (w w' : World) (evs : list Event) : Prop :=
  trace w' = trace w ++ evs.

(** The device mounted by an operation, if it is a mount: the setup of a
    format with mount options and a root; and the device unmounted. *)
Definition mount_event (ev : Event) : option dev_id :=
  match ev with
  | EvFormatSetup d (Some _) => Some d
  | _ => None
  end.

Definition umount_event (ev : Event) : option dev_id :=
  match ev with
  | EvFormatTeardown d => Some d
  | _ => None
  end.

(** The devices mounted, and the devices unmounted, by a sequence of
    operations, in their order. *)
Definition mounted_of (evs : list Event) : list dev_id := omap mount_event evs.
Definition unmounted_of (evs : list Event) : list dev_id := omap umount_event evs.

(** The mountpoint under which a device is sorted, and the order of the
    sort. *)
Definition mountpoint_str (w : World) (d : dev_id) : string :=
  default "" (mountpoint_key w d).

Definition mp_le (w : World) (a b : dev_id) : Prop :=
  String.le (mountpoint_str w a) (mountpoint_str w b).

(** [emits sel l]: between the two states the operations selected by
    [sel] were those on the devices [l], in this order. *)
Definition emits_w (sel : Event -> option dev_id) (l : list dev_id)
    (w w' : World) : Prop :=
  exists evs, trace w' = trace w ++ evs /\ omap sel evs = l.

Definition emits (sel : Event -> option dev_id) (l : list dev_id)
    (st st' : State) : Prop :=
  emits_w sel l (world st) (world st').

(** At most the devices of [ds], in the order of [ds]. *)
Definition emits_within (sel : Event -> option dev_id) (ds : list dev_id)
    (st st' : State) : Prop :=
  exists l, l `sublist_of` ds /\ emits sel l st st'.



(** Every object keeps its name and its class. *)
Definition names_kept (w w' : World) : Prop :=
  forall i, d_name (objs w' i) = d_name (objs w i)
            /\ d_class (objs w' i) = d_class (objs w i).

(** Every object keeps its format. *)
Definition formats_kept (w w' : World) : Prop :=
  forall i, d_format (objs w' i) = d_format (objs w i).

(** [finishes c]: [c] ends as Python code ends, by returning or raising;
    the bound on loop iterations is never what stops it. *)
Definition finishes {S A} (c : M S A) : Prop :=
  forall s, (c s).1 <> OutOfFuel.

(** ** Reading an fstab line as [parse_fstab] does *)

(** The line up to its first [#]. *)
Definition before_comment (line : string) : string :=
  (PyStr.partition "#" line).1.1.

Definition fstab_fields (line : string) : list string :=
  PyStr.split (before_comment line).

(** The line has the 4 to 6 fields of an entry. *)
Definition is_entry (line : string) : bool :=
  let n := length (fstab_fields line) in (4 <=? n) && (n <=? 6).

(** The line is an entry with [noauto] among its options. *)
Definition is_noauto_entry (line : string) : bool :=
  is_entry line
  && PyStr.mem "noauto" (PyStr.split_on "," (nth 3 (fstab_fields line) "")).

(** The line holds no [#]. *)
Definition no_comment (line : string) : bool :=
  count_char "#" line =? 0.

(** The methods that work on the world leave the [FSSet] as it is. *)
Definition same_self (st st' : State) : Prop := self st' = self st.

(** The directory whose [/etc/fstab] is parsed. *)
Definition fstab_root (E : Env) (chroot : option string) (w : World) : string :=
  match chroot with
  | Some c => if String.eqb c "" || negb (isdir E w c) then get_sysroot E else c
  | None => get_sysroot E
  end.

(** The state in which [parse_fstab] starts on the lines of the file: the
    two tables are stored and the text is saved. *)
Definition fstab_opened (E : Env) (chroot : option string) (st : State)
    (text : string) : State :=
  let w := world st in
  let root := fstab_root E chroot w in
  let blkid_tab := blkid_tab_or_None E w root in
  let crypt_tab :=
    match CryptTab_parse E w root (CryptTab_new blkid_tab root) with
    | (Return _, tab) => Some tab
    | _ => None
    end in
  mkState
    (set_orig_fstab (Some (PyStr.join (PyStr.readlines text)))
       (set_tabs blkid_tab crypt_tab (self st)))
    w.

(** The world after an operation that did not raise. *)
Definition after (ev : Event) (w : World) : World :=
  op_effect ev (log_event ev w).

(** The two devices that [mount_device] asks for are there already. *)
Definition binds_cached (st : State) : Prop :=
  is_Some (virtual (self st) _dev) /\ is_Some (virtual (self st) _run).

(** Once they are, the formats stay as they are. *)
Definition formats_stable (st st' : State) : Prop :=
  binds_cached st ->
  binds_cached st' /\ formats_kept (world st) (world st').

(** A virtual device, once created, stays. *)
Definition virtual_grows (st st' : State) : Prop :=
  forall v i, virtual (self st) v = Some i -> virtual (self st') v = Some i.

(** The list that the mount loop walks, and the list that the unmount loop
    walks. *)
Definition mount_order (E : Env) : M State (list dev_id) :=
  (devices <- gather_devices E mount_extras ;;
   sort_by_mountpoint devices)%py.

Definition umount_order (E : Env) : M State (list dev_id) :=
  (devices <- gather_devices E umount_extras ;;
   devices <- sort_by_mountpoint devices ;;
   ret (rev devices))%py.

(** The device held by a lazy property that was evaluated. *)
Definition virtual_id (st : State) (v : VirtualFS) : dev_id :=
  default 0 (virtual (self st) v).

(** ** Further two-state assertions *)

(** The [FSSet] differs at most in its preserved lines. *)
Definition only_preserves (st st' : State) : Prop :=
  exists l, self st' = set_preserve_lines l (self st).

(** The device tree is as it was. *)
Definition tree_kept (w w' : World) : Prop := tree w' = tree w.
Definition tree_same (st st' : State) : Prop :=
  tree_kept (world st) (world st').

(** The device tree has grown at its end, and holds no device twice if it
    held none twice before. *)
Definition tree_grows (st st' : State) : Prop :=
  (exists added, tree (world st') = tree (world st) ++ added)
  /\ (NoDup (tree (world st)) -> NoDup (tree (world st'))).


(** A text without [#] that splits into the 4 to 6 fields of an entry. *)
Definition entry_text (k : string) : Prop :=
  count_char "#" k = 0 /\ 4 <= length (PyStr.split k) <= 6.

(** The preserved lines have grown at their end, by entry texts only. *)
Definition preserves_entries (st st' : State) : Prop :=
  exists kept,
    preserve_lines (self st') = preserve_lines (self st) ++ kept
    /\ Forall entry_text kept.


(** Between the two worlds operations were performed, each of them one
    that [Q] allows. *)
Definition only_events_w (Q : Event -> Prop) (w w' : World) : Prop :=
  exists evs, trace w' = trace w ++ evs /\ Forall Q evs.

Definition only_events (Q : Event -> Prop) (st st' : State) : Prop :=
  only_events_w Q (world st) (world st').

(** What [mount_filesystems] asks of a format before it mounts it. *)
Definition mount_eligible (skip_root : bool) (f : Format) : Prop :=
  f_mountable f = true
  /\ (exists mp, f_mountpoint f = Some (Some mp) /\ mp <> ""
                 /\ (skip_root = true -> mp <> "/"))
  /\ (exists options,
        f_options f = Some options
        /\ PyStr.mem "noauto" (PyStr.split_on "," options) = false).

(** The options with which a format is mounted. *)
Definition mount_options (read_only : option string) (f : Format) : string :=
  let options := default "" (f_options f) in
  if truthy read_only then options +:+ "," +:+ default "" read_only
  else options.

(** An operation of [mount_filesystems] on the device [d] of format [f]. *)
Definition mount_step (root_path : string) (read_only : option string)
    (skip_root : bool) (f : Format) (d : dev_id) (ev : Event) : Prop :=
  mount_eligible skip_root f
  /\ (ev = EvSetup d \/ ev = EvRemoveDevice d
      \/ ev = EvFormatSetup d (Some (mount_options read_only f, root_path))).

(** An operation of [umount_filesystems] on the device [d] of format [f]. *)
Definition umount_step (swapoff : bool) (f : Format) (d : dev_id)
    (ev : Event) : Prop :=
  ev = EvFormatTeardown d
  /\ f_mountable f = true
  /\ (swapoff = false -> f_type f <> Some "swap").

(** The [active] flag is as it was. *)
Definition active_kept (st st' : State) : Prop :=
  active (self st') = active (self st).


(** An operation of [turn_on_swap] on the device [d]. *)
Definition swap_step (d : dev_id) (ev : Event) : Prop :=
  ev = EvSetup d \/ ev = EvFormatSetup d None \/ ev = EvRemoveDevice d.


(** A device whose format the loop of [mountpoints] enters under the key
    [mp]. *)
Definition claims (w : World) (d : dev_id) (mp : string) : Prop :=
  f_mountable (fmt_of w d) = true
  /\ f_mountpoint (fmt_of w d) = Some (Some mp) /\ mp <> "".


(** ** The functions of the module that read an installed system *)

Section ExistingSystem.

Context (E : Env).

(** *** [parse_fstab(devicetree, chroot)] *)

(** The mount dictionary, in insertion order, and the swap list. *)
Definition MountsAndSwaps : Type := list (string * dev_id) * list dev_id.

(** The body of [for line in f.readlines()] of the module-level function.
    The tuple assignment raises [ValueError] when [fields] does not hold
    five values. *)
Definition scan_fstab_line (w : World) (crypt_tab : option CryptTab)
    (blkid_tab : option BlkidTab) (acc : MountsAndSwaps) (line : string)
    : outcome MountsAndSwaps :=
  let '(mounts, swaps) := acc in
  let '(line, _pound, _comment) := PyStr.partition "#" line in
  let fields := PyStr.split_max 4 line in
  if length fields <? 5 then Return acc                        (* continue *)
  else
    match fields with
    | [devspec; mountpoint; fstype; options; _rest] =>
        match resolve_device E w devspec crypt_tab blkid_tab (Some options) with
        | None => Return acc                                   (* continue *)
        | Some device =>
            if negb (String.eqb fstype "swap")
            then Return (dict_set mountpoint device mounts, swaps)
            else Return (mounts, swaps ++ [device])
        end
    | _ => Raise ValueError
    end.

Fixpoint scan_fstab_lines (w : World) (crypt_tab : option CryptTab)
    (blkid_tab : option BlkidTab) (lines : list string) (acc : MountsAndSwaps)
    : outcome MountsAndSwaps :=
  match lines with
  | [] => Return acc
  | line :: lines' =>
      match scan_fstab_line w crypt_tab blkid_tab acc line with
      | Return acc' => scan_fstab_lines w crypt_tab blkid_tab lines' acc'
      | Raise e => Raise e
      | OutOfFuel => OutOfFuel
      end
  end.

(** The module-level [parse_fstab]; the method of [FSSet] has the name
    [parse_fstab] in this file. *)
Definition module_parse_fstab (w : World) (chroot : option string)
    : outcome MountsAndSwaps :=
  let chroot :=
    match chroot with
    | Some c =>
        if String.eqb c "" || negb (isdir E w c) then get_sysroot E else c
    | None => get_sysroot E
    end in
  let path := chroot +:+ "/etc/fstab" in
  if negb (access_r E w path) then Return ([], [])
  else
    let blkid_tab := blkid_tab_or_None E w chroot in
    let crypt_tab :=
      match CryptTab_parse E w chroot (CryptTab_new blkid_tab chroot) with
      | (Return _, tab) => Some tab
      | _ => None
      end in
    match read_file E w path with
    | None => Raise IOError
    | Some text =>
        scan_fstab_lines w crypt_tab blkid_tab (PyStr.readlines text) ([], [])
    end.

(** What a line gives when it is read: the mountpoint, the type and the
    device of an entry of five or more fields whose device resolves. *)
Definition scanned_entry (w : World) (crypt_tab : option CryptTab)
    (blkid_tab : option BlkidTab) (line : string)
    : option (string * string * dev_id) :=
  match fstab_fields line with
  | devspec :: mountpoint :: fstype :: options :: _ :: _ =>
      match resolve_device E w devspec crypt_tab blkid_tab (Some options) with
      | Some device => Some (mountpoint, fstype, device)
      | None => None
      end
  | _ => None
  end.

Definition scanned_swap (w : World) (crypt_tab : option CryptTab)
    (blkid_tab : option BlkidTab) (line : string) : option dev_id :=
  match scanned_entry w crypt_tab blkid_tab line with
  | Some (_, fstype, device) =>
      if String.eqb fstype "swap" then Some device else None
  | None => None
  end.

Definition scanned_mount (w : World) (crypt_tab : option CryptTab)
    (blkid_tab : option BlkidTab) (line : string) : option (string * dev_id) :=
  match scanned_entry w crypt_tab blkid_tab line with
  | Some (mountpoint, fstype, device) =>
      if String.eqb fstype "swap" then None else Some (mountpoint, device)
  | None => None
  end.

End ExistingSystem.


(** ** More of [FSSet] *)

Section FSSetFiles.

Context (E : Env).

(** *** The property [FSSet.root_device] *)

(** [try: mountpoint = device.format.mountpoint
    except AttributeError: mountpoint = None]. *)
Definition mountpoint_or_None (f : Format) : option string :=
  match f_mountpoint f with
  | Some v => v
  | None => None
  end.

(** [for device in self.devices: ... if mountpoint == path: return device]. *)
Fixpoint root_device_scan (w : World) (path : string) (l : list dev_id)
    : option dev_id :=
  match l with
  | [] => None
  | device :: l' =>
      if bool_decide (mountpoint_or_None (fmt_of w device) = Some path)
      then Some device
      else root_device_scan w path l'
  end.

(** [for path in paths: ...]; the function returns [None] when the loops
    end. *)
Fixpoint root_device_paths (w : World) (paths : list string) : option dev_id :=
  match paths with
  | [] => None
  | path :: paths' =>
      match root_device_scan w path (devices w) with
      | Some device => Some device
      | None => root_device_paths w paths'
      end
  end.

Definition root_device (w : World) : option dev_id :=
  root_device_paths w ["/"; get_target_physical_root E].

(** *** [FSSet.mdadm_conf] *)

Definition isinstance_MDRaidArrayDevice (c : DeviceClass) : bool :=
  match c with
  | MDRaidArrayDevice => true
  | _ => false
  end.

Definition mdadm_conf_header : string :=
  "# mdadm.conf written out by anaconda" +:+ String PyStr.newline ""
  +:+ "MAILADDR root" +:+ String PyStr.newline ""
  +:+ "AUTO +imsm +1.x -all" +:+ String PyStr.newline "".

(** [device == array or device.depends_on(array)] for one of [devices]. *)
Definition array_in_use (w : World) (devices : list dev_id) (array : dev_id)
    : bool :=
  existsb (fun device => Nat.eqb device array || depends_on E w device array)
    devices.

(** [array.mdadm_conf_entry] is computed by the device class. *)
Context (mdadm_conf_entry : World -> dev_id -> string).

Definition mdadm_conf (w : World) : outcome string :=
  let arrays :=
    List.filter
      (fun d => isinstance_MDRaidArrayDevice (d_class (objs w d)))
      (devices w) in
  let arrays := sort_by (fun d => d_path (objs w d)) arrays in
  match arrays with
  | [] => Return ""
  | _ =>
      match mountpoints w with
      | Return filesystems =>
          let devices := map snd filesystems ++ swap_devices w in
          Return
            (fold_left
               (fun conf array =>
                  if array_in_use w devices array
                  then conf +:+ mdadm_conf_entry w array
                  else conf)
               arrays mdadm_conf_header)
      | Raise e => Raise e
      | OutOfFuel => OutOfFuel
      end
  end.

End FSSetFiles.


(** ** [release_from_redhat_release] *)

Section Release.

Context (E : Env).

(** [open(fn)] raises when the file cannot be opened; a read error inside
    the [try] is not among the events of [read_file], so the handler that
    sets [relstr = ""] has no case here.  [version.split()[0]] raises
    [IndexError] on an empty list. *)
Definition release_from_redhat_release (w : World) (fn : string)
    : outcome (option string * option string) :=
  match read_file E w fn with
  | None => Raise IOError
  | Some text =>
      let relstr := PyStr.strip (PyStr.readline text) in
      let '(product, sep, version) := PyStr.partition_str " release " relstr in
      match sep with
      | EmptyString => Return (None, None)
      | _ =>
          match PyStr.split version with
          | [] => Raise IndexError
          | rel_ver :: _ => Return (Some product, Some rel_ver)
          end
      end
  end.

End Release.



(** ** Columns of an fstab line *)

(** No whitespace and no [#]. *)
Fixpoint plain (s : string) : bool :=
  match s with
  | EmptyString => true
  | String c s' =>
      negb (PyStr.is_space c) && negb (Ascii.eqb c "#") && plain s'
  end.

(** A column that reads back as one field. *)
Definition is_word (s : string) : bool :=
  match s with
  | EmptyString => false
  | _ => plain s
  end.


(** ** [CryptTab.populate] *)

Section Populate.

(** [format.map_name] and [format.key_file] of a LUKS format are computed
    by the format class. *)
Context (luks_map_name : Format -> string)
  (luks_key_file : Format -> option string).



End Populate.


(** ** What the two loops do when no operation raises *)

(** The tests of the mount loop, as the code makes them. *)
Definition mount_eligible_b (skip_root : bool) (f : Format) : bool :=
  f_mountable f
  && truthy (mountpoint_or_None f)
  && negb (skip_root && bool_decide (mountpoint_or_None f = Some "/"))
  && negb (PyStr.mem "noauto" (PyStr.split_on "," (default "" (f_options f)))).

(** The operations of the mount loop on a device of format [f]. *)
Definition mount_events (root_path : string) (read_only : option string)
    (skip_root : bool) (f : Format) (d : dev_id) : list Event :=
  if mount_eligible_b skip_root f
  then [EvSetup d;
        EvFormatSetup d (Some (mount_options read_only f, root_path))]
  else [].

(** The test of the unmount loop. *)
Definition umount_applies (swapoff : bool) (f : Format) : bool :=
  f_mountable f
  && negb (bool_decide (f_type f = Some "swap") && negb swapoff).

Definition umount_events (swapoff : bool) (f : Format) (d : dev_id)
    : list Event :=
  if umount_applies swapoff f then [EvFormatTeardown d] else [].


(** What the mount loop needs of a device to go through without raising:
    the lazy properties [dev] and [run] are evaluated, a mountable format
    has a mountpoint attribute and options, and a bind format is that of
    [dev] or [run] (another one has its parents looked up first). *)
Definition mount_ready (st : State) (d : dev_id) : Prop :=
  let f := fmt_of (world st) d in
  binds_cached st
  /\ (f_mountable f = true ->
      is_Some (f_mountpoint f) /\ is_Some (f_options f))
  /\ (f_type f = Some "bind" ->
      d = virtual_id st _dev \/ d = virtual_id st _run).

(** ** A small concrete system, for the examples *)

Module Demo.

(** The double quote character. *)
Definition dq : string := String (ascii_of_nat 34) "".

Fixpoint assoc {V} (k : string) (l : list (string * V)) : option V :=
  match l with
  | [] => None
  | (k', v) :: l' => if String.eqb k' k then Some v else assoc k l'
  end.

(** A filesystem format of the given type; swap space is not mountable
    and has no mountpoint attribute. *)
Definition format (ty : string) (device mountpoint : option string)
    (exists_ : bool) : Format :=
  if String.eqb ty "swap"
  then mkFormat (Some "swap") None false None (Some "") false 0%Z false
         device exists_
  else mkFormat (Some ty) (Some (Some ty)) true (Some mountpoint)
         (Some "defaults") true 0%Z true device exists_.

(** A block device that carries [fmt]. *)
Definition disk (name : string) (fmt : Format) : Device :=
  mkDevice StorageDevice name ("/dev/" +:+ name) fmt [] true false false
    ("/dev/" +:+ name) "" 0%Z.

Definition blank : Device := disk "" (format "" None None false).

(** The world whose tree holds the given devices, numbered from 0. *)
Definition world_of (ds : list Device) : World :=
  mkWorld (fun i => nth i ds blank) (length ds) (seq 0 (length ds)) [].

(** [os.path.normpath] on the paths of the examples: runs of slashes
    collapse and a trailing slash goes. *)
Fixpoint normpath (p : string) : string :=
  match p with
  | EmptyString => EmptyString
  | String c p' =>
      let q := normpath p' in
      if Ascii.eqb c "/" then
        match q with
        | EmptyString => EmptyString
        | String c' _ => if Ascii.eqb c' "/" then q else String c q
        end
      else String c q
  end.

(** What the examples vary: the installer-mode flag, the readable files,
    the device specifications that resolve, the paths that exist, the
    target of the sysfs link, the name device-mapper gives to a node, the
    operations that raise and the result of a trial mount. *)
Record Config : Type := mkConfig {
  c_installer : bool;
  c_files : list (string * string);
  c_resolves : list (string * dev_id);
  c_present : list string;
  c_link : option string;
  c_dm_name : option string;
  c_raises : Event -> option exn;
  c_trial : bool
}.

Definition env (c : Config) : Env :=
  mkEnv (c_installer c) false "/mnt/sysimage" "/mnt/sysimage"
    "Thu Jan  1 00:00:00 1970"
    (fun _ p => assoc p (c_files c))
    (fun _ _ => true)
    (fun _ p => is_Some_b (assoc p (c_files c)))
    (fun _ p => PyStr.mem p (c_present c))
    normpath
    (fun _ _ => (8, 1))
    (fun _ _ => c_link c)
    (fun _ _ => c_dm_name c)
    (fun _ spec _ _ _ => assoc spec (c_resolves c))
    format
    (fun _ => false)
    (fun _ _ _ => false)
    (fun _ ev => c_raises c ev)
    (fun _ _ => c_trial c)
    (fun _ _ => true).

Definition never_raises : Event -> option exn := fun _ => None.

(** One line of a blkid.tab with a pair that has no value. *)
Definition blkid_text : string :=
  "<device DEVNO=" +:+ dq +:+ "0x0801" +:+ dq +:+ " junk UUID=" +:+ dq
  +:+ "abcd" +:+ dq +:+ ">/dev/sda1</device>" +:+ String PyStr.newline ""
  +:+ "<!-- not a device -->" +:+ String PyStr.newline "".

Definition quiet : Config :=
  mkConfig true [] [] [] None None never_raises true.

Definition blkid_env : Env :=
  env (mkConfig true [("/etc/blkid/blkid.tab", blkid_text)] [] [] None None
         never_raises true).

Definition crypttab_text : string :=
  "luks-1 UUID=abcd none none" +:+ String PyStr.newline "".

Definition crypttab_env : Env :=
  env (mkConfig true [("/etc/crypttab", crypttab_text)] [("UUID=abcd", 0)] []
         None None never_raises true).

Definition one_disk : World := world_of [disk "sda1" (format "crypto_LUKS" None None true)].

(** A path on a device-mapper node whose name libblockdev cannot give. *)
Definition dm_env : Env :=
  env (mkConfig true [] [] ["/home"; "/sys/dev/block/8:1"]
         (Some "../../devices/virtual/block/dm-0") None never_raises true).

(** [/SWAP] and [/SWAP-1] exist under the target root. *)
Definition swap_env : Env :=
  env (mkConfig true [] [] ["/mnt/sysimage//SWAP"; "/mnt/sysimage//SWAP-1"]
         None None never_raises true).

Definition root_disk : World :=
  world_of [disk "sda2" (format "ext4" None (Some "/") true)].

Definition root_state : State := mkState FSSet_new root_disk.

Definition no_devices : World := world_of [].

(** A root filesystem whose format does not ask for a check, as NFS. *)
Definition nfs_format : Format :=
  mkFormat (Some "nfs") (Some (Some "nfs")) true (Some (Some "/"))
    (Some "defaults") false 0%Z true None true.

Definition nfs_root : World :=
  world_of [mkDevice NFSDevice "server:/export" "server:/export" nfs_format
              [] true false false "server:/export" "" 0%Z].

(** The same path when device-mapper names the node [sda1]. *)
Definition dm_named_env : Env :=
  env (mkConfig true [] [] ["/home"; "/sys/dev/block/8:1"]
         (Some "../../devices/virtual/block/dm-0") (Some "sda1")
         never_raises true).

(** The installer-mode flag is off. *)
Definition library_env : Env :=
  env (mkConfig false [] [] [] None None never_raises true).

(** A mounted set: [active] is set. *)
Definition mounted_state : State := mkState (set_active true FSSet_new) root_disk.

Definition nl : string := String PyStr.newline "".

(** An fstab with a line of three fields and two [noauto] entries. *)
Definition short_line : string := "/dev/sdb1 /data ext4" +:+ nl.
Definition cdrom_line : string := "/dev/cdrom /mnt/cdrom iso9660 noauto,ro 0 0" +:+ nl.
Definition opt_line : string := "LABEL=opt /opt ext4 noauto" +:+ nl.

Definition fstab_text : string := short_line +:+ cdrom_line +:+ opt_line.

Definition fstab_env : Env :=
  env (mkConfig true [("/mnt/sysimage/etc/fstab", fstab_text)] [] [] None None
         never_raises true).

(** A [noauto] entry that ends in a comment. *)
Definition commented_line : string :=
  "/dev/cdrom /mnt/cdrom iso9660 noauto # drive" +:+ nl.

Definition commented_env : Env :=
  env (mkConfig true [("/mnt/sysimage/etc/fstab", commented_line)] [] [] None
         None never_raises true).

(** A root device detected as xfs, and an fstab that declares it ext4; the
    trial mount fails. *)
Definition xfs_disk : World :=
  world_of [disk "sda2" (format "xfs" None None true)].

Definition mismatch_line : string := "/dev/sda2 / ext4 defaults 1 1" +:+ nl.

Definition mismatch_env : Env :=
  env (mkConfig true [("/mnt/sysimage/etc/fstab", mismatch_line)]
         [("/dev/sda2", 0)] [] None None never_raises false).

Definition xfs_state : State := mkState FSSet_new xfs_disk.

(** Four filesystems, listed in the tree in no particular order. *)
Definition four_disks : World :=
  world_of [disk "sdb1" (format "ext4" None (Some "/var/log") true);
            disk "sda1" (format "ext4" None (Some "/boot") true);
            disk "sda3" (format "ext4" None (Some "/var") true);
            disk "sda2" (format "ext4" None (Some "/") true)].

Definition four_state : State := mkState FSSet_new four_disks.

(** The devices of the tree among a list of devices. *)
Definition of_tree (l : list dev_id) : list dev_id :=
  List.filter (fun d => d <? 4) l.


(** An fstab with an NFS entry, the entry of the root device and the entry
    of [/proc]. *)
Definition nfs_line : string := "server:/export /mnt/nfs nfs defaults 0 0" +:+ nl.
Definition root_line : string := "/dev/sda2 / ext4 defaults 1 1" +:+ nl.
Definition proc_line : string := "proc /proc proc defaults 0 0" +:+ nl.

Definition nfs_fstab_env : Env :=
  env (mkConfig true
         [("/mnt/sysimage/etc/fstab", nfs_line +:+ root_line +:+ proc_line)]
         [("/dev/sda2", 0)] [] None None never_raises true).


(** Every mount raises, and the error handler asks to raise. *)
Definition mount_raises (ev : Event) : option exn :=
  match ev with
  | EvFormatSetup _ (Some _) => Some StorageError
  | _ => None
  end.

Definition failing_mount_env : Env :=
  env (mkConfig true [] [] [] None None mount_raises true).


(** A root filesystem on an MD array, and the entry of the array. *)
Definition md_root : World :=
  world_of [mkDevice MDRaidArrayDevice "md0" "/dev/md0"
              (format "ext4" None (Some "/") true) [] true false false
              "/dev/md0" "" 0%Z].

Definition md_entry (w : World) (d : dev_id) : string :=
  "ARRAY " +:+ d_path (objs w d) +:+ nl.


(** A release file, with a second line and blanks around the first. *)
Definition release_text : string :=
  "  Red Hat Linux release 6.2 (Zoot)  " +:+ nl +:+ "second line" +:+ nl.

Definition release_env : Env :=
  env (mkConfig true [("/mnt/sysimage/etc/redhat-release", release_text)] []
         [] None None never_raises true).

End Demo.

(** * Properties *)

(** ** The monad *)

Lemma for_each_app {S X} (l1 l2 : list X) (body : X -> M S unit) (s : S) :
  for_each (l1 ++ l2) body s =
  match for_each l1 body s with
  | (Return _, s') => for_each l2 body s'
  | (Raise e, s') => (Raise e, s')
  | (OutOfFuel, s') => (OutOfFuel, s')
  end.
Proof.
  revert s. induction l1 as [|x l1 IH]; intros s; simpl; [done|].
  unfold bind. destruct (body x s) as [[[]|e|] s']; auto.
Qed.

Lemma bind_return {S A B} (c : M S A) (k : A -> M S B) (s s' : S) (a : A) :
  c s = (Return a, s') -> bind c k s = k a s'.
Proof. intros H. unfold bind. by rewrite H. Qed.

Lemma bind_raise {S A B} (c : M S A) (k : A -> M S B) (s s' : S) (e : exn) :
  c s = (Raise e, s') -> bind c k s = (Raise e, s').
Proof. intros H. unfold bind. by rewrite H. Qed.

Lemma bind_out_of_fuel {S A B} (c : M S A) (k : A -> M S B) (s s' : S) :
  c s = (OutOfFuel, s') -> bind c k s = (OutOfFuel, s').
Proof. intros H. unfold bind. by rewrite H. Qed.

(** A loop whose body always returns computes a left fold of the state. *)
Lemma for_each_fold {S X} (l : list X) (body : X -> M S unit)
    (step : S -> X -> S) (s : S) :
  (forall x s, body x s = (Return tt, step s x)) ->
  for_each l body s = (Return tt, fold_left step l s).
Proof.
  intros Hbody. revert s. induction l as [|x l IH]; intros s; simpl; [done|].
  unfold bind. rewrite Hbody. apply IH.
Qed.

Section Post.

Context {S : Type} (R : S -> S -> Prop) `{!PreOrder R}.

Lemma post_ret {A} (a : A) : post (ret a) R.
Proof. intros s. simpl. reflexivity. Qed.

Lemma post_raise {A} (e : exn) : post (@raise S A e) R.
Proof. intros s. simpl. reflexivity. Qed.

Lemma post_lift {A} (o : outcome A) : post (lift o) R.
Proof. intros s. simpl. reflexivity. Qed.

Lemma post_get : post (@get S) R.
Proof. intros s. simpl. reflexivity. Qed.

Lemma post_out_of_fuel {A} : post (fun s : S => (@OutOfFuel A, s)) R.
Proof. intros s. simpl. reflexivity. Qed.

Lemma post_modify (f : S -> S) : (forall s, R s (f s)) -> post (modify f) R.
Proof. intros H s. apply H. Qed.

Lemma post_bind {A B} (c : M S A) (k : A -> M S B) :
  post c R -> (forall a, post (k a) R) -> post (bind c k) R.
Proof.
  intros Hc Hk s. unfold bind. specialize (Hc s).
  destruct (c s) as [[a|e|] s']; simpl in *; [|done..].
  etrans; [exact Hc|apply Hk].
Qed.

Lemma post_try_except {A} (c : M S A) (catches : exn -> bool)
    (h : exn -> M S A) :
  post c R -> (forall e, post (h e) R) -> post (try_except c catches h) R.
Proof.
  intros Hc Hh s. unfold try_except. specialize (Hc s).
  destruct (c s) as [[a|e|] s']; simpl in *; [done| |done].
  destruct (catches e); [|done].
  etrans; [exact Hc|apply Hh].
Qed.

Lemma post_for_each {X} (l : list X) (body : X -> M S unit) :
  (forall x, post (body x) R) -> post (for_each l body) R.
Proof.
  intros Hbody. induction l as [|x l IH]; simpl.
  - apply post_ret.
  - apply post_bind; [apply Hbody|intros _; apply IH].
Qed.

Lemma post_map_m {X Y} (f : X -> M S Y) (l : list X) :
  (forall x, post (f x) R) -> post (map_m f l) R.
Proof.
  intros Hf. induction l as [|x l IH]; simpl.
  - apply post_ret.
  - apply post_bind; [apply Hf|intros y].
    apply post_bind; [apply IH|intros ys; apply post_ret].
Qed.

End Post.

(** A computation on the world, run inside a method, leaves [self] alone. *)
Lemma post_in_world {A} (c : M World A) (R : World -> World -> Prop) :
  post c R ->
  post (in_world c)
    (fun st st' => self st' = self st /\ R (world st) (world st')).
Proof.
  intros Hc st. unfold in_world. specialize (Hc (world st)).
  by destruct (c (world st)) as [o w'].
Qed.

Section Finishes.

Context {S : Type}.

Lemma finishes_ret {A} (a : A) : finishes (@ret S A a).
Proof. by intros s. Qed.

Lemma finishes_raise {A} (e : exn) : finishes (@raise S A e).
Proof. by intros s. Qed.

Lemma finishes_get : finishes (@get S).
Proof. by intros s. Qed.

Lemma finishes_modify (f : S -> S) : finishes (modify f).
Proof. by intros s. Qed.

Lemma finishes_lift {A} (o : outcome A) :
  o <> OutOfFuel -> finishes (@lift S A o).
Proof. by intros H s. Qed.

Lemma finishes_bind {A B} (c : M S A) (k : A -> M S B) :
  finishes c -> (forall a, finishes (k a)) -> finishes (bind c k).
Proof.
  intros Hc Hk s. unfold bind. specialize (Hc s).
  destruct (c s) as [[a|e|] s']; simpl in *; [apply Hk|done|done].
Qed.

Lemma finishes_try_except {A} (c : M S A) (catches : exn -> bool)
    (h : exn -> M S A) :
  finishes c -> (forall e, finishes (h e)) -> finishes (try_except c catches h).
Proof.
  intros Hc Hh s. unfold try_except. specialize (Hc s).
  destruct (c s) as [[a|e|] s']; simpl in *; [done| |done].
  destruct (catches e); [apply Hh|done].
Qed.

Lemma finishes_for_each {X} (l : list X) (body : X -> M S unit) :
  (forall x, finishes (body x)) -> finishes (for_each l body).
Proof.
  intros Hbody. induction l as [|x l IH]; simpl.
  - apply finishes_ret.
  - apply finishes_bind; [apply Hbody|intros _; apply IH].
Qed.

Lemma finishes_map_m {X Y} (f : X -> M S Y) (l : list X) :
  (forall x, finishes (f x)) -> finishes (map_m f l).
Proof.
  intros Hf. induction l as [|x l IH]; simpl.
  - apply finishes_ret.
  - apply finishes_bind; [apply Hf|intros y].
    apply finishes_bind; [apply IH|intros ys; apply finishes_ret].
Qed.

End Finishes.

Lemma finishes_in_world {A} (c : M World A) :
  finishes c -> finishes (in_world c).
Proof.
  intros Hc st. unfold in_world. specialize (Hc (world st)).
  by destruct (c (world st)) as [o w'].
Qed.

Lemma finishes_perform (E : Env) (ev : Event) : finishes (perform E ev).
Proof. intros w. unfold perform. by destruct (op_raises E w ev). Qed.

(** ** [BlkidTab.parse] *)

Lemma split_on_length (c : ascii) (s : string) :
  length (PyStr.split_on c s) = S (count_char c s).
Proof.
  induction s as [|a s IH]; simpl; [done|].
  destruct (Ascii.eqb a c); simpl; [by rewrite IH|].
  destruct (PyStr.split_on c s); simpl in *; lia.
Qed.

Lemma split_on_no_sep (c : ascii) (s : string) :
  count_char c s = 0 -> PyStr.split_on c s = [s].
Proof.
  induction s as [|a s IH]; simpl; [done|].
  destruct (Ascii.eqb a c); simpl; [lia|].
  intros H. by rewrite IH.
Qed.

Lemma split_on_key_value (c : ascii) (k v : string) :
  count_char c k = 0 -> count_char c v = 0 ->
  PyStr.split_on c (k +:+ String c v) = [k; v].
Proof.
  intros Hk Hv. induction k as [|a k IH]; simpl in *.
  - rewrite Ascii.eqb_refl. by rewrite split_on_no_sep.
  - destruct (Ascii.eqb a c); [lia|]. by rewrite IH.
Qed.

Lemma unpack2_malformed (pair : string) :
  count_char "=" pair <> 1 -> unpack2 (PyStr.split_on "=" pair) = Raise ValueError.
Proof.
  intros H. pose proof (split_on_length "=" pair) as Hlen.
  destruct (PyStr.split_on "=" pair) as [|k [|v [|x l]]]; simpl in *; try done.
  lia.
Qed.

Lemma substring_prefix (n : nat) (s t : string) :
  n = String.length s -> String.substring 0 n (s +:+ t) = s.
Proof.
  intros ->. induction s as [|a s IH]; simpl.
  - by destruct t.
  - by rewrite IH.
Qed.

Lemma append_assoc (s t u : string) : (s +:+ t) +:+ u = s +:+ (t +:+ u).
Proof.
  induction s as [|a s IH]; [done|].
  change (String a ((s +:+ t) +:+ u) = String a (s +:+ t +:+ u)).
  by rewrite IH.
Qed.

Lemma length_append (s t : string) :
  String.length (s +:+ t) = String.length s + String.length t.
Proof. induction s as [|a s IH]; simpl; [done|]. by rewrite IH. Qed.

(** [value[1:-1]] removes the first and the last character. *)
Lemma unquote_quoted (a b : ascii) (v : string) :
  unquote (String a (v +:+ String b "")) = v.
Proof.
  unfold unquote, PyStr.slice. simpl.
  rewrite length_append. simpl.
  replace (String.length v + 1 - 0 - 1) with (String.length v) by lia.
  by apply substring_prefix.
Qed.

Lemma BlkidTab_parse_pair_eq (device pair : string) (self : BlkidTab)
    (attrs : gmap string string) :
  bt_devices self !! device = Some attrs ->
  BlkidTab_parse_pair device pair self =
  (Return tt,
   mkBlkidTab (bt_chroot self)
     (<[device :=
          match PyStr.split_on "=" pair with
          | [key; value] => <[key := unquote value]> attrs
          | _ => attrs
          end]> (bt_devices self))).
Proof.
  intros Hdev. unfold BlkidTab_parse_pair, bind, try_except, lift, ret.
  destruct (PyStr.split_on "=" pair) as [|k [|v [|x l]]]; simpl;
    try (rewrite insert_id by done; by destruct self).
  unfold blkid_set_attr. by rewrite Hdev.
Qed.

Lemma BlkidTab_parse_pairs_eq (device : string) (pairs : list string)
    (self : BlkidTab) (attrs : gmap string string) :
  bt_devices self !! device = Some attrs ->
  for_each pairs (BlkidTab_parse_pair device) self =
  (Return tt,
   mkBlkidTab (bt_chroot self)
     (<[device :=
          fold_left
            (fun attrs pair =>
               match PyStr.split_on "=" pair with
               | [key; value] => <[key := unquote value]> attrs
               | _ => attrs
               end) pairs attrs]> (bt_devices self))).
Proof.
  revert self attrs. induction pairs as [|pair pairs IH]; intros self attrs Hdev.
  - simpl. unfold ret. rewrite insert_id by done. by destruct self.
  - simpl. unfold bind. rewrite (BlkidTab_parse_pair_eq _ _ _ attrs) by done.
    erewrite IH; [|simpl; apply lookup_insert_eq].
    simpl. by rewrite insert_insert_eq.
Qed.

Lemma BlkidTab_parse_line_eq (line : string) (self : BlkidTab) :
  BlkidTab_parse_line line self =
  (Return tt, mkBlkidTab (bt_chroot self) (blkid_line_spec (bt_devices self) line)).
Proof.
  unfold BlkidTab_parse_line, blkid_line_spec.
  destruct (PyStr.startswith "<device " line); simpl;
    [|unfold ret; by destruct self].
  destruct (PyStr.partition ">" (PyStr.slice 8 10 line)) as [[data sep] device].
  destruct device as [|c device]; [unfold ret; by destruct self|].
  unfold bind, modify.
  erewrite BlkidTab_parse_pairs_eq; [|simpl; apply lookup_insert_eq].
  simpl. by rewrite insert_insert_eq.
Qed.

(** C7. [BlkidTab.parse] on a readable file never raises and builds the
    table of [blkid_line_spec]: a line that does not begin with
    [<device ] leaves the table as it is, a pair that does not split into
    a key and a value on [=] is skipped while the pairs around it are kept,
    a pair [key=value] stores [value[1:-1]], and [value[1:-1]] is the value
    without its first and its last character. *)
Theorem BlkidTab_parse_correct (E : Env) (w : World) (self : BlkidTab)
    (text : string) :
  read_file E w (bt_chroot self +:+ "/etc/blkid/blkid.tab") = Some text ->
  BlkidTab_parse E w self =
    (Return tt,
     mkBlkidTab (bt_chroot self)
       (fold_left blkid_line_spec (PyStr.readlines text) (bt_devices self)))
  /\ (forall devs line,
        PyStr.startswith "<device " line = false ->
        blkid_line_spec devs line = devs)
  /\ (forall pairs1 pair pairs2,
        count_char "=" pair <> 1 ->
        blkid_attrs (pairs1 ++ pair :: pairs2) = blkid_attrs (pairs1 ++ pairs2))
  /\ (forall pairs key value,
        count_char "=" key = 0 -> count_char "=" value = 0 ->
        blkid_attrs (pairs ++ [key +:+ String "=" value]) =
        <[key := unquote value]> (blkid_attrs pairs))
  /\ (forall a b value, unquote (String a (value +:+ String b "")) = value).
Proof.
  intros Hfile. repeat split.
  - unfold BlkidTab_parse, bind, get. rewrite Hfile.
    erewrite for_each_fold with
      (step := fun s line =>
                 mkBlkidTab (bt_chroot s) (blkid_line_spec (bt_devices s) line));
      [|intros; apply BlkidTab_parse_line_eq].
    f_equal. generalize (PyStr.readlines text). intros lines. clear Hfile.
    revert self. induction lines as [|l lines IH]; intros self; simpl;
      [by destruct self|].
    by rewrite IH.
  - intros devs line Hpre. unfold blkid_line_spec. by rewrite Hpre.
  - intros pairs1 pair pairs2 Hbad. unfold blkid_attrs.
    rewrite !fold_left_app. simpl.
    pose proof (split_on_length "=" pair) as Hlen.
    destruct (PyStr.split_on "=" pair) as [|k [|v [|x l]]]; simpl in *;
      try done.
    lia.
  - intros pairs key value Hk Hv. unfold blkid_attrs.
    rewrite fold_left_app. simpl. by rewrite split_on_key_value.
  - intros. apply unquote_quoted.
Qed.

(** The table read from [Demo.blkid_text]: the pair [junk] is skipped, the
    pairs on both sides of it are stored without their quotes, and the
    second line is ignored. *)
Lemma BlkidTab_parse_correct_witness :
  read_file Demo.blkid_env Demo.one_disk "/etc/blkid/blkid.tab"
    = Some Demo.blkid_text
  /\ BlkidTab_parse Demo.blkid_env Demo.one_disk (BlkidTab_new "")
     = (Return tt,
        mkBlkidTab ""
          (fold_left blkid_line_spec (PyStr.readlines Demo.blkid_text) ∅))
  /\ fold_left blkid_line_spec (PyStr.readlines Demo.blkid_text) ∅
       !! "/dev/sda1"
     = Some (<["UUID" := "abcd"]> (<["DEVNO" := "0x0801"]> ∅)).
Proof.
  split; [reflexivity|]. split.
  - exact (proj1 (BlkidTab_parse_correct Demo.blkid_env Demo.one_disk
                    (BlkidTab_new "") Demo.blkid_text eq_refl)).
  - vm_compute. reflexivity.
Defined.

(** ** [CryptTab.parse] *)

Lemma CryptTab_parse_line_eq (E : Env) (w : World) (line : string)
    (self : CryptTab) :
  CryptTab_parse_line E w line self =
  (Return tt,
   mkCryptTab (ct_blkid_tab self) (ct_chroot self)
     (crypttab_line_spec
        (fun spec => resolve_device E w spec None (ct_blkid_tab self) None)
        (ct_mappings self) line)).
Proof.
  unfold CryptTab_parse_line, crypttab_line_spec, crypttab_fields.
  destruct (PyStr.partition "#" line) as [[l p] c]. simpl.
  destruct (PyStr.split l) as [|f1 [|f2 [|f3 [|f4 [|f5 fs]]]]]; simpl;
    try (unfold ret; by destruct self);
    unfold bind, get, put, ret;
    by destruct (resolve_device E w f2 None (ct_blkid_tab self) None);
      destruct self.
Qed.

Lemma CryptTab_parse_lines_eq (E : Env) (w : World) (lines : list string)
    (self : CryptTab) :
  for_each lines (CryptTab_parse_line E w) self =
  (Return tt,
   mkCryptTab (ct_blkid_tab self) (ct_chroot self)
     (fold_left
        (crypttab_line_spec
           (fun spec => resolve_device E w spec None (ct_blkid_tab self) None))
        lines (ct_mappings self))).
Proof.
  revert self. induction lines as [|l lines IH]; intros self; simpl.
  - unfold ret. by destruct self.
  - unfold bind. rewrite CryptTab_parse_line_eq. by rewrite IH.
Qed.

(** C6. [CryptTab.parse] on a readable crypttab returns with the mappings
    of [crypttab_line_spec] folded over the lines: a line is accepted
    exactly when it has 2 to 4 whitespace-separated fields before its first
    [#]; a missing keyfile reads ["none"] and missing options read [""]; a
    mapping is recorded under the name when the devspec resolves and the
    line changes nothing when it does not; the line
    [luks-1 UUID=abcd none none] with [UUID=abcd] resolving to a device
    gives the mapping [luks-1] with keyfile ["none"]. *)
Theorem CryptTab_parse_correct (E : Env) (w : World) (chroot : string)
    (self : CryptTab) (text : string) :
  let root :=
    if String.eqb chroot "" || negb (isdir E w chroot) then "" else chroot in
  let blkid :=
    match ct_blkid_tab self with
    | Some tab => Some tab
    | None => blkid_tab_or_None E w root
    end in
  let resolve := fun spec => resolve_device E w spec None blkid None in
  read_file E w (root +:+ "/etc/crypttab") = Some text ->
  CryptTab_parse E w chroot self =
    (Return tt,
     mkCryptTab blkid (ct_chroot self)
       (fold_left (crypttab_line_spec resolve) (PyStr.readlines text)
          (ct_mappings self)))
  /\ (forall line,
        is_Some (crypttab_fields line) <->
        2 <= length (PyStr.split (PyStr.partition "#" line).1.1) <= 4)
  /\ (forall line name devspec keyfile options,
        crypttab_fields line = Some (name, devspec, keyfile, options) ->
        exists rest,
          PyStr.split (PyStr.partition "#" line).1.1 = name :: devspec :: rest
          /\ keyfile = nth 0 rest "none" /\ options = nth 1 rest "")
  /\ (forall line name devspec keyfile options mappings,
        crypttab_fields line = Some (name, devspec, keyfile, options) ->
        match resolve devspec with
        | Some device =>
            crypttab_line_spec resolve mappings line =
            <[name := mkMapInfo device keyfile options]> mappings
        | None => crypttab_line_spec resolve mappings line = mappings
        end)
  /\ (forall device mappings,
        resolve "UUID=abcd" = Some device ->
        crypttab_line_spec resolve mappings Demo.crypttab_text !! "luks-1"
        = Some (mkMapInfo device "none" "none")).
Proof.
  intros root blkid resolve Hfile.
  split; [|split; [|split; [|split]]].
  - unfold CryptTab_parse. fold root. rewrite Hfile.
    unfold bind, get. subst blkid resolve.
    destruct (ct_blkid_tab self) as [tab|] eqn:Htab.
    + unfold ret. rewrite CryptTab_parse_lines_eq. by rewrite Htab.
    + unfold put. by rewrite CryptTab_parse_lines_eq.
  - intros line. unfold crypttab_fields.
    destruct (PyStr.split _) as [|f1 [|f2 [|f3 [|f4 [|f5 fs]]]]]; simpl;
      (split; [intros [x Hx]; try done; lia | intros Hlen; try lia; by eexists]).
  - intros line name devspec keyfile options Hfields.
    unfold crypttab_fields in Hfields.
    destruct (PyStr.split _) as [|f1 [|f2 [|f3 [|f4 [|f5 fs]]]]];
      simplify_eq/=; by eexists.
  - intros line name devspec keyfile options mappings Hfields.
    unfold crypttab_line_spec. rewrite Hfields.
    by destruct (resolve devspec).
  - intros device mappings Hres. unfold crypttab_line_spec.
    change (crypttab_fields Demo.crypttab_text)
      with (Some ("luks-1", "UUID=abcd", "none", "none")).
    cbv beta iota. rewrite Hres. apply lookup_insert_eq.
Qed.

(** The crypttab of the scenario, with [UUID=abcd] resolving to device 0. *)
Lemma CryptTab_parse_correct_witness :
  read_file Demo.crypttab_env Demo.one_disk "/etc/crypttab"
    = Some Demo.crypttab_text
  /\ (CryptTab_parse Demo.crypttab_env Demo.one_disk ""
        (CryptTab_new None "")).1 = Return tt
  /\ ct_mappings
       (CryptTab_parse Demo.crypttab_env Demo.one_disk ""
          (CryptTab_new None "")).2 !! "luks-1"
     = Some (mkMapInfo 0 "none" "none").
Proof.
  split; [reflexivity|].
  pose proof (CryptTab_parse_correct Demo.crypttab_env Demo.one_disk ""
                (CryptTab_new None "") Demo.crypttab_text eq_refl) as H.
  destruct H as (Hrun & _ & _ & _ & Hex).
  rewrite Hrun. split; [reflexivity|].
  simpl. apply (Hex 0 ∅). reflexivity.
Defined.

(** ** [get_containing_device] *)

(** C9, the claim as stated fails: for an existing path whose sysfs link
    names a device-mapper node, an error of [blockdev.dm.name_from_node]
    leaves [get_containing_device]. *)
Lemma get_containing_device_raises :
  path_exists Demo.dm_env Demo.one_disk "/home" = true
  /\ (get_containing_device Demo.dm_env "/home" Demo.one_disk).1
     = Raise BlockDevError.
Proof. split; reflexivity. Qed.

(** C9, amended.  [get_containing_device] changes nothing and returns no
    result when the path does not exist, when the sysfs link of its device
    number does not exist, or when reading the link fails; otherwise it
    returns the device of the tree with the name found (none if there is
    none), and it raises only when that name is a [dm-] node and
    [blockdev.dm.name_from_node] raises on it. *)
Theorem get_containing_device_correct (E : Env) (path : string) (w : World) :
  let r := get_containing_device E path w in
  let link :=
    "/sys/dev/block/" +:+ PyStr.fmt_nat (stat_dev E w path).1 +:+ ":"
    +:+ PyStr.fmt_nat (stat_dev E w path).2 in
  r.2 = w
  /\ (path_exists E w path = false -> r.1 = Return None)
  /\ (path_exists E w link = false -> r.1 = Return None)
  /\ (readlink E w link = None -> r.1 = Return None)
  /\ (forall target,
        path_exists E w path = true -> path_exists E w link = true ->
        readlink E w link = Some target ->
        let name := PyStr.basename target in
        if PyStr.startswith "dm-" name then
          match dm_name_from_node E w name with
          | Some name' => r.1 = Return (get_device_by_name w name')
          | None => r.1 = Raise BlockDevError
          end
        else r.1 = Return (get_device_by_name w name)).
Proof.
  intros r link. subst r link.
  unfold get_containing_device, bind, get, try_except, lift, ret, os_readlink,
    blockdev_dm_name_from_node.
  destruct (stat_dev E w path) as [major minor]. simpl.
  set (link := "/sys/dev/block/" +:+ PyStr.fmt_nat major +:+ ":" +:+ PyStr.fmt_nat minor).
  destruct (path_exists E w path) eqn:Hp; simpl;
    [|repeat split; intros; done].
  destruct (path_exists E w link) eqn:Hl; simpl;
    [|repeat split; intros; done].
  destruct (readlink E w link) as [target|] eqn:Hr; simpl;
    [|repeat split; intros; done].
  destruct (PyStr.startswith "dm-" (PyStr.basename target)) eqn:Hdm; simpl.
  - destruct (dm_name_from_node E w (PyStr.basename target)) eqn:Hn; simpl;
      (split; [done|]); (split; [done|]); (split; [done|]); (split; [done|]);
      intros t _ _ [= <-]; rewrite Hdm, Hn; done.
  - (split; [done|]); (split; [done|]); (split; [done|]); (split; [done|]).
    intros t _ _ [= <-]. by rewrite Hdm.
Qed.

(** ** [FSSet.create_swap_file] *)

Lemma find_swap_filename_from (E : Env) (w : World) (basedir : string)
    (n k fuel : nat) :
  (forall j, k <= j < n ->
     swap_filename_taken E w basedir (swap_filename j) = true) ->
  swap_filename_taken E w basedir (swap_filename n) = false ->
  k <= n -> n - k < fuel ->
  find_swap_filename E fuel w basedir k (swap_filename k)
  = Some (swap_filename n).
Proof.
  revert k. induction fuel as [|fuel IH]; intros k Htaken Hfree Hkn Hfuel;
    [lia|].
  simpl. destruct (decide (k = n)) as [->|Hne].
  - by rewrite Hfree.
  - rewrite Htaken by lia.
    change ("/SWAP-" +:+ PyStr.fmt_nat (S k)) with (swap_filename (S k)).
    apply IH; [intros; apply Htaken; lia|done|lia|lia].
Qed.

Global Instance names_kept_preorder : PreOrder names_kept.
Proof.
  split.
  - by intros w i.
  - intros w1 w2 w3 H12 H23 i. destruct (H12 i), (H23 i). split; congruence.
Qed.

Global Instance formats_kept_preorder : PreOrder formats_kept.
Proof.
  split.
  - by intros w i.
  - intros w1 w2 w3 H12 H23 i. by rewrite H23, H12.
Qed.

Lemma perform_names_kept (E : Env) (ev : Event) :
  post (perform E ev) names_kept.
Proof.
  intros w i. unfold perform. destruct (op_raises E w ev); simpl; [done|].
  destruct ev; simpl; try done; by destruct (Nat.eqb i d).
Qed.

Lemma perform_formats_kept (E : Env) (ev : Event) :
  post (perform E ev) formats_kept.
Proof.
  intros w i. unfold perform. destruct (op_raises E w ev); simpl; [done|].
  destruct ev; simpl; try done; by destruct (Nat.eqb i d).
Qed.

Lemma swap_filename_free (E : Env) (w : World) (basedir filename : string) :
  swap_filename_taken E w basedir filename = false <->
  path_exists E w (basedir +:+ "/" +:+ filename) = false
  /\ forall i, i ∈ tree w -> d_name (objs w i) <> filename.
Proof.
  unfold swap_filename_taken, get_device_by_name, is_Some_b.
  rewrite orb_false_iff. apply and_iff_compat_l.
  destruct (find _ (tree w)) as [i|] eqn:Hfind; simpl.
  - apply find_some in Hfind as [Hin Heq]. apply String.eqb_eq in Heq.
    split; [done|]. intros H. exfalso. apply (H i); [|done].
    by apply list_elem_of_In.
  - split; [|done]. intros _ i Hin Hname.
    apply list_elem_of_In in Hin.
    pose proof (find_none _ _ Hfind i Hin) as Hne. simpl in Hne.
    apply String.eqb_neq in Hne. done.
Qed.

(** [create_swap_file] once the name is found: the device is built and
    the five operations follow. *)
Lemma create_swap_file_eq (E : Env) (fuel : nat) (device : dev_id) (size : Z)
    (st : State) (mountpoint : option string) (filename : string) :
  format_mountpoint (fmt_of (world st) device) = Return mountpoint ->
  find_swap_filename E fuel (world st)
    (normpath E (get_target_physical_root E +:+ "/" +:+ py_str mountpoint))
    0 "/SWAP" = Some filename ->
  create_swap_file E fuel device size st =
  (let dev := next_id (world st) in
   in_world (perform E (EvCreate dev)) ;;;
   in_world (perform E (EvSetup dev)) ;;;
   in_world (perform E (EvFormatCreate dev)) ;;;
   in_world (perform E (EvFormatSetup dev None)) ;;;
   in_world (perform E (EvAddDevice dev)))
    (mkState (self st)
       (new_device FileDevice filename
          (get_format E "swap" (Some filename) None false) [device] false size
          (world st)).2).
Proof.
  intros Hmp Hfind. unfold create_swap_file.
  unfold bind at 1, get at 1.
  unfold bind at 1, lift at 1. rewrite Hmp. cbv beta iota. rewrite Hfind.
  reflexivity.
Qed.

(** C8. [create_swap_file] takes the first name of the sequence [/SWAP],
    [/SWAP-1], [/SWAP-2], ... for which the condition of its loop is false,
    that is, which neither exists under the target mountpoint nor names a
    device of the tree: when the names before the [n]-th are taken and the
    [n]-th is free, the loop ends within [n + 1] tests with the [n]-th
    name, and the file device then created (the next object of the store)
    carries it.  With [/SWAP] and [/SWAP-1] taken and [/SWAP-2] free the
    name is [/SWAP-2]. *)
Theorem create_swap_file_name (E : Env) (fuel : nat) (device : dev_id)
    (size : Z) (st : State) (n : nat) (mountpoint : option string) :
  let w := world st in
  let basedir :=
    normpath E (get_target_physical_root E +:+ "/" +:+ py_str mountpoint) in
  format_mountpoint (fmt_of w device) = Return mountpoint ->
  (forall k, k < n ->
     swap_filename_taken E w basedir (swap_filename k) = true) ->
  swap_filename_taken E w basedir (swap_filename n) = false ->
  n < fuel ->
  find_swap_filename E fuel w basedir 0 "/SWAP" = Some (swap_filename n)
  /\ (path_exists E w (basedir +:+ "/" +:+ swap_filename n) = false
      /\ forall i, i ∈ tree w -> d_name (objs w i) <> swap_filename n)
  /\ (let r := create_swap_file E fuel device size st in
      r.1 <> OutOfFuel
      /\ d_name (objs (world r.2) (next_id w)) = swap_filename n
      /\ d_class (objs (world r.2) (next_id w)) = FileDevice)
  /\ (n = 2 -> find_swap_filename E fuel w basedir 0 "/SWAP" = Some "/SWAP-2").
Proof.
  intros w basedir Hmp Htaken Hfree Hfuel.
  assert (Hfind : find_swap_filename E fuel w basedir 0 "/SWAP"
                  = Some (swap_filename n)).
  { apply (find_swap_filename_from E w basedir n 0 fuel); try done; try lia.
    intros j Hj. apply Htaken. lia. }
  split; [done|]. split; [by apply swap_filename_free|].
  split; [|by intros ->].
  rewrite (create_swap_file_eq E fuel device size st mountpoint
             (swap_filename n) Hmp Hfind).
  cbv zeta. fold w.
  match goal with
  | |- context [bind ?c ?k ?s] => set (rest := bind c k); set (st1 := s)
  end.
  assert (Hpost : post rest
            (fun a b => self b = self a /\ names_kept (world a) (world b))).
  { subst rest.
    assert (PreOrder (fun a b : State =>
              self b = self a /\ names_kept (world a) (world b))) as Hpre.
    { split.
      - intros a. split; [done|reflexivity].
      - intros a b c [? ?] [? ?]. split; [congruence|by etrans]. }
    repeat (apply post_bind; [done| |intros _]);
      try apply post_in_world; apply perform_names_kept. }
  split.
  - assert (Hfin : finishes rest); [|apply Hfin].
    subst rest.
    repeat (apply finishes_bind; [|intros _]);
      apply finishes_in_world, finishes_perform.
  - destruct (Hpost st1) as [_ Hnames]. destruct (Hnames (next_id w)) as [Hn Hc].
    rewrite Hn, Hc. subst st1. simpl. by rewrite Nat.eqb_refl.
Qed.

(** With [/SWAP] and [/SWAP-1] present under [/mnt/sysimage], the swap
    file created on the root filesystem is [/SWAP-2]. *)
Lemma create_swap_file_name_witness :
  find_swap_filename Demo.swap_env 10 Demo.root_disk "/mnt/sysimage" 0 "/SWAP"
    = Some "/SWAP-2"
  /\ d_name (objs (world (create_swap_file Demo.swap_env 10 0 1024%Z
                            Demo.root_state).2) 1) = "/SWAP-2".
Proof.
  assert (Hmp : format_mountpoint (fmt_of (world Demo.root_state) 0)
                = Return (Some "/")) by reflexivity.
  assert (Htaken : forall k, k < 2 ->
            swap_filename_taken Demo.swap_env (world Demo.root_state)
              "/mnt/sysimage" (swap_filename k) = true).
  { intros [|[|k]] Hk; [reflexivity|reflexivity|lia]. }
  destruct (create_swap_file_name Demo.swap_env 10 0 1024%Z Demo.root_state 2
              (Some "/") Hmp Htaken eq_refl ltac:(lia))
    as (Hfind & _ & (_ & Hname & _) & _).
  split; [exact Hfind|exact Hname].
Defined.

(** When device-mapper knows the node, the device of that name is found. *)
Lemma get_containing_device_correct_witness :
  (get_containing_device Demo.dm_named_env "/home" Demo.one_disk).1
  = Return (Some 0).
Proof.
  destruct (get_containing_device_correct Demo.dm_named_env "/home"
              Demo.one_disk) as (_ & _ & _ & _ & H).
  exact (H "../../devices/virtual/block/dm-0" eq_refl eq_refl eq_refl).
Defined.

(** ** [FSSet.fstab] *)

(** C10. With no mountpoint and no swap device, [fstab()] ends on the
    [IndexError] of [devices[0]]. *)
Theorem fstab_needs_a_device (E : Env) (fs : FSSet) (w : World) :
  mountpoints w = Return [] ->
  swap_devices w = [] ->
  fstab E fs w = Raise IndexError.
Proof.
  intros Hmp Hswap. unfold fstab, fstab_generated, fstab_devices.
  rewrite Hmp, Hswap. simpl. by destruct (installer_mode E).
Qed.

Lemma fstab_needs_a_device_witness :
  mountpoints Demo.no_devices = Return []
  /\ swap_devices Demo.no_devices = []
  /\ fstab (Demo.env Demo.quiet) FSSet_new Demo.no_devices = Raise IndexError.
Proof.
  split; [reflexivity|]. split; [reflexivity|].
  apply (fstab_needs_a_device (Demo.env Demo.quiet) FSSet_new Demo.no_devices);
    reflexivity.
Defined.

Lemma fstab_entry_passno (E : Env) (w : World) (netdevs : list dev_id)
    (root_on_netdev : bool) (device : dev_id) (e : FstabEntry) :
  fstab_entry E w netdevs root_on_netdev device = Return (Some e) ->
  e_devspec e = d_fstab_spec (objs w device)
  /\ e_passno e = passno_of (f_check (fmt_of w device)) (e_mountpoint e).
Proof.
  unfold fstab_entry, fmt_of. intros H.
  repeat case_match; simplify_eq/=; done.
Qed.

Lemma fstab_entries_passno (E : Env) (w : World) (netdevs : list dev_id)
    (root_on_netdev : bool) (l : list dev_id) (entries : list FstabEntry) :
  fstab_entries E w netdevs root_on_netdev l = Return entries ->
  Forall
    (fun e => exists device,
       device ∈ l
       /\ e_devspec e = d_fstab_spec (objs w device)
       /\ e_passno e = passno_of (f_check (fmt_of w device)) (e_mountpoint e))
    entries.
Proof.
  revert entries. induction l as [|device l IH]; intros entries H; simpl in H.
  - by simplify_eq.
  - destruct (fstab_entry E w netdevs root_on_netdev device) as [oe|?|] eqn:He;
      [|done..].
    destruct (fstab_entries E w netdevs root_on_netdev l) as [es|?|]; [|done..].
    simplify_eq. apply Forall_app. split.
    + destruct oe as [e|]; simpl; [|constructor].
      apply fstab_entry_passno in He as [? ?].
      constructor; [|constructor]. exists device. set_solver.
    + eapply Forall_impl; [by apply IH|].
      intros e (d & ? & ? & ?). exists d. set_solver.
Qed.

(** C4, the claim as stated fails: a root filesystem whose format does not
    ask for a check is written with pass number 0. *)
Lemma fstab_root_passno_zero :
  exists e,
    fstab_generated (Demo.env Demo.quiet) FSSet_new Demo.nfs_root = Return [e]
    /\ e_mountpoint e = "/" /\ e_passno e = 0
    /\ fmt_str e =
       "server:/export          /                       nfs     defaults        0 0
".
Proof. eexists. repeat split; reflexivity. Qed.

(** C4, amended.  Every generated entry of the fstab comes from a device
    of the list being written, and its pass number is 1 when the format of
    that device asks for a check and the mountpoint column is [/], 2 when
    the format asks for a check and the mountpoint column is anything else,
    and 0 when the format does not ask for a check; the last column of the
    rendered line is that number. *)
Theorem fstab_passno (E : Env) (fs : FSSet) (w : World)
    (entries : list FstabEntry) :
  fstab_generated E fs w = Return entries ->
  (exists devs,
     fstab_devices E fs w = Return devs
     /\ Forall
          (fun e => exists device,
             device ∈ devs
             /\ e_devspec e = d_fstab_spec (objs w device)
             /\ (f_check (fmt_of w device) = true -> e_mountpoint e = "/" ->
                 e_passno e = 1)
             /\ (f_check (fmt_of w device) = true -> e_mountpoint e <> "/" ->
                 e_passno e = 2)
             /\ (f_check (fmt_of w device) = false -> e_passno e = 0)
             /\ exists columns,
                  fmt_str e = columns +:+ " " +:+ PyStr.fmt_nat (e_passno e)
                              +:+ String PyStr.newline "")
          entries)
  /\ fstab E fs w =
     Return (fstab_header E +:+ PyStr.join (map render_entry entries)
             +:+ PyStr.join (preserve_lines fs)).
Proof.
  intros Hgen. split.
  - unfold fstab_generated in Hgen.
    destruct (fstab_devices E fs w) as [devs|?|]; [|done..].
    exists devs. split; [done|].
    destruct devs as [|rootdev devs]; [done|].
    apply fstab_entries_passno in Hgen.
    eapply Forall_impl; [exact Hgen|].
    intros e (device & Hin & Hspec & Hpass). exists device.
    split; [done|]. split; [done|]. unfold passno_of in Hpass.
    split; [|split; [|split]].
    + intros Hc Hm. by rewrite Hpass, Hc, Hm.
    + intros Hc Hm. rewrite Hpass, Hc. simpl.
      by apply String.eqb_neq in Hm as ->.
    + intros Hc. by rewrite Hpass, Hc.
    + unfold fmt_str.
      exists (PyStr.ljust 23 (e_devspec e) +:+ " " +:+
              PyStr.ljust 23 (e_mountpoint e) +:+ " " +:+
              PyStr.ljust 7 (e_fstype e) +:+ " " +:+
              PyStr.ljust 15 (e_options e) +:+ " " +:+ PyStr.fmt_Z (e_dump e)).
      by rewrite !append_assoc.
  - unfold fstab. by rewrite Hgen.
Qed.

(** A root on ext4, whose format asks for a check, is written with 1. *)
Lemma fstab_passno_witness :
  exists e,
    fstab_generated (Demo.env Demo.quiet) FSSet_new Demo.root_disk = Return [e]
    /\ e_mountpoint e = "/" /\ e_passno e = 1.
Proof.
  eexists. split; [reflexivity|]. split; [reflexivity|].
  destruct (fstab_passno (Demo.env Demo.quiet) FSSet_new Demo.root_disk _
              eq_refl) as [(devs & Hdevs & Hall) _].
  assert (devs = [0]) as -> by (vm_compute in Hdevs; congruence).
  apply Forall_cons in Hall as [(device & Hin & _ & H1 & _) _].
  apply list_elem_of_singleton in Hin as ->.
  apply H1; reflexivity.
Defined.

(** ** The installer-mode flag *)

(** C5, the claim as stated fails: with the flag off, [umount_filesystems]
    still tears down the format of the root device and clears [active]. *)
Lemma umount_filesystems_not_gated :
  installer_mode Demo.library_env = false
  /\ active (self Demo.mounted_state) = true
  /\ trace (world Demo.mounted_state) = []
  /\ let r := umount_filesystems Demo.library_env true Demo.mounted_state in
     r.1 = Return tt
     /\ active (self r.2) = false
     /\ EvFormatTeardown 0 ∈ trace (world r.2).
Proof.
  split; [reflexivity|]. split; [reflexivity|]. split; [reflexivity|].
  split; [reflexivity|]. split; [reflexivity|].
  vm_compute. set_solver.
Qed.

(** C5, amended.  With the installer-mode flag off, [mount_filesystems]
    and [turn_on_swap] return at once: no operation is performed and the
    set of filesystems, the devices and the tree are as before.  (The
    unmount operation does not read the flag.) *)
Theorem mount_and_swap_gated (E : Env) (fuel : nat) (root_path : string)
    (read_only : option string) (skip_root : bool) (st : State) :
  installer_mode E = false ->
  mount_filesystems E root_path read_only skip_root st = (Return tt, st)
  /\ turn_on_swap E fuel root_path st = (Return tt, st).
Proof.
  intros Hflag. unfold mount_filesystems, turn_on_swap. by rewrite Hflag.
Qed.

Lemma mount_and_swap_gated_witness :
  installer_mode Demo.library_env = false
  /\ mount_filesystems Demo.library_env "/mnt/sysimage" None false
       Demo.mounted_state = (Return tt, Demo.mounted_state)
  /\ turn_on_swap Demo.library_env 3 "/mnt/sysimage" Demo.mounted_state
     = (Return tt, Demo.mounted_state).
Proof.
  split; [reflexivity|].
  exact (mount_and_swap_gated Demo.library_env 3 "/mnt/sysimage" None false
           Demo.mounted_state eq_refl).
Defined.

(** ** [FSSet.parse_fstab] *)

Global Instance same_self_preorder : PreOrder same_self.
Proof. split; [by intros st|]. intros a b c H1 H2. unfold same_self in *. congruence. Qed.

Lemma in_world_same_self {A} (c : M World A) : post (in_world c) same_self.
Proof. intros st. unfold in_world. by destruct (c (world st)). Qed.

(** One step of a proof of [post c R] for a preorder [R]. *)
Ltac post_step :=
  first
    [ apply post_ret; apply _ | apply post_raise; apply _
    | apply post_get; apply _ | apply post_lift; apply _
    | apply post_out_of_fuel; apply _ | apply in_world_same_self
    | apply post_bind; [apply _| |intros ?]
    | apply post_try_except; [apply _| |intros ?]
    | apply post_for_each; [apply _|intros ?]
    | apply post_map_m; [apply _|intros ?] ].

Ltac post_auto :=
  repeat first [post_step | case_match | progress (cbv zeta)].

Lemma find_or_build_device_same_self (E : Env)
    (devspec mountpoint fstype options : string) :
  post (find_or_build_device E devspec mountpoint fstype options) same_self.
Proof. unfold find_or_build_device. post_auto. Qed.

Lemma _parse_one_line_same_self (E : Env)
    (devspec mountpoint fstype options : string) :
  post (_parse_one_line E devspec mountpoint fstype options) same_self.
Proof.
  unfold _parse_one_line. post_auto.
Qed.

Lemma _parse_one_line_noauto (E : Env)
    (devspec mountpoint fstype options : string) (st : State) :
  PyStr.mem "noauto" (PyStr.split_on "," options) = true ->
  _parse_one_line E devspec mountpoint fstype options st
  = (Raise UnrecognizedFSTabEntryError, st).
Proof. intros H. unfold _parse_one_line. by rewrite H. Qed.

Lemma partition_no_sep (c : ascii) (s : string) :
  count_char c s = 0 -> PyStr.partition c s = (s, "", "").
Proof.
  induction s as [|a s IH]; simpl; [done|].
  destruct (Ascii.eqb a c); simpl; [lia|].
  intros H. by rewrite IH.
Qed.

Lemma before_comment_no_comment (line : string) :
  no_comment line = true -> before_comment line = line.
Proof.
  unfold no_comment, before_comment. intros H%Nat.eqb_eq.
  by rewrite partition_no_sep.
Qed.

(** What one line adds to the preserved lines: nothing, or its text before
    the comment; an entry with [noauto] is always kept, a line that is not
    an entry changes nothing at all. *)
Lemma parse_fstab_line_preserve (E : Env) (raw : string) (st : State) :
  let r := parse_fstab_line E raw st in
  exists kept,
    preserve_lines (self r.2) = preserve_lines (self st) ++ kept
    /\ (kept = [] \/ (kept = [before_comment raw] /\ is_entry raw = true))
    /\ (is_noauto_entry raw = true ->
        r.1 = Return tt /\ kept = [before_comment raw])
    /\ (is_entry raw = false -> r = (Return tt, st)).
Proof.
  unfold parse_fstab_line, is_noauto_entry, is_entry, fstab_fields,
    before_comment.
  destruct (PyStr.partition "#" raw) as [[line p] c]. cbn [fst snd].
  cbv beta iota zeta.
  destruct ((4 <=? length (PyStr.split line))
            && (length (PyStr.split line) <=? 6)) eqn:Hn; cbn [negb andb].
  2:{ exists []. rewrite app_nil_r. repeat split; auto. done. }
  destruct (PyStr.split line) as [|devspec [|mountpoint [|fstype [|options rest]]]];
    try done.
  cbn [nth].
  unfold bind, try_except, ret, get, append_preserve, modify_self, modify,
    in_world.
  destruct (PyStr.mem "noauto" (PyStr.split_on "," options)) eqn:Hnoauto.
  - rewrite _parse_one_line_noauto by done. cbn.
    exists [line]. repeat split; auto. done.
  - pose proof (_parse_one_line_same_self E devspec mountpoint fstype options st)
      as Hself. unfold same_self in Hself.
    destruct (_parse_one_line E devspec mountpoint fstype options st)
      as [[[device|]|e|] st1]; cbn in Hself; cbn [fst snd].
    + destruct (negb (dev_in device (tree (world st1)))).
      * destruct (perform E (EvAddDevice device) (world st1))
          as [[[]|e|] w2]; cbn.
        -- exists []. rewrite app_nil_r, Hself. repeat split; auto; done.
        -- destruct (isinstance_ValueError e); cbn.
           ++ exists [line]. rewrite Hself. repeat split; auto; done.
           ++ exists []. rewrite app_nil_r, Hself. repeat split; auto; done.
        -- exists []. rewrite app_nil_r, Hself. repeat split; auto; done.
      * exists []. cbn. rewrite app_nil_r, Hself. repeat split; auto; done.
    + exists []. cbn. rewrite app_nil_r, Hself. repeat split; auto; done.
    + destruct (isinstance_UnrecognizedFSTabEntryError e); cbn.
      * exists [line]. rewrite Hself. repeat split; auto; done.
      * exists []. rewrite app_nil_r, Hself. repeat split; auto; done.
    + exists []. cbn. rewrite app_nil_r, Hself. repeat split; auto; done.
Qed.

Lemma for_each_cons_return {S X} (x : X) (l : list X) (body : X -> M S unit)
    (s : S) :
  (for_each (x :: l) body s).1 = Return tt ->
  (body x s).1 = Return tt
  /\ for_each (x :: l) body s = for_each l body (body x s).2.
Proof.
  simpl. unfold bind. destruct (body x s) as [[[]|e|] s']; simpl; done.
Qed.

Lemma parse_fstab_lines_preserve (E : Env) (lines : list string) (st : State) :
  let r := for_each lines (parse_fstab_line E) st in
  r.1 = Return tt ->
  exists kept,
    preserve_lines (self r.2) = preserve_lines (self st) ++ kept
    /\ (before_comment <$> List.filter is_noauto_entry lines) `sublist_of` kept
    /\ Forall
         (fun k => exists raw,
            raw ∈ lines /\ k = before_comment raw /\ is_entry raw = true)
         kept.
Proof.
  revert st. induction lines as [|raw lines IH]; intros st r Hret; subst r.
  - exists []. simpl. rewrite app_nil_r. repeat split; [done|constructor].
  - apply for_each_cons_return in Hret as Hstep. destruct Hstep as [Hraw Heq].
    rewrite Heq in Hret |- *.
    destruct (parse_fstab_line_preserve E raw st)
      as (k1 & Hk1 & Hshape & Hnoauto & _).
    destruct (IH _ Hret) as (k2 & Hk2 & Hsub & Hall).
    exists (k1 ++ k2). split; [by rewrite Hk2, Hk1, app_assoc|]. split.
    + simpl. destruct (is_noauto_entry raw) eqn:Hn.
      * destruct (Hnoauto eq_refl) as [_ ->]. simpl. by constructor.
      * by apply sublist_inserts_l.
    + apply Forall_app. split.
      * destruct Hshape as [->|[-> Hentry]]; [constructor|].
        constructor; [|constructor]. exists raw.
        split; [apply elem_of_cons; by left|done].
      * eapply Forall_impl; [exact Hall|].
        intros k (raw' & ? & ? & ?). exists raw'.
        split; [apply elem_of_cons; by right|done].
Qed.

Lemma filter_no_comment_sublist (lines : list string) :
  List.filter (fun l => is_noauto_entry l && no_comment l) lines
  `sublist_of` (before_comment <$> List.filter is_noauto_entry lines).
Proof.
  induction lines as [|l lines IH]; simpl; [constructor|].
  destruct (is_noauto_entry l); simpl; [|done].
  destruct (no_comment l) eqn:Hc; simpl.
  - rewrite before_comment_no_comment by done. by constructor.
  - by constructor.
Qed.

Lemma join_app (l1 l2 : list string) :
  PyStr.join (l1 ++ l2) = PyStr.join l1 +:+ PyStr.join l2.
Proof.
  induction l1 as [|x l1 IH]; simpl; [done|].
  unfold PyStr.join in *. simpl. by rewrite IH, append_assoc.
Qed.

(** [parse_fstab] once the file is open: the two tables are stored, the
    text is saved and the lines are read in turn. *)
Lemma parse_fstab_eq (E : Env) (chroot : option string) (st : State)
    (text : string) :
  let path := fstab_root E chroot (world st) +:+ "/etc/fstab" in
  access_r E (world st) path = true ->
  read_file E (world st) path = Some text ->
  parse_fstab E chroot st
  = for_each (PyStr.readlines text) (parse_fstab_line E)
      (fstab_opened E chroot st text).
Proof.
  intros path Haccess Hfile. unfold parse_fstab, fstab_opened.
  unfold bind at 1, get at 1. fold (fstab_root E chroot (world st)).
  fold path. rewrite Haccess. cbn [negb]. rewrite Hfile.
  reflexivity.
Qed.

(** C1, the claim as stated fails: the line [/dev/sdb1 /data ext4] has
    three fields; the parse completes, the line is not among the preserved
    lines and the regenerated fstab does not hold it. *)
Lemma malformed_line_not_preserved :
  is_entry Demo.short_line = false
  /\ Demo.short_line ∈ PyStr.readlines Demo.fstab_text
  /\ let r := parse_fstab Demo.fstab_env None Demo.root_state in
     r.1 = Return tt
     /\ ~ (Demo.short_line ∈ preserve_lines (self r.2))
     /\ exists out,
          fstab Demo.fstab_env (self r.2) (world r.2) = Return out
          /\ PyStr.contains Demo.short_line out = false.
Proof.
  split; [reflexivity|]. split; [vm_compute; set_solver|].
  split; [reflexivity|]. split.
  - vm_compute. intros H. repeat (apply elem_of_cons in H as [H|H]; [done|]).
    by apply elem_of_nil in H.
  - eexists. split; [reflexivity|]. vm_compute. reflexivity.
Qed.

(** C1, amended.  When [parse_fstab] reads a file and completes, the lines
    it adds to the preserved lines hold, in their original order and as
    they stand in the file with their line terminator, every line without
    a [#] that has 4 to 6 fields and [noauto] among its options; a line
    with fewer than 4 or more than 6 fields before its first [#] is never
    added; and the regenerated fstab is the header, the generated lines,
    the lines preserved before and the lines added, in this order. *)
Theorem parse_fstab_preserves (E : Env) (chroot : option string) (st : State)
    (text : string) :
  let path := fstab_root E chroot (world st) +:+ "/etc/fstab" in
  let r := parse_fstab E chroot st in
  access_r E (world st) path = true ->
  read_file E (world st) path = Some text ->
  r.1 = Return tt ->
  exists kept,
    preserve_lines (self r.2) = preserve_lines (self st) ++ kept
    /\ List.filter (fun l => is_noauto_entry l && no_comment l)
         (PyStr.readlines text) `sublist_of` kept
    /\ Forall
         (fun k => exists raw,
            raw ∈ PyStr.readlines text /\ k = before_comment raw
            /\ is_entry raw = true)
         kept
    /\ forall out,
         fstab E (self r.2) (world r.2) = Return out ->
         exists entries,
           fstab_generated E (self r.2) (world r.2) = Return entries
           /\ out = fstab_header E +:+ PyStr.join (map render_entry entries)
                    +:+ PyStr.join (preserve_lines (self st))
                    +:+ PyStr.join kept.
Proof.
  intros path r Haccess Hfile Hret. subst r.
  rewrite (parse_fstab_eq E chroot st text Haccess Hfile) in Hret |- *.
  destruct (parse_fstab_lines_preserve E (PyStr.readlines text) _ Hret)
    as (kept & Hkept & Hsub & Hall).
  exists kept. simpl in Hkept.
  split; [done|]. split.
  { etrans; [apply filter_no_comment_sublist|done]. }
  split; [done|].
  intros out Hout. unfold fstab in Hout.
  destruct (fstab_generated E _ _) as [entries|?|]; [|done..].
  exists entries. split; [done|].
  injection Hout as <-. by rewrite Hkept, join_app.
Qed.

(** The two [noauto] entries of [Demo.fstab_text] come out after the line
    generated for the root device, as they were written. *)
Lemma parse_fstab_preserves_witness :
  let r := parse_fstab Demo.fstab_env None Demo.root_state in
  r.1 = Return tt
  /\ preserve_lines (self r.2) = [Demo.cdrom_line; Demo.opt_line]
  /\ exists kept,
       [Demo.cdrom_line; Demo.opt_line] `sublist_of` kept
       /\ forall out,
            fstab Demo.fstab_env (self r.2) (world r.2) = Return out ->
            exists entries,
              out = fstab_header Demo.fstab_env
                    +:+ PyStr.join (map render_entry entries)
                    +:+ PyStr.join [] +:+ PyStr.join kept.
Proof.
  split; [reflexivity|]. split; [reflexivity|].
  destruct (parse_fstab_preserves Demo.fstab_env None Demo.root_state
              Demo.fstab_text eq_refl eq_refl eq_refl)
    as (kept & _ & Hsub & _ & Hout).
  exists kept. split; [exact Hsub|].
  intros out H. destruct (Hout out H) as (entries & _ & ->). by exists entries.
Defined.

(** What the amended claim leaves out: a [noauto] entry that ends in a
    comment is preserved without the comment and without its line
    terminator, because the loop variable [line] has been rebound to the
    text before the [#]. *)
Example noauto_entry_with_comment_is_cut :
  let r := parse_fstab Demo.commented_env None Demo.root_state in
  r.1 = Return tt
  /\ preserve_lines (self r.2) = ["/dev/cdrom /mnt/cdrom iso9660 noauto "].
Proof. split; reflexivity. Qed.

(** ** [FSSet._parse_one_line]: the type check *)

Lemma perform_ok (E : Env) (ev : Event) (w : World) :
  op_raises E w ev = None -> perform E ev w = (Return tt, after ev w).
Proof. intros H. unfold perform, after. by rewrite H. Qed.

(** After the chain, [fstype] is the declared type or ["bind"]. *)
Lemma find_or_build_device_fstype (E : Env)
    (devspec mountpoint fstype options : string) (st st1 : State)
    (device : option dev_id) (fstype' : string) :
  find_or_build_device E devspec mountpoint fstype options st
  = (Return (Some (device, fstype')), st1) ->
  fstype' = fstype \/ fstype' = "bind".
Proof.
  unfold find_or_build_device, bind, get, ret, in_world.
  intros H. repeat case_match; simplify_eq; auto.
Qed.

(** C2. An entry without [noauto] whose declared type is not ["auto"],
    whose device is found or built and set up, for which both format types
    are known, the format of the declared type offers [test_mount], its
    mount type differs from that of the device's format, and the trial
    mount returns false: [_parse_one_line] tears the device down (its last
    operation, after which the device is not active) and raises
    [FSTabTypeMismatchError]; the [FSSet] is as before, so the line is not
    preserved; the error leaves the body of the loop and [parse_fstab]
    itself, with the remaining lines unread. *)
Theorem type_mismatch_propagates (E : Env)
    (devspec mountpoint fstype options : string) (st st1 : State)
    (device : dev_id) (fstype' : string) :
  let w2 := after (EvSetup device) (world st1) in
  let fmt := get_format E fstype' (Some (d_path (objs w2 device))) None true in
  let w3 := after (EvTestMount fmt) w2 in
  let w4 := after (EvTeardown device) w3 in
  let err :=
    FSTabTypeMismatchError
      (mountpoint +:+ ": detected as " +:+ py_str (mount_type_of (fmt_of w2 device))
       +:+ ", fstab says " +:+ py_str (mount_type_of fmt)) in
  PyStr.mem "noauto" (PyStr.split_on "," options) = false ->
  fstype <> "auto" ->
  find_or_build_device E devspec mountpoint fstype options st
    = (Return (Some (Some device, fstype')), st1) ->
  op_raises E (world st1) (EvSetup device) = None ->
  f_type (fmt_of w2 device) <> None ->
  f_type fmt <> None ->
  f_test_mount fmt = true ->
  mount_type_of fmt <> mount_type_of (fmt_of w2 device) ->
  op_raises E w2 (EvTestMount fmt) = None ->
  test_mount E w3 fmt = false ->
  op_raises E w3 (EvTeardown device) = None ->
  _parse_one_line E devspec mountpoint fstype options st
    = (Raise err, mkState (self st) w4)
  /\ d_status (objs w4 device) = false
  /\ last (trace w4) = Some (EvTeardown device)
  /\ (forall raw rest,
        fstab_fields raw = devspec :: mountpoint :: fstype :: options :: rest ->
        length rest <= 2 ->
        parse_fstab_line E raw st = (Raise err, mkState (self st) w4)
        /\ forall chroot st0 text lines_before lines_after,
             access_r E (world st0)
               (fstab_root E chroot (world st0) +:+ "/etc/fstab") = true ->
             read_file E (world st0)
               (fstab_root E chroot (world st0) +:+ "/etc/fstab") = Some text ->
             PyStr.readlines text = lines_before ++ raw :: lines_after ->
             for_each lines_before (parse_fstab_line E)
               (fstab_opened E chroot st0 text) = (Return tt, st) ->
             parse_fstab E chroot st0 = (Raise err, mkState (self st) w4)).
Proof.
  intros w2 fmt w3 w4 err Hnoauto Hauto Hfind Hsetup Hdtype Hftype Htm Hdiff
    Htrial_ok Htrial Hteardown.
  assert (Hauto' : String.eqb fstype' "auto" = false).
  { apply String.eqb_neq.
    destruct (find_or_build_device_fstype _ _ _ _ _ _ _ _ _ Hfind) as [->| ->];
      done. }
  assert (Hself : self st1 = self st).
  { pose proof (find_or_build_device_same_self E devspec mountpoint fstype
                  options st) as H.
    unfold same_self in H. by rewrite Hfind in H. }
  assert (Hline : _parse_one_line E devspec mountpoint fstype options st
                  = (Raise err, mkState (self st) w4)).
  { unfold _parse_one_line. rewrite Hnoauto.
    unfold bind at 1. rewrite Hfind.
    unfold bind at 1, in_world at 1. rewrite (perform_ok E _ _ Hsetup).
    fold w2. unfold bind at 1, get at 1. cbn [world self].
    fold fmt. rewrite Hauto'. cbn [negb andb].
    destruct (f_type (fmt_of w2 device)) as [dt|] eqn:Hdt; [|done].
    destruct (f_type fmt) as [ft|] eqn:Hft; [|done].
    cbn [is_None orb]. rewrite Htm. cbn [andb].
    rewrite bool_decide_eq_false_2 by done. cbn [negb].
    unfold bind at 1, bind at 1, in_world at 1, do_test_mount, bind at 1.
    cbn [world self].
    rewrite (perform_ok E _ _ Htrial_ok). fold w3.
    unfold bind at 1, get at 1, ret at 1. cbn [world self].
    rewrite Htrial.
    unfold bind at 1, in_world at 1. cbn [world self].
    rewrite (perform_ok E _ _ Hteardown). fold w4.
    unfold raise. by rewrite Hself. }
  split; [exact Hline|]. split.
  { subst w4. unfold after. simpl. by rewrite Nat.eqb_refl. }
  split.
  { subst w4. unfold after, log_event. simpl. by rewrite last_snoc. }
  intros raw rest Hfields Hrest.
  assert (Hraw : parse_fstab_line E raw st = (Raise err, mkState (self st) w4)).
  { unfold parse_fstab_line. unfold fstab_fields, before_comment in Hfields.
    destruct (PyStr.partition "#" raw) as [[line p] c]. cbn [fst snd] in Hfields.
    cbv beta iota zeta. rewrite Hfields.
    replace ((4 <=? length (devspec :: mountpoint :: fstype :: options :: rest))
             && (length (devspec :: mountpoint :: fstype :: options :: rest) <=? 6))
      with true.
    2:{ symmetry. apply andb_true_iff. split; apply Nat.leb_le; simpl; lia. }
    cbn [negb].
    unfold bind at 1, try_except, bind at 1. rewrite Hline.
    reflexivity. }
  split; [exact Hraw|].
  intros chroot st0 text lines_before lines_after Haccess Hfile Hlines Hbefore.
  rewrite (parse_fstab_eq E chroot st0 text Haccess Hfile).
  rewrite Hlines, for_each_app, Hbefore. simpl. unfold bind. by rewrite Hraw.
Qed.

(** The scenario: the fstab declares ext4 for a device detected as xfs and
    the trial mount fails.  The parse ends with the error, the device is
    not active and nothing was preserved. *)
Lemma type_mismatch_propagates_witness :
  let r := parse_fstab Demo.mismatch_env None Demo.xfs_state in
  r.1 = Raise (FSTabTypeMismatchError "/: detected as xfs, fstab says ext4")
  /\ d_status (objs (world r.2) 0) = false
  /\ preserve_lines (self r.2) = [].
Proof.
  pose (st := fstab_opened Demo.mismatch_env None Demo.xfs_state
                Demo.mismatch_line).
  destruct (type_mismatch_propagates Demo.mismatch_env "/dev/sda2" "/" "ext4"
              "defaults" st st 0 "ext4" eq_refl ltac:(done) eq_refl eq_refl
              ltac:(done) ltac:(done) eq_refl ltac:(done) eq_refl eq_refl
              eq_refl)
    as (_ & Hdown & _ & Hparse).
  destruct (Hparse Demo.mismatch_line ["1"; "1"] eq_refl ltac:(simpl; lia))
    as [_ Hwhole].
  specialize (Hwhole None Demo.xfs_state Demo.mismatch_line [] []
                eq_refl eq_refl eq_refl eq_refl).
  cbv zeta. rewrite Hwhole. split; [reflexivity|]. split; [exact Hdown|].
  reflexivity.
Defined.

(** ** Sorting by mountpoint *)

Section SortBy.

Context {A : Type} (key : A -> string).

Let key_le (a b : A) : Prop := String.le (key a) (key b).

Lemma key_le_leb (a b : A) : key_le a b <-> String.leb (key a) (key b) = true.
Proof. unfold key_le, String.le. apply Is_true_true. Qed.

Lemma key_le_trans (a b c : A) : key_le a b -> key_le b c -> key_le a c.
Proof. unfold key_le. intros. by etrans. Qed.

Lemma key_le_total (a b : A) : key_le a b \/ key_le b a.
Proof. unfold key_le. destruct (total String.le (key a) (key b)); auto. Qed.

Lemma insert_by_elem_of (x y : A) (l : list A) :
  y ∈ insert_by key x l <-> y = x \/ y ∈ l.
Proof.
  induction l as [|z l IH]; simpl.
  - rewrite list_elem_of_singleton, elem_of_nil. tauto.
  - destruct (String.leb (key x) (key z)).
    + by rewrite elem_of_cons.
    + rewrite !elem_of_cons, IH. tauto.
Qed.

Lemma insert_by_sorted (x : A) (l : list A) :
  StronglySorted key_le l -> StronglySorted key_le (insert_by key x l).
Proof.
  induction 1 as [|z l Hsorted IH Hall]; simpl.
  - repeat constructor.
  - destruct (String.leb (key x) (key z)) eqn:Hxz.
    + constructor; [by constructor|].
      apply key_le_leb in Hxz. constructor; [done|].
      eapply Forall_impl; [exact Hall|]. intros y Hy.
      by eapply key_le_trans.
    + constructor; [done|].
      apply Forall_forall. intros y Hy%insert_by_elem_of.
      destruct Hy as [->|Hy].
      * destruct (key_le_total z x) as [H|H]; [done|].
        apply key_le_leb in H. congruence.
      * by eapply Forall_forall in Hall.
Qed.

(** The result of the sort is in ascending order of the key. *)
Lemma sort_by_sorted (l : list A) : StronglySorted key_le (sort_by key l).
Proof.
  induction l as [|x l IH]; simpl; [constructor|]. by apply insert_by_sorted.
Qed.

Lemma insert_by_perm (x : A) (l : list A) : insert_by key x l ≡ₚ x :: l.
Proof.
  induction l as [|z l IH]; simpl; [done|].
  destruct (String.leb (key x) (key z)); [done|].
  by rewrite IH, Permutation_swap.
Qed.

(** It holds the elements it was given. *)
Lemma sort_by_perm (l : list A) : sort_by key l ≡ₚ l.
Proof.
  induction l as [|x l IH]; simpl; [done|]. by rewrite insert_by_perm, IH.
Qed.

(** Two elements of different keys can be inserted in either order. *)
Lemma insert_by_comm (x y : A) (l : list A) :
  key x <> key y ->
  insert_by key x (insert_by key y l) = insert_by key y (insert_by key x l).
Proof.
  intros Hne.
  assert (Hanti : forall a b, String.leb (key a) (key b) = true ->
                              String.leb (key b) (key a) = true ->
                              key a = key b).
  { intros a b. apply String.leb_antisym. }
  assert (Htr : forall a b c, String.leb (key a) (key b) = true ->
                              String.leb (key b) (key c) = true ->
                              String.leb (key a) (key c) = true).
  { intros a b c ?%key_le_leb ?%key_le_leb. apply key_le_leb.
    by eapply key_le_trans. }
  assert (Htot : forall a b, String.leb (key a) (key b) = false ->
                             String.leb (key b) (key a) = true).
  { intros a b H. destruct (key_le_total a b) as [H'|H'];
      apply key_le_leb in H'; congruence. }
  induction l as [|z l IH]; simpl.
  - destruct (String.leb (key x) (key y)) eqn:Hxy,
             (String.leb (key y) (key x)) eqn:Hyx; try done.
    + by destruct Hne; apply Hanti.
    + apply Htot in Hxy. congruence.
  - destruct (String.leb (key y) (key z)) eqn:Hyz,
             (String.leb (key x) (key z)) eqn:Hxz; simpl;
      rewrite ?Hyz, ?Hxz;
      destruct (String.leb (key x) (key y)) eqn:Hxy,
               (String.leb (key y) (key x)) eqn:Hyx; try done;
      try (by destruct Hne; apply Hanti);
      try (apply Htot in Hxy; congruence);
      try (by rewrite IH).
    + rewrite (Htr x y z) in Hxz; done.
    + rewrite (Htr y x z) in Hyz; done.
Qed.

End SortBy.

Lemma sublist_elem {A} (l k : list A) (x : A) :
  l `sublist_of` k -> x ∈ l -> x ∈ k.
Proof.
  induction 1 as [|y l k Hsub IH|y l k Hsub IH]; intros Hx; [done| |].
  - apply elem_of_cons in Hx as [->|Hx]; apply elem_of_cons; auto.
  - apply elem_of_cons; auto.
Qed.

Lemma StronglySorted_sublist {A} (R : relation A) (l k : list A) :
  l `sublist_of` k -> StronglySorted R k -> StronglySorted R l.
Proof.
  induction 1 as [|x l k Hsub IH|x l k Hsub IH]; intros Hk.
  - constructor.
  - apply StronglySorted_inv in Hk as [Hk Hall]. constructor; [by apply IH|].
    apply Forall_forall. intros y Hy.
    eapply Forall_forall in Hall; [done|]. by eapply sublist_elem.
  - apply StronglySorted_inv in Hk as [Hk _]. by apply IH.
Qed.

Lemma StronglySorted_rev {A} (R : relation A) (l : list A) :
  StronglySorted R l -> StronglySorted (flip R) (rev l).
Proof.
  induction 1 as [|x l Hsorted IH Hall]; simpl; [constructor|].
  apply StronglySorted_app. split; [|split]; [|done|repeat constructor].
  intros a b Ha Hb. apply list_elem_of_singleton in Hb as ->.
  apply list_elem_of_In, in_rev, list_elem_of_In in Ha.
  unfold flip. by eapply Forall_forall in Hall.
Qed.

(** ** Operations performed by the mount and unmount loops *)

(** The structural steps of a proof of [post c R], for a preorder [R]. *)
Ltac post_struct :=
  first
    [ apply post_ret; apply _ | apply post_raise; apply _
    | apply post_get; apply _ | apply post_lift; apply _
    | apply post_out_of_fuel; apply _
    | apply post_bind; [apply _| |intros ?]
    | apply post_try_except; [apply _| |intros ?]
    | apply post_for_each; [apply _|intros ?]
    | apply post_map_m; [apply _|intros ?] ].

Ltac post_with leaf :=
  repeat first [leaf | post_struct | case_match | progress (cbv zeta)].

Lemma get_containing_device_pure (E : Env) (path : string) (w : World) :
  (get_containing_device E path w).2 = w.
Proof.
  unfold get_containing_device, bind, get, try_except, lift, ret.
  repeat case_match; simplify_eq/=; done.
Qed.

Lemma perform_trace (E : Env) (ev : Event) (w : World) :
  trace (perform E ev w).2 = trace w ++ [ev].
Proof.
  unfold perform. destruct (op_raises E w ev); simpl; [done|].
  by destruct ev.
Qed.

Section Emits.

Context (sel : Event -> option dev_id).

Lemma emits_w_refl (w : World) : emits_w sel [] w w.
Proof. exists []. by rewrite app_nil_r. Qed.

Lemma emits_w_app (l1 l2 : list dev_id) (w1 w2 w3 : World) :
  emits_w sel l1 w1 w2 -> emits_w sel l2 w2 w3 -> emits_w sel (l1 ++ l2) w1 w3.
Proof.
  intros (e1 & H1 & <-) (e2 & H2 & <-). exists (e1 ++ e2).
  split; [by rewrite H2, H1, app_assoc|]. by rewrite omap_app.
Qed.

Global Instance emits_w_preorder : PreOrder (emits_w sel []).
Proof.
  split; [intros w; apply emits_w_refl|].
  intros w1 w2 w3 H1 H2. by apply (emits_w_app [] [] w1 w2 w3).
Qed.

Global Instance emits_preorder : PreOrder (emits sel []).
Proof.
  split; [intros st; apply emits_w_refl|].
  intros s1 s2 s3 H1 H2. unfold emits in *. by etrans.
Qed.

Lemma perform_emits (E : Env) (ev : Event) :
  post (perform E ev) (emits_w sel (option_list (sel ev))).
Proof.
  intros w. exists [ev]. split; [apply perform_trace|].
  simpl. by destruct (sel ev).
Qed.

Lemma perform_silent (E : Env) (ev : Event) :
  sel ev = None -> post (perform E ev) (emits_w sel []).
Proof. intros H. pose proof (perform_emits E ev) as Hp. by rewrite H in Hp. Qed.

Lemma get_containing_device_silent (E : Env) (path : string) :
  post (get_containing_device E path) (emits_w sel []).
Proof. intros w. rewrite get_containing_device_pure. apply emits_w_refl. Qed.

Lemma modify_silent (f : World -> World) :
  (forall w, trace (f w) = trace w) -> post (modify f) (emits_w sel []).
Proof. intros H w. exists []. simpl. by rewrite H, app_nil_r. Qed.

Lemma new_device_silent (cls : DeviceClass) (name : string) (fmt : Format)
    (parents : list dev_id) (exists_ : bool) (size : Z) :
  post (new_device cls name fmt parents exists_ size) (emits_w sel []).
Proof. intros w. exists []. simpl. by rewrite app_nil_r. Qed.

Lemma in_world_emits {A} (c : M World A) (l : list dev_id) :
  post c (emits_w sel l) -> post (in_world c) (emits sel l).
Proof.
  intros Hc st. unfold in_world, emits. specialize (Hc (world st)).
  by destruct (c (world st)).
Qed.

Lemma modify_self_silent (f : FSSet -> FSSet) :
  post (modify_self f) (emits sel []).
Proof. intros st. apply emits_w_refl. Qed.

Lemma virtual_device_silent (E : Env) (v : VirtualFS) :
  post (virtual_device E v) (emits sel []).
Proof.
  unfold virtual_device.
  post_with ltac:(first [ apply modify_self_silent
                        | apply in_world_emits ]).
  unfold virtual_new, NoDevice_new. destruct v; apply new_device_silent.
Qed.

Lemma reparent_silent (E : Env) (root_path : string) (device : dev_id) :
  sel (EvRemoveDevice device) = None ->
  post (reparent E root_path device) (emits sel []).
Proof.
  intros Hsel. unfold reparent.
  post_with ltac:(first
    [ apply in_world_emits;
      first [ apply get_containing_device_silent
            | apply modify_silent; intros; reflexivity
            | by apply perform_silent ] ]).
Qed.

(** [guarded] ends in the state in which the guarded computation ends. *)
Lemma guarded_state {A} (E : Env) (c : M State unit) (ok skipped : A)
    (st : State) :
  (guarded E c ok skipped st).2 = (c st).2.
Proof.
  unfold guarded, try_except, bind, get, ret, raise.
  destruct (c st) as [[[]|e|] st']; simpl; [done| |done].
  by destruct (error_handler_raise E (world st') e).
Qed.

Lemma guarded_emits {A} (E : Env) (c : M State unit) (ok skipped : A)
    (l : list dev_id) :
  post c (emits sel l) -> post (guarded E c ok skipped) (emits sel l).
Proof. intros Hc st. rewrite guarded_state. apply Hc. Qed.

Lemma emits_within_nil (ds : list dev_id) (st st' : State) :
  emits sel [] st st' -> emits_within sel ds st st'.
Proof. intros H. exists []. split; [apply sublist_nil_l|done]. Qed.

(** A step without selected operations before a computation. *)
Lemma post_bind_silent {A B} (c : M State A) (k : A -> M State B)
    (ds : list dev_id) :
  post c (emits sel []) ->
  (forall a, post (k a) (emits_within sel ds)) ->
  post (bind c k) (emits_within sel ds).
Proof.
  intros Hc Hk st. unfold bind. specialize (Hc st).
  destruct (c st) as [[a|e|] st1]; simpl in *;
    [|by apply emits_within_nil..].
  destruct (Hk a st1) as (l & Hsub & Hl). exists l. split; [done|].
  by apply (emits_w_app [] l _ _ _ Hc).
Qed.

(** A loop whose body acts on its own device only, at most once. *)
Lemma for_each_emits_within (body : dev_id -> M State unit)
    (ds : list dev_id) :
  (forall d, post (body d) (emits_within sel [d])) ->
  post (for_each ds body) (emits_within sel ds).
Proof.
  intros Hbody. induction ds as [|d ds IH]; intros st; simpl.
  - apply emits_within_nil, emits_w_refl.
  - unfold bind. destruct (Hbody d st) as (l1 & Hsub1 & Hl1).
    destruct (body d st) as [[[]|e|] st1]; simpl in *.
    + destruct (IH st1) as (l2 & Hsub2 & Hl2). exists (l1 ++ l2). split.
      * by apply (sublist_app l1 [d] l2 ds).
      * by apply (emits_w_app l1 l2 _ _ _ Hl1).
    + exists l1. split; [|done]. by apply (sublist_inserts_r ds l1 [d]).
    + exists l1. split; [|done]. by apply (sublist_inserts_r ds l1 [d]).
Qed.

End Emits.

Lemma post_within_of_silent {A} (sel : Event -> option dev_id)
    (c : M State A) (ds : list dev_id) :
  post c (emits sel []) -> post c (emits_within sel ds).
Proof. intros Hc st. apply emits_within_nil, Hc. Qed.

(** Proves [post c (emits sel [])] for the steps of the two loops. *)
Ltac silent :=
  post_with ltac:(first
    [ apply virtual_device_silent
    | apply reparent_silent; reflexivity
    | apply modify_self_silent
    | apply guarded_emits
    | apply in_world_emits;
      first [ apply get_containing_device_silent
            | apply modify_silent; intros; reflexivity
            | apply perform_silent; reflexivity ] ]).

Lemma mount_device_emits (E : Env) (root_path : string)
    (read_only : option string) (skip_root : bool) (device : dev_id) :
  post (mount_device E root_path read_only skip_root device)
    (emits_within mount_event [device]).
Proof.
  unfold mount_device.
  repeat first
    [ apply post_bind_silent; [solve [silent]|intros ?]
    | case_match
    | progress (cbv zeta)
    | apply post_within_of_silent; solve [silent] ].
  all: intros st; exists [device]; (split; [done|]).
  all: apply guarded_emits, in_world_emits.
  all: apply (perform_emits mount_event E (EvFormatSetup device (Some _))).
Qed.

Lemma umount_device_emits (E : Env) (swapoff : bool) (device : dev_id) :
  post (umount_device E swapoff device) (emits_within umount_event [device]).
Proof.
  unfold umount_device.
  repeat first
    [ apply post_bind_silent; [solve [silent]|intros ?]
    | case_match
    | progress (cbv zeta)
    | apply post_within_of_silent; solve [silent] ].
  intros st. exists [device]. split; [done|].
  apply in_world_emits.
  apply (perform_emits umount_event E (EvFormatTeardown device)).
Qed.

Lemma gather_devices_silent (sel : Event -> option dev_id) (E : Env)
    (extras : list VirtualFS) :
  post (gather_devices E extras) (emits sel []).
Proof. unfold gather_devices. silent. Qed.

(** ** The formats during the mount loop *)

Global Instance formats_stable_preorder : PreOrder formats_stable.
Proof.
  split.
  - intros st Hc. split; [done|reflexivity].
  - intros s1 s2 s3 H12 H23 Hc. destruct (H12 Hc) as [Hc2 Hk12].
    destruct (H23 Hc2) as [Hc3 Hk23]. split; [done|by etrans].
Qed.

Global Instance virtual_grows_preorder : PreOrder virtual_grows.
Proof.
  split; [by intros st v i|].
  intros s1 s2 s3 H12 H23 v i Hv. by apply H23, H12.
Qed.

Lemma in_world_stable {A} (c : M World A) :
  post c formats_kept -> post (in_world c) formats_stable.
Proof.
  intros Hc st Hcached. unfold in_world. specialize (Hc (world st)).
  by destruct (c (world st)).
Qed.

Lemma get_containing_device_formats_kept (E : Env) (path : string) :
  post (get_containing_device E path) formats_kept.
Proof. intros w. by rewrite get_containing_device_pure. Qed.

Lemma set_parents_formats_kept (d : dev_id) (ps : list dev_id) :
  post (modify (update_obj d (set_parents ps))) formats_kept.
Proof. intros w i. simpl. by destruct (Nat.eqb i d). Qed.

(** A lazy property that was evaluated before returns what it holds. *)
Lemma virtual_device_cached (E : Env) (v : VirtualFS) (st : State) (i : dev_id) :
  virtual (self st) v = Some i -> virtual_device E v st = (Return i, st).
Proof. intros H. unfold virtual_device, bind, get. by rewrite H. Qed.

Lemma virtual_device_stable (E : Env) (v : VirtualFS) :
  v = _dev \/ v = _run -> post (virtual_device E v) formats_stable.
Proof.
  intros Hv st [[d Hd] [r Hr]].
  assert (exists i, virtual (self st) v = Some i) as [i Hi]
    by (destruct Hv as [->| ->]; eauto).
  rewrite (virtual_device_cached E v st i Hi). simpl.
  split; [split; eauto|reflexivity].
Qed.

Lemma mount_device_stable (E : Env) (root_path : string)
    (read_only : option string) (skip_root : bool) (device : dev_id) :
  post (mount_device E root_path read_only skip_root device) formats_stable.
Proof.
  unfold mount_device, guarded, reparent.
  post_with ltac:(first
    [ apply virtual_device_stable; auto
    | apply in_world_stable;
      first [ apply get_containing_device_formats_kept
            | apply set_parents_formats_kept
            | apply perform_formats_kept ] ]).
Qed.

Lemma VirtualFS_eqb_eq (u v : VirtualFS) : VirtualFS_eqb u v = true <-> u = v.
Proof. destruct u, v; simpl; split; (done || congruence). Qed.

(** After its evaluation a lazy property is set, and the others are as
    they were. *)
Lemma virtual_device_sets (E : Env) (v : VirtualFS) (st : State) :
  let r := virtual_device E v st in
  (exists i, r.1 = Return i /\ virtual (self r.2) v = Some i)
  /\ virtual_grows st r.2.
Proof.
  unfold virtual_device, bind, get, in_world, modify_self, modify, ret.
  destruct (virtual (self st) v) as [i|] eqn:Hv; simpl.
  - split; [by exists i|]. by intros u j.
  - assert (exists i w', virtual_new E v (world st) = (Return i, w'))
      as (i & w' & Hnew).
    { unfold virtual_new, NoDevice_new, new_device. destruct v; eauto. }
    rewrite Hnew. simpl. split.
    + exists i. split; [done|].
      by rewrite (proj2 (VirtualFS_eqb_eq v v)).
    + intros u j Hu. simpl.
      destruct (VirtualFS_eqb u v) eqn:Huv; [|done].
      apply VirtualFS_eqb_eq in Huv as ->. congruence.
Qed.

Lemma virtual_device_grows (E : Env) (v : VirtualFS) :
  post (virtual_device E v) virtual_grows.
Proof. intros st. apply (virtual_device_sets E v st). Qed.

Lemma map_m_virtual_sets (E : Env) (l : list VirtualFS) (st : State) :
  let r := map_m (virtual_device E) l st in
  (exists ids, r.1 = Return ids)
  /\ virtual_grows st r.2
  /\ forall v, v ∈ l -> is_Some (virtual (self r.2) v).
Proof.
  revert st. induction l as [|v l IH]; intros st; simpl.
  - split; [by eexists|]. split; [done|]. intros v Hv. by apply elem_of_nil in Hv.
  - unfold bind.
    destruct (virtual_device_sets E v st) as [(i & Hi & Hset) Hgrow].
    destruct (virtual_device E v st) as [o st1]. simpl in *. subst o.
    destruct (IH st1) as ((ids & Hids) & Hgrow' & Hall).
    destruct (map_m (virtual_device E) l st1) as [o st2]. simpl in *. subst o.
    simpl. split; [by eexists|]. split; [by etrans|].
    intros u Hu. apply elem_of_cons in Hu as [->|Hu]; [|by apply Hall].
    exists i. by apply Hgrow'.
Qed.

(** When the devices of a loop are gathered, [self.dev] and [self.run]
    have been evaluated. *)
Lemma gather_devices_cached (E : Env) (extras : list VirtualFS)
    (st st1 : State) (l : list dev_id) :
  _dev ∈ extras -> _run ∈ extras ->
  gather_devices E extras st = (Return l, st1) -> binds_cached st1.
Proof.
  intros Hdev Hrun.
  unfold gather_devices. unfold bind at 1, get at 1.
  unfold bind at 1, lift at 1.
  destruct (mountpoints (world st)) as [fs|e|]; [|done..].
  unfold bind at 1.
  destruct (map_m_virtual_sets E extras st) as (_ & _ & Hall).
  destruct (map_m (virtual_device E) extras st) as [[ids|e|] st0];
    [|done..].
  simpl in Hall.
  assert (Hgrow : post
            (efi <- (if platform_is_efi E
                     then v <- virtual_device E _efivars ;; ret [v]
                     else ret []) ;;
             ret (map snd fs ++ swap_devices (world st) ++ ids ++ efi))%py
            virtual_grows).
  { post_with ltac:(apply virtual_device_grows). }
  intros H. specialize (Hgrow st0).
  unfold bind at 1 in H. unfold bind at 1 in Hgrow.
  destruct ((if platform_is_efi E
             then v <- virtual_device E _efivars ;; ret [v]
             else ret [])%py st0) as [[efi|e|] st2]; [|done..].
  unfold ret in H, Hgrow. simpl in Hgrow. simplify_eq.
  split.
  - destruct (Hall _dev Hdev) as [i Hi]. exists i. by apply Hgrow.
  - destruct (Hall _run Hrun) as [i Hi]. exists i. by apply Hgrow.
Qed.

Lemma umount_device_stable (E : Env) (swapoff : bool) (device : dev_id) :
  post (umount_device E swapoff device) formats_stable.
Proof.
  unfold umount_device.
  post_with ltac:(apply in_world_stable; apply perform_formats_kept).
Qed.

Lemma mountpoint_str_kept (w w' : World) (d : dev_id) :
  formats_kept w w' -> mountpoint_str w' d = mountpoint_str w d.
Proof.
  intros H. unfold mountpoint_str, mountpoint_key, fmt_of. by rewrite H.
Qed.

Lemma sort_by_opt_sorted (w : World) (l plan : list dev_id) :
  sort_by_opt (mountpoint_key w) l = Return plan ->
  StronglySorted (mp_le w) plan /\ plan ≡ₚ l.
Proof.
  unfold sort_by_opt. case_match; [done|]. intros [= <-].
  split; [apply (sort_by_sorted (mountpoint_str w))|apply sort_by_perm].
Qed.

Lemma StronglySorted_mp_le_kept (w w' : World) (l : list dev_id) :
  formats_kept w w' ->
  StronglySorted (mp_le w) l -> StronglySorted (mp_le w') l.
Proof.
  intros Hk. induction 1 as [|x l Hs IH Hall]; constructor; [done|].
  eapply Forall_impl; [exact Hall|]. intros y Hy. unfold mp_le in *.
  by rewrite !(mountpoint_str_kept w w').
Qed.

(** The mounts of [mount_filesystems]: a sublist of the sorted list, hence
    in ascending order of mountpoint. *)
Lemma mount_filesystems_sorted (E : Env) (root_path : string)
    (read_only : option string) (skip_root : bool) (st : State) :
  let r := mount_filesystems E root_path read_only skip_root st in
  exists evs,
    trace (world r.2) = trace (world st) ++ evs
    /\ StronglySorted (mp_le (world r.2)) (mounted_of evs)
    /\ forall plan st1,
         installer_mode E = true ->
         mount_order E st = (Return plan, st1) ->
         mounted_of evs `sublist_of` plan.
Proof.
  unfold mount_filesystems, mount_order.
  destruct (installer_mode E) eqn:Hmode; cbn [negb].
  2:{ exists []. simpl. rewrite app_nil_r. split; [done|].
      split; [constructor|done]. }
  pose proof (gather_devices_silent mount_event E mount_extras st) as Hg.
  destruct (gather_devices E mount_extras st) as [[l|e|] st1] eqn:Hgather;
    simpl in Hg; destruct Hg as (evs0 & Htr0 & Hm0).
  2:{ rewrite !(bind_raise _ _ _ _ _ Hgather). exists evs0. simpl.
      split; [done|]. unfold mounted_of. rewrite Hm0.
      split; [constructor|done]. }
  2:{ rewrite !(bind_out_of_fuel _ _ _ _ Hgather). exists evs0. simpl.
      split; [done|]. unfold mounted_of. rewrite Hm0.
      split; [constructor|done]. }
  rewrite !(bind_return _ _ _ _ _ Hgather).
  apply gather_devices_cached in Hgather as Hcached;
    [|unfold mount_extras; set_solver..].
  destruct (sort_by_opt (mountpoint_key (world st1)) l) as [plan|e|] eqn:Hsort.
  2:{ assert (Hs : sort_by_mountpoint l st1 = (Raise e, st1))
        by (unfold sort_by_mountpoint, bind, get, lift; by rewrite Hsort).
      rewrite !(bind_raise _ _ _ _ _ Hs), Hs. exists evs0. simpl.
      split; [done|]. unfold mounted_of. rewrite Hm0.
      split; [constructor|done]. }
  2:{ assert (Hs : sort_by_mountpoint l st1 = (OutOfFuel, st1))
        by (unfold sort_by_mountpoint, bind, get, lift; by rewrite Hsort).
      rewrite !(bind_out_of_fuel _ _ _ _ Hs), Hs. exists evs0. simpl.
      split; [done|]. unfold mounted_of. rewrite Hm0.
      split; [constructor|done]. }
  assert (Hs : sort_by_mountpoint l st1 = (Return plan, st1))
    by (unfold sort_by_mountpoint, bind, get, lift; by rewrite Hsort).
  rewrite !(bind_return _ _ _ _ _ Hs), Hs.
  apply sort_by_opt_sorted in Hsort as [Hsorted _].
  pose proof (for_each_emits_within mount_event
                (mount_device E root_path read_only skip_root) plan
                (mount_device_emits E root_path read_only skip_root) st1)
    as (lm & Hsub & evs1 & Htr1 & Hm1).
  pose proof (post_for_each formats_stable plan
                (mount_device E root_path read_only skip_root)
                (mount_device_stable E root_path read_only skip_root) st1
                Hcached) as [_ Hkept].
  unfold bind.
  destruct (for_each plan (mount_device E root_path read_only skip_root) st1)
    as [o st2].
  simpl in Htr1, Hkept.
  exists (evs0 ++ evs1).
  assert (Hmounted : mounted_of (evs0 ++ evs1) = lm).
  { unfold mounted_of. by rewrite omap_app, Hm0, Hm1. }
  assert (Hworld : world ((match o with
                           | Return _ => modify_self (set_active true) st2
                           | Raise e => (Raise e, st2)
                           | OutOfFuel => (OutOfFuel, st2)
                           end).2) = world st2)
    by (by destruct o).
  rewrite Hworld, Hmounted.
  split; [by rewrite Htr1, Htr0, app_assoc|]. split.
  - apply (StronglySorted_mp_le_kept (world st1)); [done|].
    by eapply StronglySorted_sublist.
  - intros plan' st1' _ [= <- _]. done.
Qed.

(** The unmounts of [umount_filesystems]: a sublist of the reversed sorted
    list, hence in descending order of mountpoint. *)
Lemma umount_filesystems_sorted (E : Env) (swapoff : bool) (st : State) :
  let r := umount_filesystems E swapoff st in
  exists evs,
    trace (world r.2) = trace (world st) ++ evs
    /\ StronglySorted (flip (mp_le (world r.2))) (unmounted_of evs)
    /\ forall plan st1,
         umount_order E st = (Return plan, st1) ->
         unmounted_of evs `sublist_of` plan.
Proof.
  unfold umount_filesystems, umount_order.
  pose proof (gather_devices_silent umount_event E umount_extras st) as Hg.
  destruct (gather_devices E umount_extras st) as [[l|e|] st1] eqn:Hgather;
    simpl in Hg; destruct Hg as (evs0 & Htr0 & Hm0).
  2:{ rewrite !(bind_raise _ _ _ _ _ Hgather). exists evs0. simpl.
      split; [done|]. unfold unmounted_of. rewrite Hm0.
      split; [constructor|done]. }
  2:{ rewrite !(bind_out_of_fuel _ _ _ _ Hgather). exists evs0. simpl.
      split; [done|]. unfold unmounted_of. rewrite Hm0.
      split; [constructor|done]. }
  rewrite !(bind_return _ _ _ _ _ Hgather).
  apply gather_devices_cached in Hgather as Hcached;
    [|unfold umount_extras; set_solver..].
  destruct (sort_by_opt (mountpoint_key (world st1)) l) as [plan|e|] eqn:Hsort.
  2:{ assert (Hs : sort_by_mountpoint l st1 = (Raise e, st1))
        by (unfold sort_by_mountpoint, bind, get, lift; by rewrite Hsort).
      rewrite !(bind_raise _ _ _ _ _ Hs). exists evs0. simpl.
      split; [done|]. unfold unmounted_of. rewrite Hm0.
      split; [constructor|done]. }
  2:{ assert (Hs : sort_by_mountpoint l st1 = (OutOfFuel, st1))
        by (unfold sort_by_mountpoint, bind, get, lift; by rewrite Hsort).
      rewrite !(bind_out_of_fuel _ _ _ _ Hs). exists evs0. simpl.
      split; [done|]. unfold unmounted_of. rewrite Hm0.
      split; [constructor|done]. }
  assert (Hs : sort_by_mountpoint l st1 = (Return plan, st1))
    by (unfold sort_by_mountpoint, bind, get, lift; by rewrite Hsort).
  rewrite !(bind_return _ _ _ _ _ Hs).
  apply sort_by_opt_sorted in Hsort as [Hsorted _].
  pose proof (for_each_emits_within umount_event (umount_device E swapoff)
                (rev plan) (umount_device_emits E swapoff) st1)
    as (lm & Hsub & evs1 & Htr1 & Hm1).
  pose proof (post_for_each formats_stable (rev plan) (umount_device E swapoff)
                (umount_device_stable E swapoff) st1 Hcached) as [_ Hkept].
  cbv zeta. unfold bind.
  destruct (for_each (rev plan) (umount_device E swapoff) st1) as [o st2].
  simpl in Htr1, Hkept.
  exists (evs0 ++ evs1).
  assert (Hunmounted : unmounted_of (evs0 ++ evs1) = lm).
  { unfold unmounted_of. by rewrite omap_app, Hm0, Hm1. }
  assert (Hworld : world ((match o with
                           | Return _ => modify_self (set_active false) st2
                           | Raise e => (Raise e, st2)
                           | OutOfFuel => (OutOfFuel, st2)
                           end).2) = world st2)
    by (by destruct o).
  rewrite Hworld, Hunmounted.
  split; [by rewrite Htr1, Htr0, app_assoc|]. split.
  - eapply StronglySorted_sublist; [exact Hsub|].
    apply StronglySorted_rev.
    by apply (StronglySorted_mp_le_kept (world st1)).
  - intros plan' st1' [= <- _]. done.
Qed.

(** ** The unmount order is the mount order reversed *)

Lemma map_m_virtual_cached (E : Env) (l : list VirtualFS) (st : State) :
  (forall v, v ∈ l -> is_Some (virtual (self st) v)) ->
  map_m (virtual_device E) l st = (Return (map (virtual_id st) l), st).
Proof.
  intros Hall. induction l as [|v l IH]; simpl; [done|].
  destruct (Hall v) as [i Hi]; [apply elem_of_cons; by left|].
  rewrite (bind_return _ _ _ _ _ (virtual_device_cached E v st i Hi)).
  rewrite (bind_return _ _ _ _ _
             (IH (fun u Hu => Hall u (proj2 (elem_of_cons l u v) (or_intror Hu))))).
  unfold ret, virtual_id. by rewrite Hi.
Qed.

(** With the lazy properties it reads evaluated, gathering changes
    nothing. *)
Lemma gather_devices_cached_eq (E : Env) (extras : list VirtualFS)
    (st : State) :
  (forall v, v ∈ extras -> is_Some (virtual (self st) v)) ->
  (platform_is_efi E = true -> is_Some (virtual (self st) _efivars)) ->
  gather_devices E extras st =
  (match mountpoints (world st) with
   | Return filesystems =>
       Return ((map snd filesystems ++ swap_devices (world st))
               ++ map (virtual_id st) extras
               ++ (if platform_is_efi E then [virtual_id st _efivars] else []))
   | Raise e => Raise e
   | OutOfFuel => OutOfFuel
   end, st).
Proof.
  intros Hall Hefi. unfold gather_devices. unfold bind at 1, get at 1.
  unfold bind at 1, lift at 1.
  destruct (mountpoints (world st)) as [fs|e|]; [|done..].
  rewrite (bind_return _ _ _ _ _ (map_m_virtual_cached E extras st Hall)).
  destruct (platform_is_efi E).
  - destruct (Hefi eq_refl) as [i Hi].
    unfold bind at 1.
    rewrite (bind_return _ _ _ _ _ (virtual_device_cached E _efivars st i Hi)).
    unfold ret, virtual_id. by rewrite Hi.
  - reflexivity.
Qed.

Lemma existsb_perm {A} (f : A -> bool) (l l' : list A) :
  l ≡ₚ l' -> existsb f l = existsb f l'.
Proof.
  induction 1 as [|x l l' _ IH|x y l|l1 l2 l3 _ IH1 _ IH2]; simpl.
  - done.
  - by rewrite IH.
  - by destruct (f x), (f y).
  - congruence.
Qed.

Lemma sort_by_app_cong {A} (key : A -> string) (l x y : list A) :
  sort_by key x = sort_by key y -> sort_by key (l ++ x) = sort_by key (l ++ y).
Proof.
  intros H. unfold sort_by in *. by rewrite !foldr_app, H.
Qed.

(** The two lists that are sorted differ by the order of [self.usb] and
    [self.selinux]; when their mountpoints differ the sort gives the same
    list. *)
Lemma sort_extras_eq (w : World) (st : State) (l efi : list dev_id) :
  mountpoint_str w (virtual_id st _selinux)
    <> mountpoint_str w (virtual_id st _usb) ->
  sort_by_opt (mountpoint_key w) (l ++ map (virtual_id st) umount_extras ++ efi)
  = sort_by_opt (mountpoint_key w) (l ++ map (virtual_id st) mount_extras ++ efi).
Proof.
  intros Hne. unfold sort_by_opt.
  assert (Hperm : l ++ map (virtual_id st) umount_extras ++ efi
                  ≡ₚ l ++ map (virtual_id st) mount_extras ++ efi).
  { apply Permutation_app_head. simpl. do 5 apply perm_skip. apply perm_swap. }
  rewrite (existsb_perm _ _ _ Hperm), (Permutation_length Hperm).
  case_match; [done|]. f_equal.
  apply sort_by_app_cong. simpl. do 5 f_equal.
  symmetry. by apply (insert_by_comm (mountpoint_str w)).
Qed.

Lemma umount_order_reverse (E : Env) (st : State) (plan : list dev_id) :
  (forall v, v ∈ mount_extras -> is_Some (virtual (self st) v)) ->
  (platform_is_efi E = true -> is_Some (virtual (self st) _efivars)) ->
  mountpoint_str (world st) (virtual_id st _selinux)
    <> mountpoint_str (world st) (virtual_id st _usb) ->
  (mount_order E st).1 = Return plan ->
  mount_order E st = (Return plan, st)
  /\ umount_order E st = (Return (rev plan), st).
Proof.
  intros Hall Hefi Hne. unfold mount_order, umount_order.
  pose proof (gather_devices_cached_eq E mount_extras st Hall Hefi) as Hm.
  assert (Hall' : forall v, v ∈ umount_extras -> is_Some (virtual (self st) v)).
  { intros v Hv. apply Hall. unfold mount_extras, umount_extras in *.
    repeat (apply elem_of_cons in Hv as [->|Hv]; [set_solver|]).
    by apply elem_of_nil in Hv. }
  pose proof (gather_devices_cached_eq E umount_extras st Hall' Hefi) as Hu.
  destruct (mountpoints (world st)) as [fs|e|].
  2:{ rewrite (bind_raise _ _ _ _ _ Hm). done. }
  2:{ rewrite (bind_out_of_fuel _ _ _ _ Hm). done. }
  rewrite (bind_return _ _ _ _ _ Hm), (bind_return _ _ _ _ _ Hu).
  unfold sort_by_mountpoint, bind, get, lift, ret.
  rewrite (sort_extras_eq (world st) st _ _ Hne).
  destruct (sort_by_opt _ _) as [p|e|]; simpl; [|done..].
  by intros [= ->].
Qed.

(** ** The loops end *)

Ltac finishes_struct :=
  first
    [ apply finishes_ret | apply finishes_raise | apply finishes_get
    | apply finishes_modify
    | apply finishes_bind; [|intros ?]
    | apply finishes_try_except; [|intros ?]
    | apply finishes_for_each; intros ?
    | apply finishes_map_m; intros ? ].

Ltac finishes_with leaf :=
  repeat first [leaf | finishes_struct | case_match | progress (cbv zeta)].

Lemma get_containing_device_finishes (E : Env) (path : string) :
  finishes (get_containing_device E path).
Proof.
  intros w. unfold get_containing_device, bind, get, try_except, lift, ret,
    os_readlink, blockdev_dm_name_from_node.
  repeat case_match; simplify_eq/=; done.
Qed.

Lemma mountpoints_loop_finishes (w : World) (l : list dev_id)
    (fs : list (string * dev_id)) :
  mountpoints_loop w l fs <> OutOfFuel.
Proof.
  revert fs. induction l as [|d l IH]; intros fs; simpl; [done|].
  unfold format_mountpoint. repeat case_match; simplify_eq; auto.
Qed.

Lemma sort_by_opt_finishes {A} (key : A -> option string) (l : list A) :
  sort_by_opt key l <> OutOfFuel.
Proof. unfold sort_by_opt. by case_match. Qed.

Lemma format_mountpoint_finishes (f : Format) :
  format_mountpoint f <> OutOfFuel.
Proof. unfold format_mountpoint. by case_match. Qed.

Lemma virtual_device_finishes (E : Env) (v : VirtualFS) :
  finishes (virtual_device E v).
Proof.
  intros st. destruct (virtual_device_sets E v st) as [(i & Hi & _) _].
  by rewrite Hi.
Qed.

(** The leaves of the mount and unmount loops. *)
Ltac loop_leaf E :=
  first
    [ apply virtual_device_finishes
    | apply finishes_in_world;
      first [ apply finishes_perform
            | apply get_containing_device_finishes
            | apply finishes_modify ]
    | apply finishes_lift;
      first [ apply mountpoints_loop_finishes
            | apply sort_by_opt_finishes
            | apply format_mountpoint_finishes ] ].

Lemma mount_filesystems_finishes (E : Env) (root_path : string)
    (read_only : option string) (skip_root : bool) :
  finishes (mount_filesystems E root_path read_only skip_root).
Proof.
  unfold mount_filesystems, gather_devices, sort_by_mountpoint, mount_device,
    guarded, reparent, modify_self, mountpoints.
  finishes_with ltac:(loop_leaf E).
Qed.

Lemma umount_filesystems_finishes (E : Env) (swapoff : bool) :
  finishes (umount_filesystems E swapoff).
Proof.
  unfold umount_filesystems, gather_devices, sort_by_mountpoint, umount_device,
    modify_self, mountpoints.
  finishes_with ltac:(loop_leaf E).
Qed.

(** ** Mount and unmount order *)

(** C3. [mount_filesystems] ends, and the devices it mounts, in the order
    of the mounts, are a sublist of the list sorted by mountpoint: their
    mountpoints ascend in the order of strings.  [umount_filesystems] ends,
    and the devices it unmounts are a sublist of that sorted list reversed:
    their mountpoints descend.  Where the lazy properties are evaluated, as
    after a mount, and [self.usb] and [self.selinux] have different
    mountpoints, the list walked by the unmount loop is exactly the list
    walked by the mount loop, reversed.  For the mountpoints [/var/log],
    [/boot], [/var] and [/] the mounts come in the order [/], [/boot],
    [/var], [/var/log] and the unmounts in the reverse of the whole mount
    order. *)
Theorem mount_and_umount_order (E : Env) (root_path : string)
    (read_only : option string) (skip_root swapoff : bool) (st : State) :
  (let r := mount_filesystems E root_path read_only skip_root st in
   r.1 <> OutOfFuel
   /\ exists evs,
        trace (world r.2) = trace (world st) ++ evs
        /\ StronglySorted (mp_le (world r.2)) (mounted_of evs)
        /\ forall plan st1,
             installer_mode E = true ->
             mount_order E st = (Return plan, st1) ->
             mounted_of evs `sublist_of` plan)
  /\ (let r := umount_filesystems E swapoff st in
      r.1 <> OutOfFuel
      /\ exists evs,
           trace (world r.2) = trace (world st) ++ evs
           /\ StronglySorted (flip (mp_le (world r.2))) (unmounted_of evs)
           /\ forall plan st1,
                umount_order E st = (Return plan, st1) ->
                unmounted_of evs `sublist_of` plan)
  /\ (forall plan,
        (forall v, v ∈ mount_extras -> is_Some (virtual (self st) v)) ->
        (platform_is_efi E = true -> is_Some (virtual (self st) _efivars)) ->
        mountpoint_str (world st) (virtual_id st _selinux)
          <> mountpoint_str (world st) (virtual_id st _usb) ->
        (mount_order E st).1 = Return plan ->
        umount_order E st = (Return (rev plan), st))
  /\ (let m := mount_filesystems (Demo.env Demo.quiet) "/mnt/sysimage" None
                 false Demo.four_state in
      let u := umount_filesystems (Demo.env Demo.quiet) true m.2 in
      m.1 = Return tt
      /\ mountpoint_str (world m.2)
           <$> Demo.of_tree (mounted_of (trace (world m.2)))
         = ["/"; "/boot"; "/var"; "/var/log"]
      /\ u.1 = Return tt
      /\ unmounted_of (trace (world u.2)) = rev (mounted_of (trace (world m.2)))
      /\ mountpoint_str (world u.2)
           <$> Demo.of_tree (unmounted_of (trace (world u.2)))
         = ["/var/log"; "/var"; "/boot"; "/"]).
Proof.
  split; [|split; [|split]].
  - split; [apply mount_filesystems_finishes|].
    apply mount_filesystems_sorted.
  - split; [apply umount_filesystems_finishes|].
    apply umount_filesystems_sorted.
  - intros plan Hall Hefi Hne Hplan.
    by destruct (umount_order_reverse E st plan Hall Hefi Hne Hplan).
  - vm_compute. done.
Qed.

(** After the mount of the four filesystems every lazy property that the
    loops read is evaluated, and the unmount loop walks the mount list
    backwards. *)
Lemma mount_and_umount_order_witness :
  let E := Demo.env Demo.quiet in
  let st := (mount_filesystems E "/mnt/sysimage" None false Demo.four_state).2 in
  exists plan,
    (mount_order E st).1 = Return plan
    /\ mountpoint_str (world st) <$> plan
       = ["/"; "/boot"; "/dev"; "/dev/pts"; "/dev/shm"; "/proc";
          "/proc/bus/usb"; "/run"; "/sys"; "/sys/fs/selinux"; "/var";
          "/var/log"]
    /\ umount_order E st = (Return (rev plan), st).
Proof.
  intros E st. exists [3; 1; 4; 6; 5; 8; 10; 11; 7; 9; 2; 0].
  split; [vm_compute; reflexivity|].
  split; [vm_compute; reflexivity|].
  destruct (mount_and_umount_order E "/mnt/sysimage" None false true st)
    as (_ & _ & Hrev & _).
  apply Hrev.
  - intros v Hv. unfold mount_extras in Hv.
    repeat (apply elem_of_cons in Hv as [->|Hv]; [vm_compute; eauto|]).
    destruct (proj1 (elem_of_nil v) Hv).
  - intros Hefi. vm_compute in Hefi. discriminate Hefi.
  - vm_compute. intros Heq. discriminate Heq.
  - vm_compute. reflexivity.
Defined.

(** * Further properties of the code *)

(** ** [FSSet.parse_fstab]: what it saves and what it leaves *)

Lemma readlines_nil (s : string) : PyStr.readlines s = [] -> s = "".
Proof.
  destruct s as [|c s]; [done|]. simpl.
  destruct (Ascii.eqb c PyStr.newline); [done|].
  by destruct (PyStr.readlines s).
Qed.

(** [''.join(f.readlines())] is the text of the file. *)
Lemma join_readlines (s : string) : PyStr.join (PyStr.readlines s) = s.
Proof.
  induction s as [|c s IH]; [done|]. simpl.
  destruct (Ascii.eqb c PyStr.newline).
  - rewrite <- IH at 2. reflexivity.
  - destruct (PyStr.readlines s) as [|l ls] eqn:Hl.
    + apply readlines_nil in Hl as ->. done.
    + rewrite <- IH. reflexivity.
Qed.

Global Instance only_preserves_preorder : PreOrder only_preserves.
Proof.
  split.
  - intros st. exists (preserve_lines (self st)). by destruct (self st).
  - intros s1 s2 s3 [l1 H1] [l2 H2]. exists l2. by rewrite H2, H1.
Qed.

Lemma same_self_only_preserves {A} (c : M State A) :
  post c same_self -> post c only_preserves.
Proof.
  intros H st. specialize (H st). unfold same_self in H.
  exists (preserve_lines (self st)). rewrite H. by destruct (self st).
Qed.

Lemma append_preserve_only_preserves (line : string) :
  post (append_preserve line) only_preserves.
Proof. intros st. by eexists. Qed.

Lemma parse_fstab_line_only_preserves (E : Env) (line : string) :
  post (parse_fstab_line E line) only_preserves.
Proof.
  unfold parse_fstab_line.
  post_with ltac:(first
    [ apply same_self_only_preserves; apply _parse_one_line_same_self
    | apply same_self_only_preserves; apply in_world_same_self
    | apply append_preserve_only_preserves ]).
Qed.

Lemma parse_fstab_lines_only_preserves (E : Env) (lines : list string) :
  post (for_each lines (parse_fstab_line E)) only_preserves.
Proof.
  apply post_for_each; [apply _|]. intros line.
  apply parse_fstab_line_only_preserves.
Qed.

(** X1: when [/etc/fstab] under the root can be read, [parse_fstab] saves its
    text unchanged in [orig_fstab] and sets the two tables, whether the lines
    then parse or the parse aborts; nothing else of the [FSSet] changes but
    the preserved lines. *)
Theorem parse_fstab_saves_text (E : Env) (chroot : option string)
    (st : State) (text : string) :
  let root := fstab_root E chroot (world st) in
  let path := root +:+ "/etc/fstab" in
  access_r E (world st) path = true ->
  read_file E (world st) path = Some text ->
  let fs := self (parse_fstab E chroot st).2 in
  orig_fstab fs = Some text
  /\ blkid_tab fs = blkid_tab_or_None E (world st) root
  /\ crypt_tab fs
     = match CryptTab_parse E (world st) root
               (CryptTab_new (blkid_tab_or_None E (world st) root) root) with
       | (Return _, tab) => Some tab
       | _ => None
       end
  /\ active fs = active (self st)
  /\ virtual fs = virtual (self st)
  /\ _fstab_swaps fs = _fstab_swaps (self st).
Proof.
  intros root path Haccess Hfile fs. subst fs.
  rewrite (parse_fstab_eq E chroot st text Haccess Hfile).
  destruct (parse_fstab_lines_only_preserves E (PyStr.readlines text)
              (fstab_opened E chroot st text)) as [l ->].
  unfold fstab_opened. cbn. rewrite join_readlines.
  repeat split; reflexivity.
Qed.


Lemma parse_fstab_saves_text_witness :
  (exists msg, (parse_fstab Demo.mismatch_env None Demo.xfs_state).1
               = Raise (FSTabTypeMismatchError msg))
  /\ orig_fstab (self (parse_fstab Demo.mismatch_env None Demo.xfs_state).2)
     = Some Demo.mismatch_line.
Proof.
  split; [eexists; vm_compute; reflexivity|].
  refine (proj1 (parse_fstab_saves_text Demo.mismatch_env None Demo.xfs_state
                   Demo.mismatch_line _ _)); vm_compute; reflexivity.
Defined.


Lemma partition_head (c : ascii) (s : string) :
  count_char c (PyStr.partition c s).1.1 = 0
  /\ ((PyStr.partition c s).1.2 = "" -> (PyStr.partition c s).1.1 = s).
Proof.
  induction s as [|a s [IH1 IH2]]; [done|]. simpl.
  destruct (Ascii.eqb a c) eqn:Ha; [done|].
  destruct (PyStr.partition c s) as [[h m] t]. simpl in *.
  destruct m as [|b m]; simpl.
  - rewrite Ha. split; [|done]. rewrite <- (IH2 eq_refl). by rewrite IH1.
  - rewrite Ha. split; [by rewrite IH1|done].
Qed.

Lemma before_comment_clean (line : string) :
  count_char "#" (before_comment line) = 0.
Proof. apply partition_head. Qed.

Global Instance preserves_entries_preorder : PreOrder preserves_entries.
Proof.
  split.
  - intros st. exists []. by rewrite app_nil_r.
  - intros s1 s2 s3 (k1 & H1 & F1) (k2 & H2 & F2). exists (k1 ++ k2).
    rewrite H2, H1, app_assoc. split; [done|]. by apply Forall_app.
Qed.

Lemma parse_fstab_line_preserves_entries (E : Env) (raw : string) :
  post (parse_fstab_line E raw) preserves_entries.
Proof.
  intros st.
  destruct (parse_fstab_line_preserve E raw st) as (kept & Hk & Hcase & _).
  exists kept. split; [done|].
  destruct Hcase as [->|[-> Hentry]]; [constructor|].
  apply Forall_cons. split; [|constructor].
  split; [apply before_comment_clean|].
  unfold is_entry, fstab_fields in Hentry.
  apply andb_true_iff in Hentry as [H1%Nat.leb_le H2%Nat.leb_le]. lia.
Qed.

Lemma modify_self_preserves_entries (f : FSSet -> FSSet) :
  (forall fs, preserve_lines (f fs) = preserve_lines fs) ->
  post (modify_self f) preserves_entries.
Proof. intros Hf st. exists []. simpl. by rewrite Hf, app_nil_r. Qed.

(** X2: whatever the file holds and however the parse ends, [parse_fstab]
    only appends to the preserved lines, and each line it appends holds no
    [#] and splits into 4 to 6 fields. *)
Theorem preserved_lines_are_entries (E : Env) (chroot : option string)
    (st : State) :
  exists kept,
    preserve_lines (self (parse_fstab E chroot st).2)
    = preserve_lines (self st) ++ kept
    /\ Forall (fun k => count_char "#" k = 0
                        /\ 4 <= length (PyStr.split k) <= 6) kept.
Proof.
  assert (post (parse_fstab E chroot) preserves_entries) as H.
  { unfold parse_fstab.
    post_with ltac:(first
      [ apply parse_fstab_line_preserves_entries
      | apply modify_self_preserves_entries; intros []; reflexivity ]). }
  exact (H st).
Qed.


Global Instance tree_kept_preorder : PreOrder tree_kept.
Proof.
  split; [by intros w|]. intros w1 w2 w3 H12 H23. unfold tree_kept in *.
  by rewrite H23.
Qed.

Global Instance tree_same_preorder : PreOrder tree_same.
Proof.
  split; [by intros st|]. intros s1 s2 s3 H12 H23.
  unfold tree_same, tree_kept in *. by rewrite H23.
Qed.

Global Instance tree_grows_preorder : PreOrder tree_grows.
Proof.
  split.
  - intros st. split; [|done]. exists []. by rewrite app_nil_r.
  - intros s1 s2 s3 [[a1 H1] N1] [[a2 H2] N2]. split; [|auto].
    exists (a1 ++ a2). by rewrite H2, H1, app_assoc.
Qed.

Lemma tree_same_grows {A} (c : M State A) :
  post c tree_same -> post c tree_grows.
Proof.
  intros H st. specialize (H st). unfold tree_same, tree_kept in H.
  split; [|by rewrite H]. exists []. by rewrite app_nil_r.
Qed.

Lemma in_world_tree_same {A} (c : M World A) :
  post c tree_kept -> post (in_world c) tree_same.
Proof.
  intros Hc st. unfold in_world, tree_same. specialize (Hc (world st)).
  by destruct (c (world st)).
Qed.

(** Every operation but those of the tree leaves the tree as it is. *)
Lemma perform_tree_kept (E : Env) (ev : Event) :
  match ev with EvAddDevice _ | EvRemoveDevice _ => False | _ => True end ->
  post (perform E ev) tree_kept.
Proof.
  intros Hev w. unfold perform. destruct (op_raises E w ev); simpl; [done|].
  by destruct ev.
Qed.

Lemma new_device_tree_kept (cls : DeviceClass) (name : string) (fmt : Format)
    (parents : list dev_id) (exists_ : bool) (size : Z) :
  post (new_device cls name fmt parents exists_ size) tree_kept.
Proof. by intros w. Qed.

Lemma update_obj_tree_kept (d : dev_id) (f : Device -> Device) :
  post (modify (update_obj d f)) tree_kept.
Proof. by intros w. Qed.

Lemma get_containing_device_tree_kept (E : Env) (path : string) :
  post (get_containing_device E path) tree_kept.
Proof. intros w. by rewrite get_containing_device_pure. Qed.

Lemma do_test_mount_tree_kept (E : Env) (fmt : Format) :
  post (do_test_mount E fmt) tree_kept.
Proof.
  unfold do_test_mount.
  post_with ltac:(apply perform_tree_kept; exact I).
Qed.

Lemma modify_self_tree_same (f : FSSet -> FSSet) :
  post (modify_self f) tree_same.
Proof. by intros st. Qed.

(** The steps on the world that leave the tree as it is. *)
Ltac tree_leaf :=
  first
    [ apply modify_self_tree_same
    | apply in_world_tree_same;
      first [ apply perform_tree_kept; exact I
            | apply new_device_tree_kept
            | apply update_obj_tree_kept
            | apply get_containing_device_tree_kept
            | apply do_test_mount_tree_kept ] ].

Lemma _parse_one_line_tree_same (E : Env)
    (devspec mountpoint fstype options : string) :
  post (_parse_one_line E devspec mountpoint fstype options) tree_same.
Proof.
  unfold _parse_one_line, find_or_build_device, NoDevice_new.
  post_with tree_leaf.
Qed.

Lemma dev_in_false (i : dev_id) (l : list dev_id) :
  dev_in i l = false -> i ∉ l.
Proof.
  unfold dev_in. intros H Hin.
  assert (existsb (Nat.eqb i) l = true) as Ht; [|congruence].
  apply existsb_exists. exists i. split; [by apply list_elem_of_In|].
  apply Nat.eqb_refl.
Qed.

(** [if device not in self.devicetree.devices: _add_device(device)]. *)
Lemma add_device_tree_grows (E : Env) (device : dev_id) (line : string) :
  post (st <- get ;;
        if negb (dev_in device (tree (world st))) then
          try_except
            (in_world (perform E (EvAddDevice device)))
            isinstance_ValueError
            (fun _ => append_preserve line)
        else ret tt) tree_grows.
Proof.
  intros st. unfold bind, get.
  destruct (dev_in device (tree (world st))) eqn:Hin; cbn [negb].
  { reflexivity. }
  apply dev_in_false in Hin.
  unfold try_except, in_world, perform.
  destruct (op_raises E (world st) (EvAddDevice device)) as [e|]; simpl.
  - destruct (isinstance_ValueError e); simpl;
      (split; [exists []; simpl; by rewrite app_nil_r|done]).
  - split; [by exists [device]|]. intros Hnd. apply NoDup_app.
    split; [done|]. split; [|apply NoDup_singleton].
    intros x Hx ->%list_elem_of_singleton. done.
Qed.

Lemma parse_fstab_line_tree_grows (E : Env) (raw : string) :
  post (parse_fstab_line E raw) tree_grows.
Proof.
  unfold parse_fstab_line.
  post_with ltac:(first
    [ apply add_device_tree_grows
    | apply tree_same_grows; apply _parse_one_line_tree_same
    | apply tree_same_grows; apply modify_self_tree_same ]).
Qed.

(** X3: [parse_fstab] never removes a device from the tree and never moves
    one: the tree it leaves is the tree it found with devices added at its
    end, and a tree that held no device twice still holds none twice,
    however the parse ends. *)
Theorem parse_fstab_tree_grows (E : Env) (chroot : option string)
    (st : State) :
  NoDup (tree (world st)) ->
  exists added,
    tree (world (parse_fstab E chroot st).2) = tree (world st) ++ added
    /\ NoDup (tree (world st) ++ added).
Proof.
  intros Hnd.
  assert (post (parse_fstab E chroot) tree_grows) as H.
  { unfold parse_fstab.
    post_with ltac:(first
      [ apply parse_fstab_line_tree_grows
      | apply tree_same_grows; apply modify_self_tree_same ]). }
  destruct (H st) as [[added Hadd] Hno]. exists added. split; [done|].
  rewrite <- Hadd. auto.
Qed.

Lemma parse_fstab_tree_grows_witness :
  NoDup (tree (world Demo.root_state))
  /\ exists added,
       tree (world (parse_fstab Demo.nfs_fstab_env None Demo.root_state).2)
       = tree (world Demo.root_state) ++ added
       /\ NoDup (tree (world Demo.root_state) ++ added).
Proof.
  assert (NoDup (tree (world Demo.root_state))) as Hnd.
  { apply NoDup_singleton. }
  split; [done|].
  apply (parse_fstab_tree_grows Demo.nfs_fstab_env None Demo.root_state Hnd).
Defined.

(** The NFS entry adds a device, the entry of the root device adds none. *)
Example parse_fstab_adds_nfs_device :
  tree (world (parse_fstab Demo.nfs_fstab_env None Demo.root_state).2)
  = [0; 1].
Proof. vm_compute. reflexivity. Qed.


(** ** [FSSet._parse_one_line]: the entries it drops and what it stamps *)

(** X4: an entry whose device does not resolve, that is no loop device, no
    NFS share, no swap file and no bind mount, and whose mountpoint is one of
    the seven virtual mountpoints ([/proc], [/sys], ...) is dropped: the line
    builds no device, is not preserved and leaves the state as it was. *)
Theorem virtual_entry_dropped (E : Env) (raw : string) (st : State)
    (devspec mountpoint fstype options : string) (rest : list string) :
  fstab_fields raw = devspec :: mountpoint :: fstype :: options :: rest ->
  length rest <= 2 ->
  PyStr.mem "noauto" (PyStr.split_on "," options) = false ->
  resolve_device E (world st) devspec (crypt_tab (self st))
    (blkid_tab (self st)) (Some options) = None ->
  PyStr.startswith "/dev/loop" devspec = false ->
  PyStr.contains ":" devspec && PyStr.startswith "nfs" fstype = false ->
  PyStr.startswith "/" devspec && String.eqb fstype "swap" = false ->
  String.eqb fstype "bind" || PyStr.contains "bind" options = false ->
  mountpoint ∈ virtual_mountpoints ->
  parse_fstab_line E raw st = (Return tt, st).
Proof.
  intros Hfields Hlen Hnoauto Hres Hloop Hnfs Hswap Hbind Hmp.
  assert (PyStr.mem mountpoint virtual_mountpoints = true) as Hmem.
  { unfold virtual_mountpoints in *.
    repeat (apply elem_of_cons in Hmp as [->|Hmp]; [reflexivity|]).
    by apply elem_of_nil in Hmp. }
  unfold parse_fstab_line. unfold fstab_fields, before_comment in Hfields.
  destruct (PyStr.partition "#" raw) as [[line p] c]. cbn [fst snd] in Hfields.
  cbv beta iota zeta. rewrite Hfields.
  assert ((4 <=? length (devspec :: mountpoint :: fstype :: options :: rest))
          && (length (devspec :: mountpoint :: fstype :: options :: rest)
              <=? 6) = true) as ->.
  { apply andb_true_iff. split; apply Nat.leb_le; simpl; lia. }
  cbn [negb].
  unfold _parse_one_line. rewrite Hnoauto.
  unfold find_or_build_device.
  unfold bind, get, try_except, ret. cbn [world self].
  rewrite Hres, Hloop, Hnfs, Hswap, Hbind, Hmem. reflexivity.
Qed.

Lemma virtual_entry_dropped_witness :
  parse_fstab_line Demo.nfs_fstab_env Demo.proc_line Demo.root_state
  = (Return tt, Demo.root_state).
Proof.
  apply (virtual_entry_dropped Demo.nfs_fstab_env Demo.proc_line
           Demo.root_state "proc" "/proc" "proc" "defaults" ["0"; "0"]);
    try (vm_compute; reflexivity).
  unfold virtual_mountpoints. apply elem_of_cons. by left.
Defined.


(** X5: when [_parse_one_line] returns a device, the device was set up, its
    format carries the options of the entry and, if the format has a
    mountpoint attribute, the mountpoint of the entry; the entry is not
    [noauto]; the [FSSet] itself is as it was. *)
Theorem parsed_entry_is_stamped (E : Env)
    (devspec mountpoint fstype options : string) (st st' : State)
    (d : dev_id) :
  _parse_one_line E devspec mountpoint fstype options st
  = (Return (Some d), st') ->
  let f := fmt_of (world st') d in
  f_options f = Some options
  /\ (f_mountpoint f = None \/ f_mountpoint f = Some (Some mountpoint))
  /\ EvSetup d ∈ trace (world st')
  /\ PyStr.mem "noauto" (PyStr.split_on "," options) = false
  /\ self st' = self st.
Proof.
  intros H f. subst f.
  pose proof (_parse_one_line_same_self E devspec mountpoint fstype options st)
    as Hself.
  rewrite H in Hself. unfold same_self in Hself. simpl in Hself.
  unfold _parse_one_line in H.
  destruct (PyStr.mem "noauto" (PyStr.split_on "," options)); [done|].
  unfold bind at 1 in H.
  destruct (find_or_build_device E devspec mountpoint fstype options st)
    as [[r|e|] st1]; [|done..].
  destruct r as [[[dev|] fstype']|]; [|done..].
  unfold do_test_mount in H.
  unfold bind, in_world, perform, get, ret, raise, modify, lift in H.
  repeat case_match; simplify_eq.
  all: split; [unfold fmt_of; cbn; by rewrite Nat.eqb_refl|].
  all: split;
    [unfold fmt_of, stamp_format; cbn; rewrite ?Nat.eqb_refl; cbn;
     match goal with
     | |- context [match f_mountpoint ?x with _ => _ end] =>
         destruct (f_mountpoint x) eqn:Hmp
     end; cbn; auto|].
  all: split; [cbn; rewrite !elem_of_app, !list_elem_of_singleton; auto|].
  all: split; [reflexivity|exact Hself].
Qed.


Lemma parsed_entry_is_stamped_witness :
  let r := _parse_one_line Demo.nfs_fstab_env "/dev/sda2" "/" "ext4"
             "defaults,ro" Demo.root_state in
  r.1 = Return (Some 0)
  /\ f_options (fmt_of (world r.2) 0) = Some "defaults,ro".
Proof.
  intros r. split; [vm_compute; reflexivity|].
  refine (proj1 (parsed_entry_is_stamped Demo.nfs_fstab_env "/dev/sda2" "/"
                   "ext4" "defaults,ro" Demo.root_state r.2 0 _)).
  vm_compute. reflexivity.
Defined.


(** ** The operations of the mount and unmount loops *)

Global Instance only_events_w_preorder (Q : Event -> Prop) :
  PreOrder (only_events_w Q).
Proof.
  split.
  - intros w. exists []. by rewrite app_nil_r.
  - intros w1 w2 w3 (e1 & H1 & F1) (e2 & H2 & F2). exists (e1 ++ e2).
    rewrite H2, H1, app_assoc. split; [done|]. by apply Forall_app.
Qed.

Global Instance only_events_preorder (Q : Event -> Prop) :
  PreOrder (only_events Q).
Proof.
  split.
  - intros st. unfold only_events. reflexivity.
  - intros s1 s2 s3 H12 H23. unfold only_events in *. by etrans.
Qed.

Lemma only_events_w_mono (Q Q' : Event -> Prop) (w w' : World) :
  (forall ev, Q ev -> Q' ev) -> only_events_w Q w w' -> only_events_w Q' w w'.
Proof.
  intros HQ (evs & Ht & Hf). exists evs. split; [done|].
  eapply Forall_impl; eauto.
Qed.

Lemma perform_only_events (E : Env) (Q : Event -> Prop) (ev : Event) :
  Q ev -> post (perform E ev) (only_events_w Q).
Proof.
  intros HQ w. exists [ev]. split; [apply perform_trace|].
  by apply Forall_singleton.
Qed.

Lemma in_world_only_events {A} (Q : Event -> Prop) (c : M World A) :
  post c (only_events_w Q) -> post (in_world c) (only_events Q).
Proof.
  intros Hc st. unfold in_world, only_events. specialize (Hc (world st)).
  by destruct (c (world st)).
Qed.

(** A computation that performs no operation at all. *)
Lemma quiet_only_events {A} (Q : Event -> Prop) (c : M State A) :
  post c (emits (fun _ => Some 0) []) -> post c (only_events Q).
Proof.
  intros Hc st. destruct (Hc st) as (evs & Ht & Hnil). exists evs.
  split; [done|]. destruct evs; [constructor|done].
Qed.

Lemma quiet_w_only_events {A} (Q : Event -> Prop) (c : M World A) :
  post c (emits_w (fun _ => Some 0) []) -> post c (only_events_w Q).
Proof.
  intros Hc w. destruct (Hc w) as (evs & Ht & Hnil). exists evs.
  split; [done|]. destruct evs; [constructor|done].
Qed.

Lemma guarded_post {A} (E : Env) (c : M State unit) (ok skipped : A)
    (R : State -> State -> Prop) :
  post c R -> post (guarded E c ok skipped) R.
Proof. intros Hc st. rewrite guarded_state. apply Hc. Qed.

Lemma reparent_only_events (E : Env) (Q : Event -> Prop) (root_path : string)
    (device : dev_id) :
  Q (EvRemoveDevice device) ->
  post (reparent E root_path device) (only_events Q).
Proof.
  intros HQ. unfold reparent.
  post_with ltac:(first
    [ apply in_world_only_events;
      first [ by apply perform_only_events
            | apply quiet_w_only_events;
              first [ apply get_containing_device_silent
                    | apply modify_silent; intros; reflexivity ] ] ]).
Qed.

Lemma virtual_device_only_events (E : Env) (Q : Event -> Prop) (v : VirtualFS) :
  post (virtual_device E v) (only_events Q).
Proof. apply quiet_only_events, virtual_device_silent. Qed.

(** The steps of [mount_filesystems] on one device after its tests. *)
Lemma mount_tail_only_events (E : Env) (Q : Event -> Prop)
    (root_path opts : string) (device : dev_id) (b : bool) :
  Q (EvSetup device) -> Q (EvRemoveDevice device) ->
  Q (EvFormatSetup device (Some (opts, root_path))) ->
  post
    (go_on <-
       (if b then
          d <- virtual_device E _dev ;;
          r <- virtual_device E _run ;;
          if negb (dev_in device [d; r]) then reparent E root_path device
          else ret true
        else ret true) ;;
     if negb go_on then ret tt
     else
       up <- guarded E (in_world (perform E (EvSetup device))) true false ;;
       if negb up then ret tt
       else
         guarded E
           (in_world
              (perform E (EvFormatSetup device (Some (opts, root_path)))))
           tt tt)
    (only_events Q).
Proof.
  intros Hs Hr Hm.
  post_with ltac:(first
    [ apply virtual_device_only_events
    | by apply reparent_only_events
    | apply guarded_post; apply in_world_only_events;
      by apply perform_only_events ]).
Qed.

Lemma only_events_same (Q : Event -> Prop) (st : State) : only_events Q st st.
Proof. reflexivity. Qed.

(** What [mount_filesystems] does with one device: nothing unless the
    format passes the tests, and then only the three operations of
    [mount_step]. *)
Lemma mount_device_only_events (E : Env) (root_path : string)
    (read_only : option string) (skip_root : bool) (device : dev_id)
    (st : State) :
  only_events
    (mount_step root_path read_only skip_root (fmt_of (world st) device)
       device)
    st (mount_device E root_path read_only skip_root device st).2.
Proof.
  unfold mount_device. unfold bind at 1, get at 1. cbv zeta.
  set (f := fmt_of (world st) device).
  destruct (f_mountable f) eqn:Hmountable; cbn [negb];
    [|apply only_events_same].
  unfold bind at 1, lift at 1, format_mountpoint.
  destruct (f_mountpoint f) as [[mp|]|] eqn:Hmp;
    [|apply only_events_same..].
  destruct mp as [|c mp]; [apply only_events_same|]. cbn [truthy negb].
  destruct (skip_root && bool_decide (Some (String c mp) = Some "/"))
    eqn:Hskip; [apply only_events_same|].
  destruct (f_options f) as [options|] eqn:Hoptions;
    [|apply only_events_same].
  destruct (PyStr.mem "noauto" (PyStr.split_on "," options)) eqn:Hnoauto;
    [apply only_events_same|].
  assert (mount_eligible skip_root f) as Hel.
  { split; [done|]. split; [|by exists options].
    exists (String c mp). split; [done|]. split; [done|].
    intros -> Heq. rewrite Heq in Hskip. cbn in Hskip.
    by rewrite bool_decide_eq_true_2 in Hskip. }
  assert (mount_options read_only f
          = if truthy read_only
            then options +:+ "," +:+ default "" read_only
            else options) as Hopts.
  { unfold mount_options. by rewrite Hoptions. }
  rewrite <- Hopts.
  apply mount_tail_only_events; unfold mount_step; auto.
Qed.


Section LoopOperations.

Context (body : dev_id -> M State unit)
  (Q : Format -> dev_id -> Event -> Prop).
Hypothesis Hstable : forall d, post (body d) formats_stable.
Hypothesis Hacts :
  forall d st, only_events (Q (fmt_of (world st) d) d) st (body d st).2.

(** A loop over devices whose body keeps the formats and acts on its own
    device as the format of the device allows. *)
Lemma for_each_only_events (ds : list dev_id) (st : State) :
  binds_cached st ->
  binds_cached (for_each ds body st).2
  /\ formats_kept (world st) (world (for_each ds body st).2)
  /\ only_events (fun ev => exists d, d ∈ ds /\ Q (fmt_of (world st) d) d ev)
       st (for_each ds body st).2.
Proof.
  revert st. induction ds as [|d ds IH]; intros st Hc.
  { simpl. split; [done|]. split; reflexivity. }
  simpl. unfold bind.
  destruct (Hstable d st Hc) as [Hc1 Hk1].
  pose proof (Hacts d st) as (evs1 & Ht1 & Hf1).
  assert (Forall (fun ev => exists d0, d0 ∈ d :: ds
                                       /\ Q (fmt_of (world st) d0) d0 ev) evs1)
    as Hf1'.
  { eapply Forall_impl; [exact Hf1|]. intros ev Hev. exists d.
    split; [apply elem_of_cons; by left|done]. }
  destruct (body d st) as [[[]|e|] st1]; simpl in *.
  2,3: by (split; [done|]; split; [done|]; exists evs1).
  destruct (IH st1 Hc1) as (Hc2 & Hk2 & evs2 & Ht2 & Hf2).
  split; [done|]. split; [by etrans|].
  exists (evs1 ++ evs2). rewrite Ht2, Ht1, app_assoc. split; [done|].
  apply Forall_app. split; [done|].
  eapply Forall_impl; [exact Hf2|]. intros ev (d0 & Hin & Hq). exists d0.
  split; [apply elem_of_cons; by right|].
  unfold fmt_of in *. by rewrite <- (Hk1 d0).
Qed.

End LoopOperations.

(** How a call of [mount_filesystems] in installer mode runs: the devices
    are gathered and sorted, then the loop runs and [active] is set. *)
Lemma mount_filesystems_run (E : Env) (root_path : string)
    (read_only : option string) (skip_root : bool) (st : State) :
  installer_mode E = true ->
  let st1 := (gather_devices E mount_extras st).2 in
  trace (world st1) = trace (world st)
  /\ ((exists o, (forall x, o <> Return x)
                 /\ mount_filesystems E root_path read_only skip_root st
                    = (o, st1))
      \/ (exists plan,
            binds_cached st1
            /\ mount_filesystems E root_path read_only skip_root st
               = (for_each plan (mount_device E root_path read_only skip_root)
                  ;;; modify_self (set_active true)) st1)).
Proof.
  intros Hmode st1. subst st1. unfold mount_filesystems.
  rewrite Hmode. cbn [negb].
  pose proof (gather_devices_silent (fun _ => Some 0) E mount_extras st) as Hg.
  destruct (gather_devices E mount_extras st) as [[l|e|] st1] eqn:Hgather;
    simpl in Hg; destruct Hg as (evs0 & Htr0 & Hm0).
  all: assert (evs0 = []) as -> by (destruct evs0; [done|discriminate Hm0]).
  all: rewrite app_nil_r in Htr0; simpl; (split; [done|]).
  2:{ left. exists (Raise e). split; [done|].
      by rewrite !(bind_raise _ _ _ _ _ Hgather). }
  2:{ left. exists OutOfFuel. split; [done|].
      by rewrite !(bind_out_of_fuel _ _ _ _ Hgather). }
  rewrite !(bind_return _ _ _ _ _ Hgather).
  apply gather_devices_cached in Hgather as Hcached;
    [|unfold mount_extras; set_solver..].
  destruct (sort_by_opt (mountpoint_key (world st1)) l) as [plan|e|] eqn:Hsort.
  2:{ assert (Hs : sort_by_mountpoint l st1 = (Raise e, st1))
        by (unfold sort_by_mountpoint, bind, get, lift; by rewrite Hsort).
      left. exists (Raise e). split; [done|].
      by rewrite !(bind_raise _ _ _ _ _ Hs). }
  2:{ assert (Hs : sort_by_mountpoint l st1 = (OutOfFuel, st1))
        by (unfold sort_by_mountpoint, bind, get, lift; by rewrite Hsort).
      left. exists OutOfFuel. split; [done|].
      by rewrite !(bind_out_of_fuel _ _ _ _ Hs). }
  assert (Hs : sort_by_mountpoint l st1 = (Return plan, st1))
    by (unfold sort_by_mountpoint, bind, get, lift; by rewrite Hsort).
  right. exists plan. split; [done|].
  by rewrite !(bind_return _ _ _ _ _ Hs).
Qed.

(** X6: whatever [mount_filesystems] does, it does to a device whose format
    is mountable, has a mountpoint that is not empty (and not [/] under
    [skip_root]) and options without [noauto]; it only sets such a device
    up, removes it from the tree, or mounts it, with the options of its
    format, followed by [read_only] if given, under [root_path]. *)
Theorem mount_filesystems_operations (E : Env) (root_path : string)
    (read_only : option string) (skip_root : bool) (st : State) :
  let st' := (mount_filesystems E root_path read_only skip_root st).2 in
  exists evs,
    trace (world st') = trace (world st) ++ evs
    /\ Forall
         (fun ev => exists d,
            mount_step root_path read_only skip_root (fmt_of (world st') d)
              d ev)
         evs.
Proof.
  intros st'. subst st'.
  destruct (installer_mode E) eqn:Hmode.
  2:{ unfold mount_filesystems. rewrite Hmode. exists []. simpl.
      by rewrite app_nil_r. }
  destruct (mount_filesystems_run E root_path read_only skip_root st Hmode)
    as [Htr0 [(o & _ & ->)|(plan & Hcached & ->)]].
  { exists []. simpl. by rewrite Htr0, app_nil_r. }
  set (st1 := (gather_devices E mount_extras st).2) in *.
  destruct (for_each_only_events
              (mount_device E root_path read_only skip_root)
              (mount_step root_path read_only skip_root)
              (mount_device_stable E root_path read_only skip_root)
              (mount_device_only_events E root_path read_only skip_root)
              plan st1 Hcached) as (_ & Hkept & evs & Htr & Hall).
  unfold bind.
  destruct (for_each plan (mount_device E root_path read_only skip_root) st1)
    as [o st2].
  simpl in Htr, Hkept, Hall.
  assert (Hworld : world ((match o with
                           | Return _ => modify_self (set_active true) st2
                           | Raise e => (Raise e, st2)
                           | OutOfFuel => (OutOfFuel, st2)
                           end).2) = world st2)
    by (by destruct o).
  rewrite Hworld. exists evs. split; [by rewrite Htr, Htr0|].
  eapply Forall_impl; [exact Hall|]. intros ev (d & _ & Hq). exists d.
  unfold fmt_of in *. by rewrite (Hkept d).
Qed.


Lemma umount_device_only_events (E : Env) (swapoff : bool) (device : dev_id)
    (st : State) :
  only_events (umount_step swapoff (fmt_of (world st) device) device)
    st (umount_device E swapoff device st).2.
Proof.
  unfold umount_device. unfold bind at 1, get at 1. cbv zeta.
  set (f := fmt_of (world st) device).
  destruct (f_mountable f) eqn:Hmountable; cbn [negb orb];
    [|apply only_events_same].
  destruct (bool_decide (f_type f = Some "swap") && negb swapoff) eqn:Hswap;
    [apply only_events_same|].
  apply in_world_only_events, perform_only_events.
  split; [done|]. split; [done|]. intros -> Htype.
  by rewrite bool_decide_eq_true_2 in Hswap.
Qed.

(** How a call of [umount_filesystems] runs. *)
Lemma umount_filesystems_run (E : Env) (swapoff : bool) (st : State) :
  let st1 := (gather_devices E umount_extras st).2 in
  trace (world st1) = trace (world st)
  /\ ((exists o, (forall x, o <> Return x)
                 /\ umount_filesystems E swapoff st = (o, st1))
      \/ (exists plan,
            binds_cached st1
            /\ umount_filesystems E swapoff st
               = (for_each plan (umount_device E swapoff)
                  ;;; modify_self (set_active false)) st1)).
Proof.
  intros st1. subst st1. unfold umount_filesystems.
  pose proof (gather_devices_silent (fun _ => Some 0) E umount_extras st) as Hg.
  destruct (gather_devices E umount_extras st) as [[l|e|] st1] eqn:Hgather;
    simpl in Hg; destruct Hg as (evs0 & Htr0 & Hm0).
  all: assert (evs0 = []) as -> by (destruct evs0; [done|discriminate Hm0]).
  all: rewrite app_nil_r in Htr0; simpl; (split; [done|]).
  2:{ left. exists (Raise e). split; [done|].
      by rewrite !(bind_raise _ _ _ _ _ Hgather). }
  2:{ left. exists OutOfFuel. split; [done|].
      by rewrite !(bind_out_of_fuel _ _ _ _ Hgather). }
  rewrite !(bind_return _ _ _ _ _ Hgather).
  apply gather_devices_cached in Hgather as Hcached;
    [|unfold umount_extras; set_solver..].
  destruct (sort_by_opt (mountpoint_key (world st1)) l) as [plan|e|] eqn:Hsort.
  2:{ assert (Hs : sort_by_mountpoint l st1 = (Raise e, st1))
        by (unfold sort_by_mountpoint, bind, get, lift; by rewrite Hsort).
      left. exists (Raise e). split; [done|].
      by rewrite !(bind_raise _ _ _ _ _ Hs). }
  2:{ assert (Hs : sort_by_mountpoint l st1 = (OutOfFuel, st1))
        by (unfold sort_by_mountpoint, bind, get, lift; by rewrite Hsort).
      left. exists OutOfFuel. split; [done|].
      by rewrite !(bind_out_of_fuel _ _ _ _ Hs). }
  assert (Hs : sort_by_mountpoint l st1 = (Return plan, st1))
    by (unfold sort_by_mountpoint, bind, get, lift; by rewrite Hsort).
  right. exists (rev plan). split; [done|].
  by rewrite !(bind_return _ _ _ _ _ Hs).
Qed.

(** X7: the only operation of [umount_filesystems] is the teardown of a
    format, and only of a mountable one; with [swapoff=False] no swap format
    is torn down.  No device is set up, torn down or taken from the tree. *)
Theorem umount_filesystems_operations (E : Env) (swapoff : bool) (st : State) :
  let st' := (umount_filesystems E swapoff st).2 in
  exists evs,
    trace (world st') = trace (world st) ++ evs
    /\ Forall
         (fun ev => exists d,
            ev = EvFormatTeardown d
            /\ f_mountable (fmt_of (world st') d) = true
            /\ (swapoff = false -> f_type (fmt_of (world st') d) <> Some "swap"))
         evs.
Proof.
  intros st'. subst st'.
  destruct (umount_filesystems_run E swapoff st)
    as [Htr0 [(o & _ & ->)|(plan & Hcached & ->)]].
  { exists []. simpl. by rewrite Htr0, app_nil_r. }
  set (st1 := (gather_devices E umount_extras st).2) in *.
  destruct (for_each_only_events
              (umount_device E swapoff) (umount_step swapoff)
              (umount_device_stable E swapoff)
              (umount_device_only_events E swapoff)
              plan st1 Hcached) as (_ & Hkept & evs & Htr & Hall).
  unfold bind.
  destruct (for_each plan (umount_device E swapoff) st1) as [o st2].
  simpl in Htr, Hkept, Hall.
  assert (Hworld : world ((match o with
                           | Return _ => modify_self (set_active false) st2
                           | Raise e => (Raise e, st2)
                           | OutOfFuel => (OutOfFuel, st2)
                           end).2) = world st2)
    by (by destruct o).
  rewrite Hworld. exists evs. split; [by rewrite Htr, Htr0|].
  eapply Forall_impl; [exact Hall|]. intros ev (d & _ & Hq). exists d.
  unfold umount_step, fmt_of in *. by rewrite (Hkept d).
Qed.

(** ** The [active] flag *)

Global Instance active_kept_preorder : PreOrder active_kept.
Proof.
  split; [by intros st|]. intros s1 s2 s3 H12 H23. unfold active_kept in *.
  by rewrite H23.
Qed.

Lemma same_self_active_kept {A} (c : M State A) :
  post c same_self -> post c active_kept.
Proof. intros H st. unfold active_kept. by rewrite (H st). Qed.

Lemma virtual_device_active_kept (E : Env) (v : VirtualFS) :
  post (virtual_device E v) active_kept.
Proof.
  unfold virtual_device.
  post_with ltac:(first
    [ apply same_self_active_kept; apply in_world_same_self
    | by intros st ]).
Qed.

Lemma gather_devices_active_kept (E : Env) (extras : list VirtualFS) :
  post (gather_devices E extras) active_kept.
Proof.
  unfold gather_devices. post_with ltac:(apply virtual_device_active_kept).
Qed.

Lemma reparent_active_kept (E : Env) (root_path : string) (device : dev_id) :
  post (reparent E root_path device) active_kept.
Proof.
  unfold reparent.
  post_with ltac:(apply same_self_active_kept; apply in_world_same_self).
Qed.

Lemma mount_device_active_kept (E : Env) (root_path : string)
    (read_only : option string) (skip_root : bool) (device : dev_id) :
  post (mount_device E root_path read_only skip_root device) active_kept.
Proof.
  unfold mount_device.
  post_with ltac:(first
    [ apply virtual_device_active_kept
    | apply reparent_active_kept
    | apply guarded_post
    | apply same_self_active_kept; apply in_world_same_self ]).
Qed.

Lemma umount_device_active_kept (E : Env) (swapoff : bool) (device : dev_id) :
  post (umount_device E swapoff device) active_kept.
Proof.
  unfold umount_device.
  post_with ltac:(apply same_self_active_kept; apply in_world_same_self).
Qed.

(** X8: [active] is set by [mount_filesystems] and cleared by
    [umount_filesystems] exactly when the call returns; a call that raises,
    at whatever device, leaves the flag as it was. *)
Theorem active_set_on_return (E : Env) (root_path : string)
    (read_only : option string) (skip_root swapoff : bool) (st : State) :
  installer_mode E = true ->
  let m := mount_filesystems E root_path read_only skip_root st in
  let u := umount_filesystems E swapoff st in
  active (self m.2) = match m.1 with
                      | Return _ => true
                      | _ => active (self st)
                      end
  /\ active (self u.2) = match u.1 with
                         | Return _ => false
                         | _ => active (self st)
                         end.
Proof.
  intros Hmode m u. subst m u. split.
  - pose proof (gather_devices_active_kept E mount_extras st) as Hg.
    destruct (mount_filesystems_run E root_path read_only skip_root st Hmode)
      as [_ [(o & Ho & ->)|(plan & _ & ->)]].
    { simpl. destruct o; [by destruct (Ho a)|apply Hg..]. }
    set (st1 := (gather_devices E mount_extras st).2) in *.
    pose proof (post_for_each active_kept plan
                  (mount_device E root_path read_only skip_root)
                  (mount_device_active_kept E root_path read_only skip_root)
                  st1) as Hl.
    unfold bind.
    destruct (for_each plan (mount_device E root_path read_only skip_root) st1)
      as [[[]|e|] st2]; simpl in *.
    + done.
    + unfold active_kept in *. by rewrite Hl.
    + unfold active_kept in *. by rewrite Hl.
  - pose proof (gather_devices_active_kept E umount_extras st) as Hg.
    destruct (umount_filesystems_run E swapoff st)
      as [_ [(o & Ho & ->)|(plan & _ & ->)]].
    { simpl. destruct o; [by destruct (Ho a)|apply Hg..]. }
    set (st1 := (gather_devices E umount_extras st).2) in *.
    pose proof (post_for_each active_kept plan (umount_device E swapoff)
                  (umount_device_active_kept E swapoff) st1) as Hl.
    unfold bind.
    destruct (for_each plan (umount_device E swapoff) st1)
      as [[[]|e|] st2]; simpl in *.
    + done.
    + unfold active_kept in *. by rewrite Hl.
    + unfold active_kept in *. by rewrite Hl.
Qed.


Lemma active_set_on_return_witness :
  let m := mount_filesystems Demo.failing_mount_env "/mnt/sysimage" None false
             Demo.root_state in
  let u := umount_filesystems Demo.failing_mount_env true Demo.mounted_state in
  m.1 = Raise StorageError /\ active (self m.2) = false
  /\ u.1 = Return tt /\ active (self u.2) = false.
Proof.
  intros m u.
  assert (m.1 = Raise StorageError) as Hm by (vm_compute; reflexivity).
  assert (u.1 = Return tt) as Hu by (vm_compute; reflexivity).
  split; [done|]. split.
  - pose proof (proj1 (active_set_on_return Demo.failing_mount_env
                         "/mnt/sysimage" None false true Demo.root_state
                         eq_refl)) as H.
    fold m in H. rewrite Hm in H. exact H.
  - split; [done|].
    pose proof (proj2 (active_set_on_return Demo.failing_mount_env
                         "/mnt/sysimage" None false true Demo.mounted_state
                         eq_refl)) as H.
    fold u in H. rewrite Hu in H. exact H.
Defined.


(** ** [FSSet.turn_on_swap] *)

(** A loop whose body acts on its own element only. *)
Lemma for_each_only_events_in {X} (body : X -> M State unit)
    (Q : X -> Event -> Prop) (ds : list X) :
  (forall d, post (body d) (only_events (Q d))) ->
  post (for_each ds body)
    (only_events (fun ev => exists d, d ∈ ds /\ Q d ev)).
Proof.
  intros Hbody. induction ds as [|d ds IH]; intros st.
  { simpl. reflexivity. }
  simpl. unfold bind.
  assert (only_events (fun ev => exists d0, d0 ∈ d :: ds /\ Q d0 ev)
            st (body d st).2) as H1.
  { eapply only_events_w_mono; [|apply (Hbody d st)]. intros ev Hev.
    exists d. split; [apply elem_of_cons; by left|done]. }
  destruct (body d st) as [[[]|e|] st1]; simpl in *; [|done..].
  etrans; [exact H1|].
  eapply only_events_w_mono; [|apply (IH st1)]. intros ev (d0 & Hin & Hq).
  exists d0. split; [apply elem_of_cons; by right|done].
Qed.

Lemma swap_setup_retry_only_events (E : Env) (fuel : nat) (device : dev_id) :
  post (swap_setup_retry E fuel device) (only_events (swap_step device)).
Proof.
  induction fuel as [|fuel IH]; [intros st; reflexivity|].
  simpl.
  post_with ltac:(first
    [ apply IH
    | apply in_world_only_events; apply perform_only_events;
      unfold swap_step; auto ]).
Qed.

Lemma swap_setup_retry_same_self (E : Env) (fuel : nat) (device : dev_id) :
  post (swap_setup_retry E fuel device) same_self.
Proof.
  induction fuel as [|fuel IH]; [intros st; reflexivity|].
  simpl. post_with ltac:(first [ apply IH | apply in_world_same_self ]).
Qed.

Lemma turn_on_swap_device_only_events (E : Env) (fuel : nat)
    (root_path : string) (device : dev_id) :
  post (turn_on_swap_device E fuel root_path device)
    (only_events (swap_step device)).
Proof.
  unfold turn_on_swap_device.
  post_with ltac:(first
    [ apply swap_setup_retry_only_events
    | apply reparent_only_events; unfold swap_step; auto ]).
Qed.

Lemma turn_on_swap_device_same_self (E : Env) (fuel : nat)
    (root_path : string) (device : dev_id) :
  post (turn_on_swap_device E fuel root_path device) same_self.
Proof.
  unfold turn_on_swap_device, reparent.
  post_with ltac:(first
    [ apply swap_setup_retry_same_self | apply in_world_same_self ]).
Qed.

(** X9: [turn_on_swap] acts on the swap devices of the tree only: each of
    its operations sets up such a device, sets up its format (without mount
    options) or takes the device out of the tree; nothing is mounted or torn
    down, and the [FSSet] itself is as it was. *)
Theorem turn_on_swap_operations (E : Env) (fuel : nat) (root_path : string)
    (st : State) :
  let st' := (turn_on_swap E fuel root_path st).2 in
  self st' = self st
  /\ exists evs,
       trace (world st') = trace (world st) ++ evs
       /\ Forall
            (fun ev => exists d,
               d ∈ swap_devices (world st)
               /\ (ev = EvSetup d \/ ev = EvFormatSetup d None
                   \/ ev = EvRemoveDevice d))
            evs.
Proof.
  intros st'. subst st'. unfold turn_on_swap.
  destruct (installer_mode E); cbn [negb].
  2:{ split; [done|]. exists []. simpl. by rewrite app_nil_r. }
  unfold bind at 1, get at 1. split.
  - apply (post_for_each same_self (swap_devices (world st))
             (turn_on_swap_device E fuel root_path)
             (turn_on_swap_device_same_self E fuel root_path) st).
  - apply (for_each_only_events_in (turn_on_swap_device E fuel root_path)
             swap_step (swap_devices (world st))
             (turn_on_swap_device_only_events E fuel root_path) st).
Qed.


(** ** The property [FSSet.mountpoints] *)

Lemma dict_set_elem (k : string) (v : dev_id) (d : list (string * dev_id))
    (k' : string) (v' : dev_id) :
  (k', v') ∈ dict_set k v d -> (k' = k /\ v' = v) \/ (k', v') ∈ d.
Proof.
  induction d as [|[k0 v0] d IH]; simpl.
  - intros H%list_elem_of_singleton. left. by simplify_eq.
  - destruct (String.eqb k0 k) eqn:Hk.
    + intros [H|H]%elem_of_cons; [left; by simplify_eq|].
      right. apply elem_of_cons. by right.
    + intros [H|H]%elem_of_cons.
      * right. apply elem_of_cons. by left.
      * destruct (IH H) as [?|?]; [by left|]. right. apply elem_of_cons.
        by right.
Qed.

Lemma dict_set_new (k : string) (v : dev_id) (d : list (string * dev_id)) :
  (k, v) ∈ dict_set k v d.
Proof.
  induction d as [|[k0 v0] d IH]; simpl.
  - by apply list_elem_of_singleton.
  - destruct (String.eqb k0 k); apply elem_of_cons; [by left|by right].
Qed.

Lemma dict_set_other (k : string) (v : dev_id) (d : list (string * dev_id))
    (k' : string) (v' : dev_id) :
  k' <> k -> (k', v') ∈ d -> (k', v') ∈ dict_set k v d.
Proof.
  intros Hne. induction d as [|[k0 v0] d IH]; simpl;
    [by intros ?%elem_of_nil|].
  destruct (String.eqb k0 k) eqn:Hk.
  - apply String.eqb_eq in Hk as ->.
    intros [H|H]%elem_of_cons; [by simplify_eq|].
    apply elem_of_cons. by right.
  - intros [H|H]%elem_of_cons; apply elem_of_cons; [by left|right; auto].
Qed.

Lemma dict_set_keys (k : string) (v : dev_id) (d : list (string * dev_id)) :
  NoDup d.*1 -> NoDup (dict_set k v d).*1.
Proof.
  induction d as [|[k0 v0] d IH]; simpl.
  - intros _. apply NoDup_singleton.
  - intros [Hnotin Hnd]%NoDup_cons. destruct (String.eqb k0 k) eqn:Hk; simpl.
    + apply String.eqb_eq in Hk as ->. by apply NoDup_cons.
    + apply NoDup_cons. split; [|auto].
      intros ((k1 & v1) & -> & Hin)%list_elem_of_fmap. simpl in *.
      apply dict_set_elem in Hin as [[-> ->]|Hin].
      * by rewrite String.eqb_refl in Hk.
      * apply Hnotin. apply list_elem_of_fmap. by exists (k1, v1).
Qed.

Lemma mountpoints_loop_step (w : World) (device : dev_id) (l : list dev_id)
    (acc fs : list (string * dev_id)) :
  mountpoints_loop w (device :: l) acc = Return fs ->
  (exists mp, claims w device mp
              /\ mountpoints_loop w l (dict_set mp device acc) = Return fs)
  \/ ((forall mp, ~ claims w device mp)
      /\ mountpoints_loop w l acc = Return fs).
Proof.
  simpl. unfold format_mountpoint, claims.
  destruct (f_mountable (fmt_of w device)) eqn:Hm.
  2:{ intros H. right. split; [|done]. by intros mp [? _]. }
  destruct (f_mountpoint (fmt_of w device)) as [[mp|]|] eqn:Hmp; [| |done].
  - destruct mp as [|c s].
    + intros H. right. split; [|done]. intros mp (_ & ? & ?). by simplify_eq.
    + intros H. left. exists (String c s). done.
  - intros H. right. split; [|done]. by intros mp (_ & ? & _).
Qed.

Lemma mountpoints_loop_keys (w : World) (l : list dev_id)
    (acc fs : list (string * dev_id)) :
  mountpoints_loop w l acc = Return fs -> NoDup acc.*1 -> NoDup fs.*1.
Proof.
  revert acc. induction l as [|device l IH]; intros acc H Hnd.
  { simpl in H. by simplify_eq. }
  apply mountpoints_loop_step in H as [(mp & _ & H)|[_ H]].
  - apply (IH _ H). by apply dict_set_keys.
  - by apply (IH _ H).
Qed.

Lemma mountpoints_loop_sound (w : World) (l : list dev_id)
    (acc fs : list (string * dev_id)) (mp : string) (d : dev_id) :
  mountpoints_loop w l acc = Return fs ->
  (mp, d) ∈ fs -> (mp, d) ∈ acc \/ (d ∈ l /\ claims w d mp).
Proof.
  revert acc. induction l as [|device l IH]; intros acc H Hin.
  { simpl in H. simplify_eq. by left. }
  apply mountpoints_loop_step in H as [(mp' & Hcl & H)|[_ H]].
  - destruct (IH _ H Hin) as [Hacc|[Hl Hc]].
    + apply dict_set_elem in Hacc as [[-> ->]|Hacc]; [|by left].
      right. split; [apply elem_of_cons; by left|done].
    + right. split; [apply elem_of_cons; by right|done].
  - destruct (IH _ H Hin) as [Hacc|[Hl Hc]]; [by left|].
    right. split; [apply elem_of_cons; by right|done].
Qed.

(** An entry made for [d] stays, unless a later device takes its key. *)
Lemma mountpoints_loop_keeps (w : World) (l : list dev_id)
    (acc fs : list (string * dev_id)) (mp : string) (d : dev_id) :
  mountpoints_loop w l acc = Return fs ->
  Forall (fun x => String.le (d_path (objs w d)) (d_path (objs w x))) l ->
  (exists d', (mp, d') ∈ acc
              /\ String.le (d_path (objs w d)) (d_path (objs w d'))) ->
  exists d', (mp, d') ∈ fs
             /\ String.le (d_path (objs w d)) (d_path (objs w d')).
Proof.
  revert acc. induction l as [|device l IH]; intros acc H Hall Hacc.
  { simpl in H. by simplify_eq. }
  apply Forall_cons in Hall as [Hle Hall].
  apply mountpoints_loop_step in H as [(mp' & Hcl & H)|[_ H]].
  - apply (IH _ H Hall). destruct Hacc as (d' & Hin & Hd').
    destruct (decide (mp = mp')) as [->|Hne].
    + exists device. split; [apply dict_set_new|done].
    + exists d'. split; [by apply dict_set_other|done].
  - by apply (IH _ H Hall).
Qed.

Lemma mountpoints_loop_complete (w : World) (l : list dev_id)
    (acc fs : list (string * dev_id)) (mp : string) (d : dev_id) :
  mountpoints_loop w l acc = Return fs ->
  StronglySorted
    (fun a b => String.le (d_path (objs w a)) (d_path (objs w b))) l ->
  d ∈ l -> claims w d mp ->
  exists d', (mp, d') ∈ fs
             /\ String.le (d_path (objs w d)) (d_path (objs w d')).
Proof.
  revert acc. induction l as [|device l IH]; intros acc H Hsorted Hin Hcl.
  { by apply elem_of_nil in Hin. }
  apply StronglySorted_inv in Hsorted as [Hsorted Hall].
  apply elem_of_cons in Hin as [->|Hin].
  - apply mountpoints_loop_step in H as [(mp' & Hcl' & H)|[Hno _]].
    2:{ by destruct (Hno mp). }
    assert (mp' = mp) as ->.
    { destruct Hcl as (_ & H1 & _), Hcl' as (_ & H2 & _). congruence. }
    apply (mountpoints_loop_keeps _ _ _ _ _ _ H); [exact Hall|].
    exists device. split; [apply dict_set_new|done].
  - apply mountpoints_loop_step in H as [(mp' & _ & H)|[_ H]];
      by apply (IH _ H).
Qed.

(** X10: the dictionary [mountpoints] has every key once; each key is the
    mountpoint, not empty, of the mountable device of the tree it maps to;
    every mountable device of the tree with a mountpoint has its mountpoint
    among the keys, and where several devices have the same mountpoint the
    key maps to one whose path sorts last. *)
Theorem mountpoints_correct (w : World) (fs : list (string * dev_id)) :
  mountpoints w = Return fs ->
  NoDup fs.*1
  /\ (forall mp d, (mp, d) ∈ fs ->
        d ∈ tree w /\ f_mountable (fmt_of w d) = true
        /\ f_mountpoint (fmt_of w d) = Some (Some mp) /\ mp <> "")
  /\ (forall mp d,
        d ∈ tree w -> f_mountable (fmt_of w d) = true ->
        f_mountpoint (fmt_of w d) = Some (Some mp) -> mp <> "" ->
        exists d', (mp, d') ∈ fs
                   /\ String.le (d_path (objs w d)) (d_path (objs w d'))).
Proof.
  unfold mountpoints, devices. intros H. split; [|split].
  - apply (mountpoints_loop_keys _ _ _ _ H). constructor.
  - intros mp d Hin.
    destruct (mountpoints_loop_sound _ _ _ _ _ _ H Hin) as [Hnil|[Hl Hc]].
    { by apply elem_of_nil in Hnil. }
    split; [|exact Hc]. by rewrite sort_by_perm in Hl.
  - intros mp d Hin Hm Hmp Hne.
    apply (mountpoints_loop_complete _ _ _ _ _ _ H).
    + apply sort_by_sorted.
    + by rewrite sort_by_perm.
    + done.
Qed.


Lemma mountpoints_correct_witness :
  let fs := [("/boot", 1); ("/", 3); ("/var", 2); ("/var/log", 0)] in
  mountpoints Demo.four_disks = Return fs /\ NoDup fs.*1.
Proof.
  intros fs.
  assert (mountpoints Demo.four_disks = Return fs) as H
    by (vm_compute; reflexivity).
  split; [exact H|]. exact (proj1 (mountpoints_correct Demo.four_disks fs H)).
Defined.


(** ** Parsing a table again *)

(** A fold whose step enters a line's binding into a map, or leaves the map
    as it is: the result is what the lines give on their own, laid over
    the map the fold started from. *)
Lemma fold_left_union `{Countable K} {V X} (step : gmap K V -> X -> gmap K V)
    (l : list X) (m : gmap K V) :
  (forall m x, step m x = step ∅ x ∪ m) ->
  fold_left step l m = fold_left step l ∅ ∪ m.
Proof.
  intros Hstep. revert m. induction l as [|x l IH]; intros m; simpl.
  - by rewrite (left_id_L ∅ (∪)).
  - rewrite (IH (step m x)), (IH (step ∅ x)), (Hstep m x).
    by rewrite (assoc_L (∪)).
Qed.

Lemma fold_left_again `{Countable K} {V X} (step : gmap K V -> X -> gmap K V)
    (l : list X) (m : gmap K V) :
  (forall m x, step m x = step ∅ x ∪ m) ->
  fold_left step l (fold_left step l m) = fold_left step l m.
Proof.
  intros Hstep. rewrite (fold_left_union step l (fold_left step l m) Hstep).
  rewrite (fold_left_union step l m Hstep).
  by rewrite (assoc_L (∪)), (idemp_L (∪)).
Qed.

Lemma crypttab_line_spec_union (resolve : string -> option dev_id)
    (m : gmap string MapInfo) (line : string) :
  crypttab_line_spec resolve m line = crypttab_line_spec resolve ∅ line ∪ m.
Proof.
  unfold crypttab_line_spec.
  destruct (crypttab_fields line) as [[[[name devspec] keyfile] options]|];
    [|by rewrite (left_id_L ∅ (∪))].
  destruct (resolve devspec); [|by rewrite (left_id_L ∅ (∪))].
  by rewrite insert_empty, insert_union_singleton_l.
Qed.

Lemma blkid_line_spec_union (m : gmap string (gmap string string))
    (line : string) :
  blkid_line_spec m line = blkid_line_spec ∅ line ∪ m.
Proof.
  unfold blkid_line_spec.
  destruct (PyStr.startswith "<device " line); [|by rewrite (left_id_L ∅ (∪))].
  destruct (PyStr.partition ">" (PyStr.slice 8 10 line)) as [[data sep] device].
  destruct device; [by rewrite (left_id_L ∅ (∪))|].
  by rewrite insert_empty, insert_union_singleton_l.
Qed.

Lemma CryptTab_parse_eq (E : Env) (w : World) (chroot : string)
    (self : CryptTab) (text : string) :
  let root :=
    if String.eqb chroot "" || negb (isdir E w chroot) then "" else chroot in
  let blkid :=
    match ct_blkid_tab self with
    | Some tab => Some tab
    | None => blkid_tab_or_None E w root
    end in
  read_file E w (root +:+ "/etc/crypttab") = Some text ->
  CryptTab_parse E w chroot self =
    (Return tt,
     mkCryptTab blkid (ct_chroot self)
       (fold_left
          (crypttab_line_spec
             (fun spec => resolve_device E w spec None blkid None))
          (PyStr.readlines text) (ct_mappings self))).
Proof.
  intros root blkid Hfile.
  unfold CryptTab_parse. fold root. rewrite Hfile.
  unfold bind, get. subst blkid.
  destruct (ct_blkid_tab self) as [tab|] eqn:Htab.
  - unfold ret. rewrite CryptTab_parse_lines_eq. by rewrite Htab.
  - unfold put. by rewrite CryptTab_parse_lines_eq.
Qed.

Lemma BlkidTab_parse_eq (E : Env) (w : World) (self : BlkidTab)
    (text : string) :
  read_file E w (bt_chroot self +:+ "/etc/blkid/blkid.tab") = Some text ->
  BlkidTab_parse E w self =
    (Return tt,
     mkBlkidTab (bt_chroot self)
       (fold_left blkid_line_spec (PyStr.readlines text) (bt_devices self))).
Proof.
  intros Hfile. unfold BlkidTab_parse, bind, get. rewrite Hfile.
  erewrite for_each_fold with
    (step := fun s line =>
               mkBlkidTab (bt_chroot s) (blkid_line_spec (bt_devices s) line));
    [|intros; apply BlkidTab_parse_line_eq].
  f_equal. generalize (PyStr.readlines text). intros lines. clear Hfile.
  revert self. induction lines as [|l lines IH]; intros self; simpl;
    [by destruct self|].
  by rewrite IH.
Qed.

(** X11: [CryptTab.parse] does not clear the mappings it holds: the
    mappings after the call are those of the file laid over those held
    before, a name of the file replacing the same name; hence parsing the
    same file a second time changes nothing. *)
Theorem CryptTab_parse_merges (E : Env) (w : World) (chroot : string)
    (self : CryptTab) (text : string) :
  let root :=
    if String.eqb chroot "" || negb (isdir E w chroot) then "" else chroot in
  read_file E w (root +:+ "/etc/crypttab") = Some text ->
  let once := (CryptTab_parse E w chroot self).2 in
  let fresh :=
    (CryptTab_parse E w chroot
       (mkCryptTab (ct_blkid_tab self) (ct_chroot self) ∅)).2 in
  ct_mappings once = ct_mappings fresh ∪ ct_mappings self
  /\ CryptTab_parse E w chroot once = (Return tt, once).
Proof.
  intros root Hfile once fresh. subst once fresh.
  rewrite (CryptTab_parse_eq E w chroot self text Hfile).
  rewrite (CryptTab_parse_eq E w chroot
             (mkCryptTab (ct_blkid_tab self) (ct_chroot self) ∅) text Hfile).
  fold root. cbn [snd ct_mappings ct_blkid_tab ct_chroot]. split.
  - apply fold_left_union. intros. apply crypttab_line_spec_union.
  - rewrite (CryptTab_parse_eq E w chroot _ text Hfile).
    fold root. cbn [ct_mappings ct_blkid_tab ct_chroot].
    destruct (ct_blkid_tab self) as [tab|] eqn:Htab.
    + f_equal. f_equal. apply fold_left_again. intros.
      apply crypttab_line_spec_union.
    + destruct (blkid_tab_or_None E w root) as [tab|] eqn:Hb.
      * f_equal. f_equal. apply fold_left_again. intros.
        apply crypttab_line_spec_union.
      * f_equal. f_equal. apply fold_left_again. intros.
        apply crypttab_line_spec_union.
Qed.

Lemma CryptTab_parse_merges_witness :
  let fresh := CryptTab_new None "" in
  let once := (CryptTab_parse Demo.crypttab_env Demo.one_disk "" fresh).2 in
  ct_mappings once !! "luks-1" = Some (mkMapInfo 0 "none" "none")
  /\ CryptTab_parse Demo.crypttab_env Demo.one_disk "" once = (Return tt, once).
Proof.
  intros fresh once. split; [vm_compute; reflexivity|].
  refine (proj2 (CryptTab_parse_merges Demo.crypttab_env Demo.one_disk ""
                   fresh Demo.crypttab_text _)).
  vm_compute. reflexivity.
Defined.

(** X12: [BlkidTab.parse] does not clear the devices it holds either: the
    devices after the call are those of the file laid over those held
    before, the attributes of a device of the file replacing (not extending)
    the ones held; parsing the same file a second time changes nothing. *)
Theorem BlkidTab_parse_merges (E : Env) (w : World) (self : BlkidTab)
    (text : string) :
  read_file E w (bt_chroot self +:+ "/etc/blkid/blkid.tab") = Some text ->
  let once := (BlkidTab_parse E w self).2 in
  let fresh := (BlkidTab_parse E w (BlkidTab_new (bt_chroot self))).2 in
  bt_devices once = bt_devices fresh ∪ bt_devices self
  /\ BlkidTab_parse E w once = (Return tt, once).
Proof.
  intros Hfile once fresh. subst once fresh.
  rewrite (BlkidTab_parse_eq E w self text Hfile).
  rewrite (BlkidTab_parse_eq E w (BlkidTab_new (bt_chroot self)) text Hfile).
  cbn [snd bt_devices bt_chroot BlkidTab_new]. split.
  - apply fold_left_union. intros. apply blkid_line_spec_union.
  - rewrite (BlkidTab_parse_eq E w (mkBlkidTab (bt_chroot self) _) text Hfile).
    cbn [bt_devices bt_chroot]. f_equal. f_equal.
    apply fold_left_again. intros. apply blkid_line_spec_union.
Qed.

Lemma BlkidTab_parse_merges_witness :
  let once := (BlkidTab_parse Demo.blkid_env Demo.no_devices
                 (BlkidTab_new "")).2 in
  BlkidTab_parse Demo.blkid_env Demo.no_devices once = (Return tt, once).
Proof.
  intros once.
  refine (proj2 (BlkidTab_parse_merges Demo.blkid_env Demo.no_devices
                   (BlkidTab_new "") Demo.blkid_text _)).
  vm_compute. reflexivity.
Defined.


(** ** The module-level [parse_fstab] *)

(** [s.split()] from the left: skip whitespace, take a word, go on. *)
Lemma split_cons (c : ascii) (s : string) :
  PyStr.split (String c s) =
  if PyStr.is_space c then PyStr.split s
  else String c (PyStr.split_go s).1 :: (PyStr.split_go s).2.
Proof.
  unfold PyStr.split. simpl. destruct (PyStr.split_go s) as [w ws].
  by destruct (PyStr.is_space c).
Qed.

Lemma split_go_span (s : string) :
  (PyStr.split_go s).1 = (PyStr.span_word s).1
  /\ (PyStr.split_go s).2 = PyStr.split (PyStr.span_word s).2.
Proof.
  induction s as [|c s [IH1 IH2]]; [done|].
  pose proof (split_cons c s) as Hc. cbn [PyStr.split_go PyStr.span_word].
  destruct (PyStr.is_space c) eqn:Hsp.
  - destruct (PyStr.split_go s) as [w ws] eqn:Hgo. cbn [fst snd].
    split; [done|]. rewrite Hc. unfold PyStr.split. by rewrite Hgo.
  - destruct (PyStr.split_go s) as [w ws].
    destruct (PyStr.span_word s) as [w' r]. simpl in *. by subst.
Qed.

Lemma split_unfold (s : string) :
  PyStr.split s =
  match PyStr.lstrip s with
  | EmptyString => []
  | String c s' =>
      (PyStr.span_word (String c s')).1
      :: PyStr.split (PyStr.span_word (String c s')).2
  end.
Proof.
  induction s as [|c s IH]; [done|].
  rewrite split_cons. simpl.
  destruct (PyStr.is_space c) eqn:Hsp; [done|].
  simpl. rewrite Hsp.
  destruct (split_go_span s) as [H1 H2].
  destruct (PyStr.span_word s) as [w r]. simpl in *. by rewrite H1, H2.
Qed.

(** [s.split(None, n)] against [s.split()]: the same first [n] words, and
    one more piece when there are more words. *)
Lemma split_max_split (n : nat) (s : string) :
  length (PyStr.split_max n s) = Nat.min (S n) (length (PyStr.split s))
  /\ take n (PyStr.split_max n s) = take n (PyStr.split s).
Proof.
  revert s. induction n as [|n IH]; intros s.
  - rewrite split_unfold. simpl.
    destruct (PyStr.lstrip s); simpl; by rewrite ?take_0.
  - rewrite split_unfold. cbn [PyStr.split_max].
    destruct (PyStr.lstrip s) as [|c s']; [done|].
    destruct (PyStr.span_word (String c s')) as [w r].
    destruct (IH r) as [Hlen Htake]. cbn [length take fst snd].
    rewrite Hlen, Htake. split; [|done]. apply Nat.succ_min_distr.
Qed.


Lemma scan_fstab_line_eq (E : Env) (w : World)
    (crypt_tab : option CryptTab) (blkid_tab : option BlkidTab)
    (acc : MountsAndSwaps) (line : string) :
  scan_fstab_line E w crypt_tab blkid_tab acc line =
  Return
    match fstab_fields line with
    | devspec :: mountpoint :: fstype :: options :: _ :: _ =>
        match resolve_device E w devspec crypt_tab blkid_tab (Some options) with
        | Some device =>
            if String.eqb fstype "swap" then (acc.1, acc.2 ++ [device])
            else (dict_set mountpoint device acc.1, acc.2)
        | None => acc
        end
    | _ => acc
    end.
Proof.
  unfold scan_fstab_line, fstab_fields, before_comment.
  destruct acc as [mounts swaps].
  destruct (PyStr.partition "#" line) as [[l p] c]. cbn [fst snd].
  destruct (split_max_split 4 l) as [Hlen Htake].
  destruct (PyStr.split l) as [|f1 [|f2 [|f3 [|f4 [|f5 fs]]]]];
    cbn [length Nat.min] in Hlen.
  1-5: by rewrite Hlen.
  rewrite Hlen. cbn [Nat.ltb Nat.leb].
  destruct (PyStr.split_max 4 l) as [|g1 [|g2 [|g3 [|g4 [|g5 [|g6 gs]]]]]];
    try discriminate Hlen.
  cbn [take] in Htake. simplify_eq.
  destruct (resolve_device E w f1 crypt_tab blkid_tab (Some f4)); [|done].
  by destruct (String.eqb f3 "swap").
Qed.

(** X13: the module-level [parse_fstab] reads a line exactly when the text
    before its first [#] has five or more whitespace-separated fields (so an
    entry of four fields, which [FSSet.parse_fstab] accepts, is skipped, and
    the unpacking of the fields never raises); of such a line it takes the
    first four fields, and when the device resolves it appends the device to
    the swap list if the type is [swap] and enters it into the mount
    dictionary under the mountpoint otherwise. *)
Theorem scan_fstab_line_reads (E : Env) (w : World)
    (crypt_tab : option CryptTab) (blkid_tab : option BlkidTab)
    (acc : MountsAndSwaps) (line : string) :
  scan_fstab_line E w crypt_tab blkid_tab acc line =
  Return
    match fstab_fields line with
    | devspec :: mountpoint :: fstype :: options :: _ :: _ =>
        match resolve_device E w devspec crypt_tab blkid_tab (Some options) with
        | Some device =>
            if String.eqb fstype "swap" then (acc.1, acc.2 ++ [device])
            else (dict_set mountpoint device acc.1, acc.2)
        | None => acc
        end
    | _ => acc
    end.
Proof. apply scan_fstab_line_eq. Qed.


(** A dictionary filled by assignments in the order of [ps]. *)
Lemma NoDup_keys_functional {B} (m : list (string * B)) (k : string)
    (v v' : B) :
  NoDup m.*1 -> (k, v) ∈ m -> (k, v') ∈ m -> v = v'.
Proof.
  induction m as [|[k0 v0] m IH]; simpl; [by intros _ ?%elem_of_nil|].
  intros [Hnotin Hnd]%NoDup_cons [H1|H1]%elem_of_cons [H2|H2]%elem_of_cons.
  - by simplify_eq.
  - simplify_eq. destruct Hnotin. apply list_elem_of_fmap. by exists (k0, v').
  - simplify_eq. destruct Hnotin. apply list_elem_of_fmap. by exists (k0, v).
  - auto.
Qed.

Lemma dict_fold_spec (ps : list (string * dev_id)) :
  let m := fold_left (fun m kv => dict_set kv.1 kv.2 m) ps [] in
  NoDup m.*1
  /\ forall k v, (k, v) ∈ m <->
       exists p1 p2, ps = p1 ++ (k, v) :: p2 /\ k ∉ p2.*1.
Proof.
  induction ps as [|[k0 v0] ps [IHnd IH]] using rev_ind; simpl.
  { split; [constructor|]. intros k v. split.
    - by intros ?%elem_of_nil.
    - intros (p1 & p2 & Heq & _). by destruct p1. }
  rewrite fold_left_app. simpl.
  set (m := fold_left (fun m kv => dict_set kv.1 kv.2 m) ps []) in *.
  assert (NoDup (dict_set k0 v0 m).*1) as Hnd by by apply dict_set_keys.
  split; [done|]. intros k v. split.
  - intros Hin.
    destruct (decide (k = k0)) as [->|Hne].
    + assert (v = v0) as ->.
      { eapply NoDup_keys_functional; [exact Hnd|exact Hin|].
        apply dict_set_new. }
      exists ps, []. split; [done|]. simpl. apply not_elem_of_nil.
    + apply dict_set_elem in Hin as [[-> _]|Hin]; [done|].
      apply IH in Hin as (p1 & p2 & -> & Hnot).
      exists p1, (p2 ++ [(k0, v0)]). split; [by rewrite <- app_assoc|].
      rewrite fmap_app. simpl. intros [H|H]%elem_of_app; [done|].
      apply list_elem_of_singleton in H. done.
  - intros (p1 & p2 & Heq & Hnot).
    destruct p2 as [|x p2 _] using rev_ind.
    + apply app_inj_tail in Heq as [_ Heq]. simplify_eq. apply dict_set_new.
    + rewrite app_comm_cons, app_assoc in Heq.
      apply app_inj_tail in Heq as [Hps <-].
      rewrite fmap_app in Hnot. simpl in Hnot.
      apply dict_set_other.
      * intros ->. apply Hnot. apply elem_of_app. right.
        by apply list_elem_of_singleton.
      * apply IH. exists p1, p2. split; [done|]. intros H. apply Hnot.
        apply elem_of_app. by left.
Qed.

Lemma scan_fstab_lines_eq (E : Env) (w : World) (crypt_tab : option CryptTab)
    (blkid_tab : option BlkidTab) (lines : list string) (acc : MountsAndSwaps) :
  scan_fstab_lines E w crypt_tab blkid_tab lines acc =
  Return
    (fold_left (fun m kv => dict_set kv.1 kv.2 m)
       (omap (scanned_mount E w crypt_tab blkid_tab) lines) acc.1,
     acc.2 ++ omap (scanned_swap E w crypt_tab blkid_tab) lines).
Proof.
  revert acc. induction lines as [|line lines IH]; intros [mounts swaps].
  { simpl. by rewrite app_nil_r. }
  cbn [scan_fstab_lines]. rewrite scan_fstab_line_eq. cbn [fst snd].
  change (omap ?f (line :: lines))
    with (match f line with
          | Some y => y :: omap f lines
          | None => omap f lines
          end).
  unfold scanned_mount at 1, scanned_swap at 1, scanned_entry.
  destruct (fstab_fields line) as [|f1 [|f2 [|f3 [|f4 [|f5 fs]]]]];
    try apply IH.
  destruct (resolve_device E w f1 crypt_tab blkid_tab (Some f4)); [|apply IH].
  destruct (String.eqb f3 "swap"); rewrite IH; simpl; [|done].
  by rewrite <- app_assoc.
Qed.

(** X14: on a readable [/etc/fstab] the module-level [parse_fstab] returns,
    whatever the lines hold.  The swap list holds the devices of the swap
    entries in the order of the file, a device once for each of its
    entries; the mount dictionary has one key for each mountpoint of an
    entry that is not swap, and the key maps to the device of the last such
    entry in the file. *)
Theorem module_parse_fstab_result (E : Env) (w : World)
    (chroot : option string) (text : string) :
  let root := fstab_root E chroot w in
  let blkid_tab := blkid_tab_or_None E w root in
  let crypt_tab :=
    match CryptTab_parse E w root (CryptTab_new blkid_tab root) with
    | (Return _, tab) => Some tab
    | _ => None
    end in
  let lines := PyStr.readlines text in
  let entries := omap (scanned_mount E w crypt_tab blkid_tab) lines in
  access_r E w (root +:+ "/etc/fstab") = true ->
  read_file E w (root +:+ "/etc/fstab") = Some text ->
  exists mounts,
    module_parse_fstab E w chroot
    = Return (mounts, omap (scanned_swap E w crypt_tab blkid_tab) lines)
    /\ NoDup mounts.*1
    /\ forall mp d,
         (mp, d) ∈ mounts <->
         exists e1 e2, entries = e1 ++ (mp, d) :: e2 /\ mp ∉ e2.*1.
Proof.
  intros root blkid_tab crypt_tab lines entries Haccess Hfile.
  unfold module_parse_fstab. fold (fstab_root E chroot w). fold root.
  rewrite Haccess, Hfile. cbn [negb]. fold blkid_tab. fold crypt_tab.
  rewrite scan_fstab_lines_eq. cbn [fst snd app]. fold lines. fold entries.
  eexists. split; [reflexivity|]. apply dict_fold_spec.
Qed.


Lemma module_parse_fstab_result_witness :
  exists mounts,
    module_parse_fstab Demo.nfs_fstab_env Demo.root_disk None
    = Return (mounts, [])
    /\ NoDup mounts.*1.
Proof.
  destruct (module_parse_fstab_result Demo.nfs_fstab_env Demo.root_disk None
              (Demo.nfs_line +:+ Demo.root_line +:+ Demo.proc_line))
    as (mounts & H1 & H2 & _); [vm_compute; reflexivity..|].
  exists mounts. split; [|exact H2].
  rewrite H1. vm_compute. reflexivity.
Defined.

(** The root entry is read, the NFS entry and [/proc] do not resolve. *)
Example module_parse_fstab_demo :
  module_parse_fstab Demo.nfs_fstab_env Demo.root_disk None
  = Return ([("/", 0)], []).
Proof. vm_compute. reflexivity. Qed.


(** ** [FSSet.root_device] and [FSSet.mdadm_conf] *)

Lemma root_device_scan_some (w : World) (path : string) (l : list dev_id)
    (d : dev_id) :
  StronglySorted
    (fun a b => String.le (d_path (objs w a)) (d_path (objs w b))) l ->
  root_device_scan w path l = Some d ->
  d ∈ l /\ mountpoint_or_None (fmt_of w d) = Some path
  /\ forall d', d' ∈ l -> mountpoint_or_None (fmt_of w d') = Some path ->
       String.le (d_path (objs w d)) (d_path (objs w d')).
Proof.
  induction l as [|x l IH]; simpl; [done|].
  intros [Hsorted Hall]%StronglySorted_inv.
  destruct (bool_decide (mountpoint_or_None (fmt_of w x) = Some path)) eqn:Hx.
  - intros [= ->]. apply bool_decide_eq_true_1 in Hx.
    split; [apply elem_of_cons; by left|]. split; [done|].
    intros d' [->|Hin]%elem_of_cons _; [done|].
    by apply (proj1 (Forall_forall _ _) Hall).
  - intros Hscan. apply bool_decide_eq_false_1 in Hx.
    destruct (IH Hsorted Hscan) as (Hin & Hmp & Hmin).
    split; [apply elem_of_cons; by right|]. split; [done|].
    intros d' [->|Hin']%elem_of_cons Hd'; [done|auto].
Qed.

Lemma root_device_scan_none (w : World) (path : string) (l : list dev_id) :
  root_device_scan w path l = None ->
  forall d, d ∈ l -> mountpoint_or_None (fmt_of w d) <> Some path.
Proof.
  induction l as [|x l IH]; simpl; [by intros _ d ?%elem_of_nil|].
  destruct (bool_decide (mountpoint_or_None (fmt_of w x) = Some path)) eqn:Hx;
    [done|].
  apply bool_decide_eq_false_1 in Hx.
  intros Hscan d [->|Hin]%elem_of_cons; [done|auto].
Qed.

(** X15: [root_device] is a device of the tree whose format has the
    mountpoint [/], or, only when no device of the tree has that mountpoint,
    the target root; among the devices with the same mountpoint it is one
    whose path sorts first.  It is [None] exactly when no device has either
    mountpoint.  (The format need not be mountable.) *)
Theorem root_device_correct (E : Env) (w : World) :
  match root_device E w with
  | Some d =>
      d ∈ tree w
      /\ exists path,
           mountpoint_or_None (fmt_of w d) = Some path
           /\ (path = "/"
               \/ (path = get_target_physical_root E
                   /\ forall d', d' ∈ tree w ->
                        mountpoint_or_None (fmt_of w d') <> Some "/"))
           /\ forall d', d' ∈ tree w ->
                mountpoint_or_None (fmt_of w d') = Some path ->
                String.le (d_path (objs w d)) (d_path (objs w d'))
  | None =>
      forall d, d ∈ tree w ->
        mountpoint_or_None (fmt_of w d) <> Some "/"
        /\ mountpoint_or_None (fmt_of w d) <> Some (get_target_physical_root E)
  end.
Proof.
  unfold root_device. simpl.
  assert (forall d, d ∈ devices w <-> d ∈ tree w) as Hdev.
  { intros d. unfold devices. by rewrite sort_by_perm. }
  assert (StronglySorted
            (fun a b => String.le (d_path (objs w a)) (d_path (objs w b)))
            (devices w)) as Hsorted by apply sort_by_sorted.
  destruct (root_device_scan w "/" (devices w)) as [d|] eqn:Hroot.
  { destruct (root_device_scan_some _ _ _ _ Hsorted Hroot) as (Hin & Hmp & Hmin).
    split; [by apply Hdev|]. exists "/". split; [done|]. split; [by left|].
    intros d' Hd'. apply Hmin. by apply Hdev. }
  pose proof (root_device_scan_none _ _ _ Hroot) as Hnone.
  destruct (root_device_scan w (get_target_physical_root E) (devices w))
    as [d|] eqn:Htarget.
  { destruct (root_device_scan_some _ _ _ _ Hsorted Htarget)
      as (Hin & Hmp & Hmin).
    split; [by apply Hdev|]. exists (get_target_physical_root E).
    split; [done|]. split.
    - right. split; [done|]. intros d' Hd'. apply Hnone. by apply Hdev.
    - intros d' Hd'. apply Hmin. by apply Hdev. }
  pose proof (root_device_scan_none _ _ _ Htarget) as Hnone'.
  intros d Hd. split; [apply Hnone|apply Hnone']; by apply Hdev.
Qed.

Lemma List_filter_sublist {A} (f : A -> bool) (l : list A) :
  List.filter f l `sublist_of` l.
Proof.
  induction l as [|x l IH]; simpl; [done|].
  destruct (f x); [by apply sublist_skip|by apply sublist_cons].
Qed.

(** Sorting a sorted list again gives the list. *)
Lemma sort_by_sorted_id {A} (key : A -> string) (l : list A) :
  StronglySorted (fun a b => String.le (key a) (key b)) l ->
  sort_by key l = l.
Proof.
  induction 1 as [|x l Hsorted IH Hall]; simpl; [done|].
  rewrite IH. destruct l as [|y l]; simpl; [done|].
  apply Forall_cons in Hall as [Hxy _].
  apply (proj1 (key_le_leb key x y)) in Hxy. by rewrite Hxy.
Qed.

Lemma fold_append_filter {X} (needed : X -> bool) (entry : X -> string)
    (l : list X) (conf : string) :
  fold_left (fun conf x => if needed x then conf +:+ entry x else conf) l conf
  = conf +:+ PyStr.join (map entry (List.filter needed l)).
Proof.
  revert conf. induction l as [|x l IH]; intros conf; simpl.
  - unfold PyStr.join. simpl.
    induction conf as [|c conf IHc]; [done|].
    change (String c conf = String c (conf +:+ "")). by f_equal.
  - rewrite IH. destruct (needed x); [|done]. simpl.
    by rewrite <- append_assoc.
Qed.

(** X16: [mdadm_conf] is the empty string exactly when the tree holds no
    MD array, and then it is empty even where [mountpoints] would raise;
    otherwise it is the three header lines followed by the entries of the
    arrays that a mounted or swap device is or depends on, each once, in
    the order of their paths, with or without any such array. *)
Theorem mdadm_conf_correct (E : Env)
    (mdadm_conf_entry : World -> dev_id -> string) (w : World) :
  let arrays :=
    List.filter (fun d => isinstance_MDRaidArrayDevice (d_class (objs w d)))
      (devices w) in
  (arrays = [] -> mdadm_conf E mdadm_conf_entry w = Return "")
  /\ (forall conf,
        mdadm_conf E mdadm_conf_entry w = Return conf ->
        (conf = "" <-> arrays = []))
  /\ (forall filesystems,
        arrays <> [] -> mountpoints w = Return filesystems ->
        mdadm_conf E mdadm_conf_entry w =
        Return
          (mdadm_conf_header
           +:+ PyStr.join
                 (map (mdadm_conf_entry w)
                    (List.filter
                       (array_in_use E w
                          (map snd filesystems ++ swap_devices w))
                       arrays)))).
Proof.
  intros arrays. unfold mdadm_conf. fold arrays.
  assert (sort_by (fun d => d_path (objs w d)) arrays = arrays) as ->.
  { apply sort_by_sorted_id. subst arrays.
    eapply StronglySorted_sublist; [|apply sort_by_sorted].
    apply List_filter_sublist. }
  split; [by intros ->|]. split.
  - intros conf. destruct arrays as [|a arrays']; [by intros [= <-]|].
    destruct (mountpoints w) as [fs|e|]; [|done..].
    intros [= <-]. rewrite fold_append_filter. split; [|done].
    intros Hconf. exfalso.
    destruct (array_in_use _ _ _ _) in Hconf; vm_compute in Hconf;
      discriminate Hconf.
  - intros fs Hne Hfs. destruct arrays as [|a arrays']; [done|].
    rewrite Hfs. by rewrite fold_append_filter.
Qed.


Lemma mdadm_conf_correct_witness :
  mdadm_conf (Demo.env Demo.quiet) Demo.md_entry Demo.md_root
  = Return (mdadm_conf_header +:+ "ARRAY /dev/md0" +:+ Demo.nl).
Proof.
  rewrite (proj2 (proj2 (mdadm_conf_correct (Demo.env Demo.quiet) Demo.md_entry
                           Demo.md_root)) [("/", 0)]);
    [vm_compute; reflexivity|vm_compute; discriminate|vm_compute; reflexivity].
Defined.


(** ** [release_from_redhat_release] *)














Example release_from_redhat_release_demo :
  release_from_redhat_release Demo.release_env Demo.no_devices
    "/mnt/sysimage/etc/redhat-release"
  = Return (Some "Red Hat Linux", Some "6.2").
Proof. vm_compute. reflexivity. Qed.


(** ** [FSSet.create_swap_file] *)

(** X18: [create_swap_file] adds the new swap file to the tree only as its
    last step: when the call returns, the file was created, set up,
    formatted and activated, in this order, and then added at the end of
    the tree with the given device as its parent; when the call raises, at
    whatever step, the tree is as it was.  The [FSSet] itself is not
    touched. *)
Theorem create_swap_file_registers (E : Env) (fuel : nat) (device : dev_id)
    (size : Z) (st : State) :
  let r := create_swap_file E fuel device size st in
  let dev := next_id (world st) in
  self r.2 = self st
  /\ match r.1 with
     | Return _ =>
         tree (world r.2) = tree (world st) ++ [dev]
         /\ trace (world r.2)
            = trace (world st)
              ++ [EvCreate dev; EvSetup dev; EvFormatCreate dev;
                  EvFormatSetup dev None; EvAddDevice dev]
         /\ d_parents (objs (world r.2) dev) = [device]
         /\ fmt_of (world r.2) dev
            = get_format E "swap" (Some (d_name (objs (world r.2) dev))) None
                false
     | _ => tree (world r.2) = tree (world st)
     end.
Proof.
  intros r dev. subst r.
  destruct (format_mountpoint (fmt_of (world st) device)) as [mp|e|] eqn:Hmp.
  2:{ assert (create_swap_file E fuel device size st = (Raise e, st)) as ->;
        [|done].
      unfold create_swap_file. unfold bind at 1, get at 1.
      unfold bind at 1, lift at 1. by rewrite Hmp. }
  2:{ assert (create_swap_file E fuel device size st = (OutOfFuel, st)) as ->;
        [|done].
      unfold create_swap_file. unfold bind at 1, get at 1.
      unfold bind at 1, lift at 1. by rewrite Hmp. }
  destruct (find_swap_filename E fuel (world st)
              (normpath E (get_target_physical_root E +:+ "/" +:+ py_str mp))
              0 "/SWAP") as [filename|] eqn:Hfind.
  2:{ assert (create_swap_file E fuel device size st = (OutOfFuel, st)) as ->;
        [|done].
      unfold create_swap_file. unfold bind at 1, get at 1.
      unfold bind at 1, lift at 1. rewrite Hmp. cbv beta iota.
      by rewrite Hfind. }
  rewrite (create_swap_file_eq E fuel device size st mp filename Hmp Hfind).
  cbv zeta. fold dev.
  unfold bind, in_world, perform, new_device. cbn [world self fst snd].
  repeat (match goal with
          | |- context [op_raises E ?w ?ev] => destruct (op_raises E w ev)
          end; cbn [world self fst snd]).
  all: split; [reflexivity|]; cbn; try reflexivity.
  subst dev. unfold fmt_of. cbn. rewrite !Nat.eqb_refl. cbn.
  rewrite <- !app_assoc. repeat split; reflexivity.
Qed.


(** ** Reading back a generated line *)

Lemma plain_uint (d : Decimal.uint) :
  plain (NilEmpty.string_of_uint d) = true.
Proof.
  induction d; cbn [plain NilEmpty.string_of_uint]; rewrite ?IHd; reflexivity.
Qed.

Lemma is_word_uint (d : Decimal.uint) :
  is_word (NilZero.string_of_uint d) = true.
Proof.
  pose proof (plain_uint d) as H.
  destruct d; try reflexivity; exact H.
Qed.

Lemma is_word_fmt_nat (n : nat) : is_word (PyStr.fmt_nat n) = true.
Proof. apply is_word_uint. Qed.

Lemma is_word_fmt_Z (z : Z) : is_word (PyStr.fmt_Z z) = true.
Proof.
  unfold PyStr.fmt_Z, NilZero.string_of_int.
  destruct (Z.to_int z) as [d|d]; [apply is_word_uint|].
  pose proof (is_word_uint d) as H.
  destruct (NilZero.string_of_uint d) as [|c s]; [done|].
  cbn [is_word plain] in *. by rewrite H.
Qed.

Lemma is_word_plain (s : string) : is_word s = true -> plain s = true.
Proof. by destruct s. Qed.

Lemma span_word_app (w r : string) (c : ascii) :
  plain w = true -> PyStr.is_space c = true ->
  PyStr.span_word (w +:+ String c r) = (w, String c r).
Proof.
  intros Hw Hc. induction w as [|a w IH].
  - change ("" +:+ String c r) with (String c r). simpl. by rewrite Hc.
  - change (String a w +:+ String c r) with (String a (w +:+ String c r)).
    cbn [plain] in Hw. apply andb_true_iff in Hw as [Ha Hw].
    apply andb_true_iff in Ha as [Ha _]. apply negb_true_iff in Ha.
    cbn [PyStr.span_word]. rewrite Ha, (IH Hw). done.
Qed.

Lemma split_word (w r : string) (c : ascii) :
  is_word w = true -> PyStr.is_space c = true ->
  PyStr.split (w +:+ String c r) = w :: PyStr.split r.
Proof.
  intros Hw Hc. rewrite split_unfold.
  destruct w as [|a w]; [done|]. cbn [is_word] in Hw.
  pose proof (span_word_app (String a w) r c Hw Hc) as Hspan.
  change (String a w +:+ String c r) with (String a (w +:+ String c r)) in *.
  cbn [plain] in Hw. apply andb_true_iff in Hw as [Ha _].
  apply andb_true_iff in Ha as [Ha _]. apply negb_true_iff in Ha.
  cbn [PyStr.lstrip]. rewrite Ha, Hspan. cbn [fst snd].
  by rewrite split_cons, Hc.
Qed.

Lemma split_spaces (k : nat) (r : string) :
  PyStr.split (PyStr.spaces k +:+ r) = PyStr.split r.
Proof.
  induction k as [|k IH]; [done|].
  change (PyStr.spaces (S k) +:+ r) with (String " " (PyStr.spaces k +:+ r)).
  by rewrite split_cons.
Qed.

Lemma split_ljust (n : nat) (a rest : string) :
  is_word a = true ->
  PyStr.split (PyStr.ljust n a +:+ " " +:+ rest) = a :: PyStr.split rest.
Proof.
  intros Ha. unfold PyStr.ljust. rewrite append_assoc.
  destruct (n - String.length a) as [|k].
  - change (PyStr.spaces 0 +:+ " " +:+ rest) with (String " " rest).
    by rewrite split_word.
  - change (PyStr.spaces (S k) +:+ " " +:+ rest)
      with (String " " (PyStr.spaces k +:+ String " " rest)).
    rewrite split_word by done. rewrite split_spaces. by rewrite split_cons.
Qed.

Lemma count_char_app (c : ascii) (a b : string) :
  count_char c (a +:+ b) = count_char c a + count_char c b.
Proof.
  induction a as [|x a IH]; [done|].
  change (String x a +:+ b) with (String x (a +:+ b)). simpl. rewrite IH. lia.
Qed.

Lemma plain_no_hash (s : string) : plain s = true -> count_char "#" s = 0.
Proof.
  induction s as [|c s IH]; [done|]. cbn [plain count_char].
  intros [[_ Hc]%andb_true_iff Hs]%andb_true_iff.
  apply negb_true_iff in Hc. rewrite Hc, (IH Hs). done.
Qed.

Lemma spaces_no_hash (k : nat) : count_char "#" (PyStr.spaces k) = 0.
Proof. induction k as [|k IH]; [done|]. simpl. exact IH. Qed.

Lemma ljust_no_hash (n : nat) (s : string) :
  plain s = true -> count_char "#" (PyStr.ljust n s) = 0.
Proof.
  intros Hs. unfold PyStr.ljust.
  by rewrite count_char_app, plain_no_hash, spaces_no_hash.
Qed.

(** X19: a line that [fstab()] writes reads back as the entry it was
    written from: when device, mountpoint, type and options are not empty
    and hold neither whitespace nor [#], [parse_fstab] finds six fields in
    the line, the four columns followed by dump and pass number, and takes
    the line as an entry. *)
Theorem fstab_line_reads_back (e : FstabEntry) :
  is_word (e_devspec e) = true -> is_word (e_mountpoint e) = true ->
  is_word (e_fstype e) = true -> is_word (e_options e) = true ->
  fstab_fields (fmt_str e)
  = [e_devspec e; e_mountpoint e; e_fstype e; e_options e;
     PyStr.fmt_Z (e_dump e); PyStr.fmt_nat (e_passno e)]
  /\ is_entry (fmt_str e) = true
  /\ before_comment (fmt_str e) = fmt_str e.
Proof.
  intros Hd Hm Ht Ho.
  assert (before_comment (fmt_str e) = fmt_str e) as Hclean.
  { apply before_comment_no_comment. unfold no_comment. apply Nat.eqb_eq.
    unfold fmt_str.
    rewrite !count_char_app, !ljust_no_hash by by apply is_word_plain.
    rewrite (plain_no_hash (PyStr.fmt_Z _))
      by apply is_word_plain, is_word_fmt_Z.
    rewrite (plain_no_hash (PyStr.fmt_nat _))
      by apply is_word_plain, is_word_fmt_nat.
    reflexivity. }
  assert (fstab_fields (fmt_str e)
          = [e_devspec e; e_mountpoint e; e_fstype e; e_options e;
             PyStr.fmt_Z (e_dump e); PyStr.fmt_nat (e_passno e)]) as Hfields.
  { unfold fstab_fields. rewrite Hclean. unfold fmt_str.
    rewrite !split_ljust by done.
    change (" " +:+ ?r) with (String " " r).
    rewrite split_word; [|apply is_word_fmt_Z|reflexivity].
    rewrite split_word; [|apply is_word_fmt_nat|reflexivity].
    reflexivity. }
  split; [done|]. split; [|done].
  unfold is_entry. by rewrite Hfields.
Qed.

Lemma fstab_line_reads_back_witness :
  let e := mkFstabEntry "" "/dev/sda2" "/" "ext4" "defaults" 1 1 in
  fstab_fields (fmt_str e) = ["/dev/sda2"; "/"; "ext4"; "defaults"; "1"; "1"].
Proof.
  intros e. exact (proj1 (fstab_line_reads_back e eq_refl eq_refl eq_refl
                            eq_refl)).
Defined.


(** ** The swap devices of [fstab()] *)

Lemma List_filter_elem {A} (f : A -> bool) (l : list A) (x : A) :
  x ∈ List.filter f l <-> x ∈ l /\ f x = true.
Proof. rewrite !list_elem_of_In. apply filter_In. Qed.

(** X20: among the devices that [fstab()] writes, a device whose format is
    not mountable is there exactly when it is a swap device of the tree
    and, in installer mode, was registered by [add_fstab_swap] or
    [set_fstab_swaps] (and not removed since); outside installer mode every
    swap device is written. *)
Theorem fstab_swaps_registered (E : Env) (fs : FSSet) (w : World)
    (devs : list dev_id) (d : dev_id) :
  fstab_devices E fs w = Return devs ->
  f_mountable (fmt_of w d) = false ->
  (d ∈ devs <->
   d ∈ swap_devices w /\ (installer_mode E = true -> d ∈ _fstab_swaps fs)).
Proof.
  unfold fstab_devices. intros Hdevs Hmountable.
  destruct (mountpoints w) as [filesystems|e|] eqn:Hfs; [|done..].
  destruct (forallb _ _); [|done].
  destruct (sort_by_opt _ _) as [sorted|e|] eqn:Hsort; [|done..].
  simplify_eq.
  assert (d ∉ sorted) as Hnot.
  { intros Hin.
    assert (sorted ≡ₚ map snd filesystems) as Hperm.
    { unfold sort_by_opt in Hsort. case_match; [done|]. simplify_eq.
      apply sort_by_perm. }
    rewrite Hperm in Hin.
    apply list_elem_of_fmap in Hin as ([mp d'] & -> & Hin).
    unfold mountpoints in Hfs.
    destruct (mountpoints_loop_sound _ _ _ _ _ _ Hfs Hin) as [Hnil|[_ Hc]].
    - by apply elem_of_nil in Hnil.
    - destruct Hc as [Hm _]. simpl in Hmountable. congruence. }
  rewrite elem_of_app. destruct (installer_mode E).
  - rewrite List_filter_elem, bool_decide_eq_true. split.
    + intros [?|[? ?]]; [done|]. auto.
    + intros [? Hreg]. right. auto.
  - split.
    + intros [?|?]; [done|]. split; [done|]. intros ?; discriminate.
    + intros [? _]. by right.
Qed.

Lemma fstab_swaps_registered_witness :
  let w := Demo.world_of [Demo.disk "sda2" (Demo.format "ext4" None (Some "/") true);
                          Demo.disk "sda3" (Demo.format "swap" None None true)] in
  let E := Demo.env Demo.quiet in
  fstab_devices E FSSet_new w = Return [0]
  /\ fstab_devices E (add_fstab_swap 1 FSSet_new) w = Return [0; 1]
  /\ 1 ∈ swap_devices w.
Proof.
  intros w E.
  assert (fstab_devices E (add_fstab_swap 1 FSSet_new) w = Return [0; 1])
    as H by (vm_compute; reflexivity).
  split; [vm_compute; reflexivity|]. split; [exact H|].
  apply (proj1 (fstab_swaps_registered E (add_fstab_swap 1 FSSet_new) w
                  [0; 1] 1 H eq_refl)).
  apply elem_of_cons. right. apply elem_of_cons. by left.
Defined.


(** ** The lazy properties of [FSSet] *)

(** X21: a lazy property of [FSSet] ([dev], [proc], [sysfs], ...) always
    returns a device; the device is created at the first access and kept:
    a second access returns the same device and changes nothing.  The
    access performs no operation, leaves the tree as it is (the device is
    not added to it) and leaves the other lazy properties as they are. *)
Theorem lazy_property_cached (E : Env) (v : VirtualFS) (st : State) :
  let r := virtual_device E v st in
  exists i,
    r.1 = Return i
    /\ virtual_device E v r.2 = (Return i, r.2)
    /\ tree (world r.2) = tree (world st)
    /\ trace (world r.2) = trace (world st)
    /\ (forall u, u <> v -> virtual (self r.2) u = virtual (self st) u)
    /\ match virtual (self st) v with
       | Some j => i = j /\ r.2 = st
       | None => i = next_id (world st)
       end.
Proof.
  intros r. subst r.
  destruct (virtual_device_sets E v st) as [(i & Hret & Hset) _].
  exists i. split; [done|].
  split; [by apply virtual_device_cached|].
  revert Hret Hset.
  unfold virtual_device, bind, get, in_world, modify_self, modify, ret.
  destruct (virtual (self st) v) as [j|] eqn:Hv; simpl.
  { intros [= ->] _. done. }
  assert (exists w', virtual_new E v (world st) = (Return (next_id (world st)), w')
                     /\ tree w' = tree (world st)
                     /\ trace w' = trace (world st))
    as (w' & Hnew & Htree & Htrace).
  { unfold virtual_new, NoDevice_new, new_device. destruct v; eauto. }
  rewrite Hnew. simpl. intros [= <-] _.
  split; [done|]. split; [done|]. split.
  - intros u Hu. destruct (VirtualFS_eqb u v) eqn:Huv; [|done].
    by apply VirtualFS_eqb_eq in Huv.
  - done.
Qed.


(** ** [CryptTab.populate] *)







(** ** The two loops when no operation raises *)

Section LoopRuns.

Context (body : dev_id -> M State unit) (Pre : State -> dev_id -> Prop)
  (evs_of : Format -> dev_id -> list Event).
Hypothesis Hpre :
  forall st st' d,
    self st' = self st -> formats_kept (world st) (world st') ->
    Pre st d -> Pre st' d.
Hypothesis Hrun :
  forall d st, Pre st d ->
    exists st', body d st = (Return tt, st')
                /\ self st' = self st
                /\ formats_kept (world st) (world st')
                /\ trace (world st')
                   = trace (world st) ++ evs_of (fmt_of (world st) d) d.

(** A loop whose body returns on every device and keeps the formats. *)
Lemma for_each_runs (ds : list dev_id) (st : State) :
  (forall d, d ∈ ds -> Pre st d) ->
  exists st',
    for_each ds body st = (Return tt, st')
    /\ self st' = self st
    /\ formats_kept (world st) (world st')
    /\ trace (world st')
       = trace (world st)
         ++ flat_map (fun d => evs_of (fmt_of (world st) d) d) ds.
Proof.
  revert st. induction ds as [|d ds IH]; intros st Hall.
  { exists st. simpl. by rewrite app_nil_r. }
  destruct (Hrun d st) as (st1 & Hbody & Hself1 & Hk1 & Ht1).
  { apply Hall. apply elem_of_cons. by left. }
  destruct (IH st1) as (st2 & Hloop & Hself2 & Hk2 & Ht2).
  { intros d' Hd'. apply (Hpre st st1); [done..|].
    apply Hall. apply elem_of_cons. by right. }
  exists st2. simpl. unfold bind. rewrite Hbody, Hloop.
  split; [done|]. split; [congruence|]. split; [by etrans|].
  rewrite Ht2, Ht1, <- app_assoc. f_equal. f_equal.
  apply flat_map_ext. intros a. unfold fmt_of. by rewrite (Hk1 a).
Qed.

End LoopRuns.

Lemma flat_map_filter {A B} (p : A -> bool) (f : A -> B) (l : list A) :
  flat_map (fun x => if p x then [f x] else []) l = map f (List.filter p l).
Proof.
  induction l as [|x l IH]; simpl; [done|].
  destruct (p x); simpl; by rewrite IH.
Qed.

Lemma umount_device_runs (E : Env) (swapoff : bool) (d : dev_id) (st : State) :
  (forall w d, op_raises E w (EvFormatTeardown d) = None) ->
  exists st',
    umount_device E swapoff d st = (Return tt, st')
    /\ self st' = self st
    /\ formats_kept (world st) (world st')
    /\ trace (world st')
       = trace (world st) ++ umount_events swapoff (fmt_of (world st) d) d.
Proof.
  intros Hraise. unfold umount_device, umount_events, umount_applies.
  unfold bind at 1, get at 1. cbv zeta.
  destruct (f_mountable (fmt_of (world st) d)); cbn [negb orb andb].
  2:{ exists st. simpl. by rewrite app_nil_r. }
  destruct (bool_decide (f_type (fmt_of (world st) d) = Some "swap")
            && negb swapoff); cbn [negb].
  { exists st. simpl. by rewrite app_nil_r. }
  unfold in_world. rewrite perform_ok by apply Hraise.
  eexists. split; [reflexivity|]. simpl. done.
Qed.

(** What the unmount loop walks, seen from [umount_filesystems]. *)
Lemma umount_order_run (E : Env) (swapoff : bool) (st st1 : State)
    (plan : list dev_id) :
  umount_order E st = (Return plan, st1) ->
  trace (world st1) = trace (world st)
  /\ umount_filesystems E swapoff st
     = (for_each plan (umount_device E swapoff)
        ;;; modify_self (set_active false)) st1.
Proof.
  unfold umount_order, umount_filesystems.
  pose proof (gather_devices_silent (fun _ => Some 0) E umount_extras st) as Hg.
  destruct (gather_devices E umount_extras st) as [[l|e|] st0] eqn:Hgather;
    simpl in Hg; destruct Hg as (evs0 & Htr0 & Hm0).
  all: assert (evs0 = []) as -> by (destruct evs0; [done|discriminate Hm0]).
  all: rewrite app_nil_r in Htr0.
  2:{ by rewrite !(bind_raise _ _ _ _ _ Hgather). }
  2:{ by rewrite !(bind_out_of_fuel _ _ _ _ Hgather). }
  rewrite !(bind_return _ _ _ _ _ Hgather).
  destruct (sort_by_opt (mountpoint_key (world st0)) l) as [sorted|e|] eqn:Hsort.
  2:{ assert (Hs : sort_by_mountpoint l st0 = (Raise e, st0))
        by (unfold sort_by_mountpoint, bind, get, lift; by rewrite Hsort).
      by rewrite !(bind_raise _ _ _ _ _ Hs). }
  2:{ assert (Hs : sort_by_mountpoint l st0 = (OutOfFuel, st0))
        by (unfold sort_by_mountpoint, bind, get, lift; by rewrite Hsort).
      by rewrite !(bind_out_of_fuel _ _ _ _ Hs). }
  assert (Hs : sort_by_mountpoint l st0 = (Return sorted, st0))
    by (unfold sort_by_mountpoint, bind, get, lift; by rewrite Hsort).
  rewrite !(bind_return _ _ _ _ _ Hs). intros [= <- <-]. done.
Qed.

(** X23: when no teardown of a format raises, [umount_filesystems] returns
    with [active] cleared, and what it has done is the teardown of the format
    of every mountable device of its walk (swap left out when
    [swapoff=False]), once each, in the order of the walk; nothing else. *)
Theorem umount_filesystems_complete (E : Env) (swapoff : bool)
    (st st1 : State) (plan : list dev_id) :
  (forall w d, op_raises E w (EvFormatTeardown d) = None) ->
  umount_order E st = (Return plan, st1) ->
  let r := umount_filesystems E swapoff st in
  r.1 = Return tt
  /\ active (self r.2) = false
  /\ trace (world r.2)
     = trace (world st)
       ++ map EvFormatTeardown
            (List.filter
               (fun d => umount_applies swapoff (fmt_of (world r.2) d)) plan).
Proof.
  intros Hraise Horder r. subst r.
  destruct (umount_order_run E swapoff st st1 plan Horder) as [Htr0 ->].
  destruct (for_each_runs (umount_device E swapoff) (fun _ _ => True)
              (umount_events swapoff)
              ltac:(done)
              (fun d st _ => umount_device_runs E swapoff d st Hraise)
              plan st1 ltac:(done))
    as (st2 & Hloop & Hself & Hkept & Htrace).
  unfold bind. rewrite Hloop. simpl. split; [done|]. split; [done|].
  rewrite Htrace, Htr0. f_equal. unfold umount_events.
  rewrite (flat_map_filter
             (fun d => umount_applies swapoff (fmt_of (world st1) d))
             EvFormatTeardown plan).
  f_equal. apply filter_ext. intros d. unfold fmt_of. by rewrite (Hkept d).
Qed.


Lemma umount_filesystems_complete_witness :
  let E := Demo.env Demo.quiet in
  (umount_filesystems E true Demo.four_state).1 = Return tt.
Proof.
  intros E.
  refine (proj1 (umount_filesystems_complete E true Demo.four_state
                   (umount_order E Demo.four_state).2
                   [0; 2; 10; 7; 11; 9; 8; 5; 6; 4; 1; 3] _ _)).
  - intros w d. reflexivity.
  - vm_compute. reflexivity.
Defined.


Lemma mount_ready_kept (st st' : State) (d : dev_id) :
  self st' = self st -> formats_kept (world st) (world st') ->
  mount_ready st d -> mount_ready st' d.
Proof.
  intros Hself Hk. unfold mount_ready, binds_cached, virtual_id, fmt_of.
  by rewrite Hself, (Hk d).
Qed.

Lemma guarded_ok {A} (E : Env) (ev : Event) (ok skipped : A) (st : State) :
  op_raises E (world st) ev = None ->
  guarded E (in_world (perform E ev)) ok skipped st
  = (Return ok, mkState (self st) (after ev (world st))).
Proof.
  intros H. unfold guarded, try_except, bind, in_world.
  by rewrite (perform_ok E ev (world st) H).
Qed.

Lemma after_formats_kept (ev : Event) (w : World) : formats_kept w (after ev w).
Proof.
  intros i. unfold after. destruct ev; simpl; try done;
    by destruct (Nat.eqb i d).
Qed.

Lemma after_trace (ev : Event) (w : World) :
  trace (after ev w) = trace w ++ [ev].
Proof. unfold after. by destruct ev. Qed.

Lemma mount_device_runs (E : Env) (root_path : string)
    (read_only : option string) (skip_root : bool) (d : dev_id) (st : State) :
  (forall w ev, op_raises E w ev = None) ->
  mount_ready st d ->
  exists st',
    mount_device E root_path read_only skip_root d st = (Return tt, st')
    /\ self st' = self st
    /\ formats_kept (world st) (world st')
    /\ trace (world st')
       = trace (world st)
         ++ mount_events root_path read_only skip_root (fmt_of (world st) d) d.
Proof.
  intros Hraise (Hcached & Hattrs & Hbind).
  unfold mount_device, mount_events, mount_eligible_b, mountpoint_or_None.
  unfold bind at 1, get at 1. cbv zeta.
  set (f := fmt_of (world st) d) in *.
  destruct (f_mountable f) eqn:Hm; cbn [negb andb].
  2:{ exists st. simpl. by rewrite app_nil_r. }
  destruct (Hattrs eq_refl) as [[mpv Hmp] [options Hopts]].
  unfold bind at 1, lift at 1, format_mountpoint. rewrite Hmp.
  destruct (truthy mpv) eqn:Htruthy; cbn [negb andb].
  2:{ exists st. simpl. by rewrite app_nil_r. }
  destruct (skip_root && bool_decide (mpv = Some "/")); cbn [negb andb].
  { exists st. simpl. by rewrite app_nil_r. }
  rewrite Hopts. cbn [default from_option id].
  destruct (PyStr.mem "noauto" (PyStr.split_on "," options)); cbn [negb].
  { exists st. simpl. by rewrite app_nil_r. }
  assert (mount_options read_only f
          = if truthy read_only
            then options +:+ "," +:+ default "" read_only
            else options) as ->.
  { unfold mount_options. by rewrite Hopts. }
  set (opts := if truthy read_only then _ else _).
  assert ((if bool_decide (f_type f = Some "bind")
           then
             d0 <- virtual_device E _dev ;;
             r <- virtual_device E _run ;;
             if negb (dev_in d [d0; r]) then reparent E root_path d
             else ret true
           else ret true)%py st = (Return true, st)) as Hgo.
  { destruct (bool_decide (f_type f = Some "bind")) eqn:Hb; [|done].
    apply bool_decide_eq_true_1 in Hb. destruct Hcached as [[i Hi] [j Hj]].
    rewrite (bind_return _ _ _ _ _ (virtual_device_cached E _dev st i Hi)).
    rewrite (bind_return _ _ _ _ _ (virtual_device_cached E _run st j Hj)).
    assert (dev_in d [i; j] = true) as ->; [|done].
    unfold virtual_id in Hbind. rewrite Hi, Hj in Hbind. simpl in Hbind.
    unfold dev_in. simpl.
    destruct (Hbind Hb) as [->| ->]; rewrite Nat.eqb_refl; simpl;
      by rewrite ?orb_true_r. }
  rewrite (bind_return _ _ _ _ _ Hgo). cbn [negb].
  rewrite (bind_return _ _ _ _ _
             (guarded_ok E (EvSetup d) true false st (Hraise _ _))).
  cbn [negb]. rewrite guarded_ok by apply Hraise.
  eexists. split; [reflexivity|]. cbn [self world].
  split; [done|]. split.
  - etrans; apply after_formats_kept.
  - by rewrite !after_trace, <- app_assoc.
Qed.

(** What the mount loop walks, seen from [mount_filesystems]. *)
Lemma mount_order_run (E : Env) (root_path : string)
    (read_only : option string) (skip_root : bool) (st st1 : State)
    (plan : list dev_id) :
  installer_mode E = true ->
  mount_order E st = (Return plan, st1) ->
  trace (world st1) = trace (world st)
  /\ binds_cached st1
  /\ mount_filesystems E root_path read_only skip_root st
     = (for_each plan (mount_device E root_path read_only skip_root)
        ;;; modify_self (set_active true)) st1.
Proof.
  intros Hmode. unfold mount_order, mount_filesystems.
  rewrite Hmode. cbn [negb].
  pose proof (gather_devices_silent (fun _ => Some 0) E mount_extras st) as Hg.
  destruct (gather_devices E mount_extras st) as [[l|e|] st0] eqn:Hgather;
    simpl in Hg; destruct Hg as (evs0 & Htr0 & Hm0).
  all: assert (evs0 = []) as -> by (destruct evs0; [done|discriminate Hm0]).
  all: rewrite app_nil_r in Htr0.
  2:{ by rewrite !(bind_raise _ _ _ _ _ Hgather). }
  2:{ by rewrite !(bind_out_of_fuel _ _ _ _ Hgather). }
  rewrite !(bind_return _ _ _ _ _ Hgather).
  apply gather_devices_cached in Hgather as Hcached;
    [|unfold mount_extras; set_solver..].
  unfold sort_by_mountpoint at 1. unfold bind at 1, get at 1, lift.
  destruct (sort_by_opt (mountpoint_key (world st0)) l) as [sorted|e|] eqn:Hsort;
    [|done..].
  intros [= <- <-].
  assert (Hs : sort_by_mountpoint l st0 = (Return sorted, st0))
    by (unfold sort_by_mountpoint, bind, get, lift; by rewrite Hsort).
  by rewrite !(bind_return _ _ _ _ _ Hs).
Qed.

(** X24: in installer mode, when no operation raises, every mountable
    format of the walk has a mountpoint attribute and options, and the only
    bind formats are those of [dev] and [run], [mount_filesystems] returns
    with [active] set, and what it has done is, for each device of its walk
    that passes the tests (mountable, a mountpoint that is not empty and not
    [/] under [skip_root], no [noauto]), in the order of the walk, the setup
    of the device followed by the mount of its format; nothing else. *)
Theorem mount_filesystems_complete (E : Env) (root_path : string)
    (read_only : option string) (skip_root : bool) (st st1 : State)
    (plan : list dev_id) :
  installer_mode E = true ->
  (forall w ev, op_raises E w ev = None) ->
  mount_order E st = (Return plan, st1) ->
  (forall d, d ∈ plan ->
     let f := fmt_of (world st1) d in
     (f_mountable f = true ->
      is_Some (f_mountpoint f) /\ is_Some (f_options f))
     /\ (f_type f = Some "bind" ->
         d = virtual_id st1 _dev \/ d = virtual_id st1 _run)) ->
  let r := mount_filesystems E root_path read_only skip_root st in
  r.1 = Return tt
  /\ active (self r.2) = true
  /\ trace (world r.2)
     = trace (world st)
       ++ flat_map
            (fun d =>
               if mount_eligible_b skip_root (fmt_of (world r.2) d)
               then [EvSetup d;
                     EvFormatSetup d
                       (Some (mount_options read_only (fmt_of (world r.2) d),
                              root_path))]
               else [])
            plan.
Proof.
  intros Hmode Hraise Horder Hplan r. subst r.
  destruct (mount_order_run E root_path read_only skip_root st st1 plan
              Hmode Horder) as (Htr0 & Hcached & ->).
  destruct (for_each_runs (mount_device E root_path read_only skip_root)
              mount_ready (mount_events root_path read_only skip_root)
              mount_ready_kept
              (fun d st H =>
                 mount_device_runs E root_path read_only skip_root d st
                   Hraise H)
              plan st1)
    as (st2 & Hloop & Hself & Hkept & Htrace).
  { intros d Hd. destruct (Hplan d Hd) as [Ha Hb]. by split. }
  unfold bind. rewrite Hloop. simpl. split; [done|]. split; [done|].
  rewrite Htrace, Htr0. f_equal. apply flat_map_ext. intros d.
  unfold mount_events, fmt_of. by rewrite (Hkept d).
Qed.


Lemma mount_filesystems_complete_witness :
  let E := Demo.env Demo.quiet in
  let r := mount_filesystems E "/mnt/sysimage" None false Demo.four_state in
  r.1 = Return tt /\ active (self r.2) = true.
Proof.
  intros E r.
  destruct (mount_filesystems_complete E "/mnt/sysimage" None false
              Demo.four_state (mount_order E Demo.four_state).2
              [3; 1; 4; 6; 5; 8; 10; 11; 7; 9; 2; 0])
    as (Hret & Hactive & _).
  - reflexivity.
  - intros w ev. reflexivity.
  - vm_compute. reflexivity.
  - intros d Hd.
    repeat (apply elem_of_cons in Hd as [->|Hd]);
      try (destruct (proj1 (elem_of_nil d) Hd)).
    all: split;
      [ intros _; split; vm_compute; eexists; reflexivity
      | intros Hb;
        first [ vm_compute in Hb; discriminate Hb
              | left; vm_compute; reflexivity
              | right; vm_compute; reflexivity ] ].
  - split; [exact Hret|exact Hactive].
Defined.
